(** * Long-term memory retrieval: vector document store and working-memory window

    A shallow embedding of [rag_system.py] (class [RAGSystem]), of the
    history management of [simple_qa_chatbot.py] (class [SimpleQAChatBot])
    and of the tool executor of [rag_tool_executor.py], with the properties
    of the specification, and further properties of the code, stated over it.

    Conventions.
    - Python objects mutated in place become explicit state; a method is a
      function from the state to the new state and a result, which is either
      a returned value or a raised exception.  The state reached when an
      exception is raised is kept, as in Python.
    - The ordered [dict] of Python is an association list in insertion order.
    - The embedding model, the FAISS indexes, numpy's [argsort], the language
      model and the file system are external collaborators.  They are fields
      of the classes [Backend] and [Assistant]; what is assumed of them is
      written as explicit contracts, and a reference backend shows that the
      contracts can be met.
    - Scores are rationals: the floating-point inner product is idealised as
      exact arithmetic. *)

From Stdlib Require Import List String ZArith QArith Lia Permutation Sorted.
From Stdlib Require Import DecimalString Decimal DecimalNat.
From stdpp Require Import gmap strings.
Import ListNotations.

Local Open Scope string_scope.
Local Open Scope list_scope.

(** ** Python values: results, slices, ordered dictionaries *)

Inductive exn : Type :=
| ValueError (msg : string)
| KeyError (key : string)
| AssertionError
| RuntimeError (msg : string)
| OSError.

Inductive py_result (A : Type) : Type :=
| Ret (a : A)
| Raise (e : exn).
Arguments Ret {A} a.
Arguments Raise {A} e.

(** State and exception monad: the state survives a raised exception. *)
Definition M (S A : Type) : Type := S -> S * py_result A.

Definition ret {S A} (a : A) : M S A := fun s => (s, Ret a).
Definition raise {S A} (e : exn) : M S A := fun s => (s, Raise e).
Definition bind {S A B} (c : M S A) (k : A -> M S B) : M S B :=
  fun s => match c s with
           | (s', Ret a) => k a s'
           | (s', Raise e) => (s', Raise e)
           end.
Definition get {S} : M S S := fun s => (s, Ret s).
Definition put {S} (s : S) : M S unit := fun _ => (s, Ret tt).
Definition modify {S} (f : S -> S) : M S unit := fun s => (f s, Ret tt).
Definition lift {S A} (r : py_result A) : M S A := fun s => (s, r).

(** [try: c except Exception: h] *)
Definition try_except {S A} (c : M S A) (h : exn -> M S A) : M S A :=
  fun s => match c s with
           | (s', Ret a) => (s', Ret a)
           | (s', Raise e) => h e s'
           end.

Declare Scope py_scope.
Delimit Scope py_scope with py.
Notation "x <- c ;; k" := (bind c (fun x => k))
  (at level 100, c at next level, right associativity) : py_scope.
Notation "c ;; k" := (bind c (fun _ => k))
  (at level 100, right associativity) : py_scope.
Local Open Scope py_scope.

(** Index normalisation of a Python slice bound on a sequence of length [n]. *)
Definition py_bound (n : nat) (i : Z) : nat :=
  if (i <? 0)%Z then Z.to_nat (Z.max 0 (Z.of_nat n + i))
  else Nat.min (Z.to_nat i) n.

(** [l[:k]] *)
Definition py_slice_to {A} (k : Z) (l : list A) : list A :=
  firstn (py_bound (length l) k) l.

(** [l[k:]] *)
Definition py_slice_from {A} (k : Z) (l : list A) : list A :=
  skipn (py_bound (length l) k) l.

(** Ordered dictionary with string keys. *)
Definition dict (V : Type) : Type := list (string * V).

Definition dict_keys {V} (d : dict V) : list string := map fst d.
Definition dict_values {V} (d : dict V) : list V := map snd d.

Fixpoint dict_get {V} (k : string) (d : dict V) : option V :=
  match d with
  | [] => None
  | (k', v) :: d' => if String.eqb k k' then Some v else dict_get k d'
  end.

(** [k in d] *)
Definition dict_mem {V} (k : string) (d : dict V) : bool :=
  match dict_get k d with Some _ => true | None => false end.

(** [d[k] = v]: an existing key keeps its position, a new key goes last. *)
Fixpoint dict_set {V} (k : string) (v : V) (d : dict V) : dict V :=
  match d with
  | [] => [(k, v)]
  | (k', v') :: d' =>
      if String.eqb k k' then (k, v) :: d' else (k', v') :: dict_set k v d'
  end.

(** [del d[k]] on a present key. *)
Fixpoint dict_del {V} (k : string) (d : dict V) : dict V :=
  match d with
  | [] => []
  | (k', v') :: d' =>
      if String.eqb k k' then d' else (k', v') :: dict_del k d'
  end.

(** [list.index]: position of the first occurrence. *)
Fixpoint list_index (k : string) (l : list string) : option nat :=
  match l with
  | [] => None
  | k' :: l' =>
      if String.eqb k k' then Some 0
      else match list_index k l' with Some i => Some (S i) | None => None end
  end.

(** [list.pop(i)] for an index in range: the list without position [i]. *)
Definition list_pop {A} (i : nat) (l : list A) : list A :=
  firstn i l ++ skipn (S i) l.

(** ** Vectors and FAISS indexes *)

Definition Vec : Type := list Q.

(** Inner product, as computed by [np.dot] and by the inner-product indexes. *)
Fixpoint inner (u v : Vec) : Q :=
  match u, v with
  | x :: u', y :: v' => (x * y + inner u' v')%Q
  | _, _ => 0%Q
  end.

Inductive IndexType : Type := flat | ivf | hnsw.

Definition IndexType_eqb (a b : IndexType) : bool :=
  match a, b with
  | flat, flat | ivf, ivf | hnsw, hnsw => true
  | _, _ => false
  end.

(** A FAISS index object: the stored vectors in insertion order (label [i]
    is position [i]); the inverted-file index also carries the vectors it
    was trained on, once trained. *)
Inductive Index : Type :=
| IndexFlatIP (xb : list Vec)
| IndexIVFFlat (trained_on : option (list Vec)) (xb : list Vec)
| IndexHNSWFlat (xb : list Vec).

Definition nlist : nat := 100.

Definition is_trained (ix : Index) : bool :=
  match ix with
  | IndexIVFFlat None _ => false
  | _ => true
  end.

Definition index_vectors (ix : Index) : list Vec :=
  match ix with
  | IndexFlatIP xb | IndexIVFFlat _ xb | IndexHNSWFlat xb => xb
  end.

Definition ntotal (ix : Index) : nat := length (index_vectors ix).

(** [index.add(vs)]: appends; an untrained inverted-file index refuses. *)
Definition index_add (ix : Index) (vs : list Vec) : py_result Index :=
  match ix with
  | IndexFlatIP xb => Ret (IndexFlatIP (xb ++ vs))
  | IndexIVFFlat None _ => Raise (RuntimeError "index is not trained")
  | IndexIVFFlat (Some t) xb => Ret (IndexIVFFlat (Some t) (xb ++ vs))
  | IndexHNSWFlat xb => Ret (IndexHNSWFlat (xb ++ vs))
  end.

(** [index.train(vs)]: fits the clusters of an inverted-file index, which
    needs at least [nlist] points; a no-op on the other indexes. *)
Definition index_train (ix : Index) (vs : list Vec) : py_result Index :=
  match ix with
  | IndexIVFFlat None xb =>
      if (nlist <=? length vs)%nat then Ret (IndexIVFFlat (Some vs) xb)
      else Raise (RuntimeError "not enough training points")
  | _ => Ret ix
  end.

(** The external numeric collaborators. *)
Class Backend : Type := {
  (** [self.model.encode([text], normalize_embeddings=True)[0]] *)
  encode : string -> Vec;
  (** [np.argsort(xs)] *)
  np_argsort : list Q -> list nat;
  (** [IndexFlatIP.search(q, k)]: labels and scores of the row of [q] *)
  flat_search : list Vec -> Vec -> Z -> py_result (list (Z * Q));
  (** [IndexIVFFlat.search(q, k)] on a trained index *)
  ivf_search : list Vec -> list Vec -> Vec -> Z -> py_result (list (Z * Q));
  (** [IndexHNSWFlat.search(q, k)] *)
  hnsw_search : list Vec -> Vec -> Z -> py_result (list (Z * Q))
}.

Definition index_search `{Backend} (ix : Index) (q : Vec) (k : Z)
  : py_result (list (Z * Q)) :=
  match ix with
  | IndexFlatIP xb => flat_search xb q k
  | IndexIVFFlat None _ => Raise (RuntimeError "index is not trained")
  | IndexIVFFlat (Some t) xb => ivf_search t xb q k
  | IndexHNSWFlat xb => hnsw_search xb q k
  end.

(** ** The document store ([rag_system.py]) *)

Definition Meta : Type := list (string * string).

(** [metadata or {}] *)
Definition meta_or_empty (m : option Meta) : Meta :=
  match m with
  | Some (x :: m') => x :: m'
  | _ => []
  end.

(** The pickled snapshot written by [save_database]. *)
Record db_data : Type := {
  db_index_type : IndexType;
  db_dimension : Z;
  db_documents : dict string;
  db_metadata : dict Meta;
  db_doc_counter : nat;
  db_index_data : Index
}.

Record RAGSystem : Type := {
  index_type : IndexType;
  dimension : Z;
  current_user_id : option string;
  documents : dict string;
  metadata : dict Meta;
  doc_counter : nat;
  index : Index;
  db_path : option string
}.

(** The file system: snapshot files by path, directories, whether writes
    are refused, and the history of snapshot writes (most recent first). *)
Record Disk : Type := {
  files : gmap string db_data;
  dirs : gset string;
  read_only : bool;
  write_log : list (string * db_data)
}.

Record World : Type := {
  self : RAGSystem;
  disk : Disk
}.

Definition set_self (f : RAGSystem -> RAGSystem) : M World unit :=
  modify (fun w => {| self := f (self w); disk := disk w |}).

Definition with_current_user_id (u : option string) (s : RAGSystem) :=
  {| index_type := index_type s; dimension := dimension s;
     current_user_id := u; documents := documents s;
     metadata := metadata s; doc_counter := doc_counter s;
     index := index s; db_path := db_path s |}.

Definition with_documents (d : dict string) (s : RAGSystem) :=
  {| index_type := index_type s; dimension := dimension s;
     current_user_id := current_user_id s; documents := d;
     metadata := metadata s; doc_counter := doc_counter s;
     index := index s; db_path := db_path s |}.

Definition with_metadata (m : dict Meta) (s : RAGSystem) :=
  {| index_type := index_type s; dimension := dimension s;
     current_user_id := current_user_id s; documents := documents s;
     metadata := m; doc_counter := doc_counter s;
     index := index s; db_path := db_path s |}.

Definition with_doc_counter (n : nat) (s : RAGSystem) :=
  {| index_type := index_type s; dimension := dimension s;
     current_user_id := current_user_id s; documents := documents s;
     metadata := metadata s; doc_counter := n;
     index := index s; db_path := db_path s |}.

Definition with_index (ix : Index) (s : RAGSystem) :=
  {| index_type := index_type s; dimension := dimension s;
     current_user_id := current_user_id s; documents := documents s;
     metadata := metadata s; doc_counter := doc_counter s;
     index := ix; db_path := db_path s |}.

Definition with_db_path (p : option string) (s : RAGSystem) :=
  {| index_type := index_type s; dimension := dimension s;
     current_user_id := current_user_id s; documents := documents s;
     metadata := metadata s; doc_counter := doc_counter s;
     index := index s; db_path := p |}.

(** [f"doc_{n}"] *)
Definition doc_id_of (n : nat) : string :=
  "doc_" ++ NilEmpty.string_of_uint (Nat.to_uint n).

(** [os.path.join(a, b)] *)
Definition path_join (a b : string) : string :=
  if String.prefix "/" b then b
  else if String.eqb a "" then b
  else if String.eqb (substring (String.length a - 1) 1 a) "/" then a ++ b
  else a ++ "/" ++ b.

Definition _get_user_directory (user_id : string) : string :=
  path_join "user_memory" user_id.

Definition user_db_path (user_id : string) : string :=
  path_join (_get_user_directory user_id) ("rag_db_" ++ user_id ++ ".pkl").

Definition _create_index (t : IndexType) : Index :=
  match t with
  | flat => IndexFlatIP []
  | ivf => IndexIVFFlat None []
  | hnsw => IndexHNSWFlat []
  end.

(** [os.makedirs(d, exist_ok=True)] *)
Definition makedirs (d : string) : M World unit :=
  fun w =>
    if read_only (disk w) then (w, Raise OSError)
    else ({| self := self w;
             disk := {| files := files (disk w);
                        dirs := {[ d ]} ∪ dirs (disk w);
                        read_only := read_only (disk w);
                        write_log := write_log (disk w) |} |}, Ret tt).

(** [with open(path, 'wb') as f: pickle.dump(data, f)] *)
Definition write_file (path : string) (data : db_data) : M World unit :=
  fun w =>
    if read_only (disk w) then (w, Raise OSError)
    else ({| self := self w;
             disk := {| files := <[ path := data ]> (files (disk w));
                        dirs := dirs (disk w);
                        read_only := read_only (disk w);
                        write_log := (path, data) :: write_log (disk w) |} |},
          Ret tt).

Definition snapshot_of (s : RAGSystem) : db_data :=
  {| db_index_type := index_type s;
     db_dimension := dimension s;
     db_documents := documents s;
     db_metadata := metadata s;
     db_doc_counter := doc_counter s;
     db_index_data := index s |}.

Definition save_database : M World unit :=
  w <- get ;;
  match db_path (self w) with
  | None | Some "" =>
      raise (ValueError "Database path not set. No user database loaded.")
  | Some path => write_file path (snapshot_of (self w))
  end.

(** Snapshot files hold well-formed pickles, so the [except] branch of the
    source, which answers [False] for an unreadable file, has no input here. *)
Definition load_database (user_id : string) : M World bool :=
  w <- get ;;
  let path := user_db_path user_id in
  match files (disk w) !! path with
  | None => ret false
  | Some d =>
      set_self (fun _ =>
        {| index_type := db_index_type d;
           dimension := db_dimension d;
           current_user_id := Some user_id;
           documents := db_documents d;
           metadata := db_metadata d;
           doc_counter := db_doc_counter d;
           index := db_index_data d;
           db_path := Some path |}) ;;
      ret true
  end.

Definition same_user (cur : option string) (user_id : string) : bool :=
  match cur with
  | Some u => String.eqb u user_id
  | None => false
  end.

Definition _ensure_user_database (user_id : string) : M World unit :=
  w <- get ;;
  if same_user (current_user_id (self w)) user_id then ret tt
  else
    loaded <- load_database user_id ;;
    if loaded then set_self (with_current_user_id (Some user_id))
    else
      set_self (with_documents []) ;;
      set_self (with_metadata []) ;;
      set_self (with_doc_counter 0) ;;
      set_self (fun s => with_index (_create_index (index_type s)) s) ;;
      makedirs (_get_user_directory user_id) ;;
      set_self (with_db_path (Some (user_db_path user_id))) ;;
      set_self (with_current_user_id (Some user_id)).

Section StoreOperations.
Context `{Backend}.

Definition set_index (ix : Index) : M World unit := set_self (with_index ix).

(** [for emb in embs: self.index.add(emb.reshape(1, -1))] *)
Fixpoint add_each (ix : Index) (embs : list Vec) : py_result Index :=
  match embs with
  | [] => Ret ix
  | e :: embs' =>
      match index_add ix [e] with
      | Ret ix' => add_each ix' embs'
      | Raise x => Raise x
      end
  end.

Definition is_ivf_untrained (s : RAGSystem) : bool :=
  IndexType_eqb (index_type s) ivf && negb (is_trained (index s)).

Definition add_document (user_id document : string) (meta : option Meta)
  : M World string :=
  _ensure_user_database user_id ;;
  w <- get ;;
  let doc_id := doc_id_of (doc_counter (self w)) in
  set_self (fun s => with_doc_counter (doc_counter s + 1) s) ;;
  set_self (fun s => with_documents (dict_set doc_id document (documents s)) s) ;;
  set_self (fun s => with_metadata
                       (dict_set doc_id (meta_or_empty meta) (metadata s)) s) ;;
  let embedding := encode document in
  w <- get ;;
  returned_early <-
    (if is_ivf_untrained (self w) then
       if (100 <=? length (documents (self w)))%nat then
         let all_embeddings := map encode (dict_values (documents (self w))) in
         ix <- lift (index_train (index (self w)) all_embeddings) ;;
         set_index ix ;;
         ix' <- lift (add_each ix all_embeddings) ;;
         set_index ix' ;;
         ret false
       else ret true
     else
       ix <- lift (index_add (index (self w)) [embedding]) ;;
       set_index ix ;;
       ret false) ;;
  if (returned_early : bool) then ret doc_id
  else save_database ;; ret doc_id.

Definition _rebuild_index_without_document (exclude_position : nat)
  : M World unit :=
  set_self (fun s => with_index (_create_index (index_type s)) s) ;;
  w <- get ;;
  let doc_list := dict_values (documents (self w)) in
  let doc_list :=
    if (exclude_position <? length doc_list)%nat
    then list_pop exclude_position doc_list else doc_list in
  match doc_list with
  | [] => ret tt
  | _ =>
      let embeddings := map encode doc_list in
      (if IndexType_eqb (index_type (self w)) ivf
          && (100 <=? length doc_list)%nat
       then ix <- lift (index_train (index (self w)) embeddings) ;;
            set_index ix
       else ret tt) ;;
      w <- get ;;
      if negb (IndexType_eqb (index_type (self w)) ivf)
         || is_trained (index (self w))
      then ix <- lift (index_add (index (self w)) embeddings) ;;
           set_index ix
      else ret tt
  end.

Definition _retrain_ivf_index : M World unit :=
  w <- get ;;
  match documents (self w) with
  | [] => ret tt
  | _ =>
      set_self (fun s => with_index (_create_index (index_type s)) s) ;;
      w <- get ;;
      let all_embeddings := map encode (dict_values (documents (self w))) in
      ix <- lift (index_train (index (self w)) all_embeddings) ;;
      set_index ix ;;
      ix' <- lift (index_add ix all_embeddings) ;;
      set_index ix'
  end.

Definition update_document (user_id doc_id new_document : string)
    (new_metadata : option Meta) : M World bool :=
  _ensure_user_database user_id ;;
  w <- get ;;
  if negb (dict_mem doc_id (documents (self w))) then ret false
  else
    let doc_ids := dict_keys (documents (self w)) in
    match list_index doc_id doc_ids with
    | None => raise (ValueError "not in list")
    | Some doc_position =>
        _rebuild_index_without_document doc_position ;;
        set_self (fun s =>
          with_documents (dict_set doc_id new_document (documents s)) s) ;;
        match new_metadata with
        | Some m =>
            set_self (fun s => with_metadata (dict_set doc_id m (metadata s)) s)
        | None => ret tt
        end ;;
        let embedding := encode new_document in
        w <- get ;;
        (if is_ivf_untrained (self w) then
           if (100 <=? length (documents (self w)))%nat
           then _retrain_ivf_index else ret tt
         else
           ix <- lift (index_add (index (self w)) [embedding]) ;;
           set_index ix) ;;
        save_database ;;
        ret true
    end.

Definition delete_document (user_id doc_id : string) : M World bool :=
  _ensure_user_database user_id ;;
  w <- get ;;
  if negb (dict_mem doc_id (documents (self w))) then ret false
  else
    let doc_ids := dict_keys (documents (self w)) in
    match list_index doc_id doc_ids with
    | None => raise (ValueError "not in list")
    | Some doc_position =>
        set_self (fun s => with_documents (dict_del doc_id (documents s)) s) ;;
        w <- get ;;
        (if dict_mem doc_id (metadata (self w))
         then set_self (fun s => with_metadata (dict_del doc_id (metadata s)) s)
         else raise (KeyError doc_id)) ;;
        _rebuild_index_without_document doc_position ;;
        save_database ;;
        ret true
    end.

(** One row of a search answer: [(doc_id, document, score, metadata)]. *)
Definition SearchResult : Type := (string * string * Q * Meta)%type.

(** The loop over [zip(top_indices, scores)] that builds the answer. *)
Fixpoint prepare_results (s : RAGSystem) (doc_ids : list string)
    (hits : list (Z * Q)) : py_result (list SearchResult) :=
  match hits with
  | [] => Ret []
  | (idx, score) :: hits' =>
      if ((0 <=? idx)%Z && (idx <? Z.of_nat (length doc_ids))%Z)%bool then
        let doc_id := nth (Z.to_nat idx) doc_ids "" in
        match dict_get doc_id (documents s) with
        | None => Raise (KeyError doc_id)
        | Some document =>
            match dict_get doc_id (metadata s) with
            | None => Raise (KeyError doc_id)
            | Some meta =>
                match prepare_results s doc_ids hits' with
                | Ret rs => Ret ((doc_id, document, score, meta) :: rs)
                | Raise e => Raise e
                end
            end
        end
      else prepare_results s doc_ids hits'
  end.

(** The linear scan used while the inverted-file index is untrained. *)
Definition fallback_hits (s : RAGSystem) (q : Vec) (top_k : Z)
  : list (Z * Q) :=
  let all_embeddings := map encode (dict_values (documents s)) in
  let similarities := map (fun e => inner e q) all_embeddings in
  let top_indices := py_slice_to top_k (rev (np_argsort similarities)) in
  map (fun i => (Z.of_nat i, nth i similarities 0%Q)) top_indices.

Definition search (user_id query : string) (top_k : Z)
  : M World (list SearchResult) :=
  _ensure_user_database user_id ;;
  w <- get ;;
  let s := self w in
  if (length (documents s) =? 0)%nat then ret []
  else
    let query_embedding := encode query in
    hits <-
      (if is_ivf_untrained s then ret (fallback_hits s query_embedding top_k)
       else lift (index_search (index s) query_embedding
                    (Z.min top_k (Z.of_nat (length (documents s)))))) ;;
    let doc_ids := dict_keys (documents s) in
    lift (prepare_results s doc_ids hits).

Record Stats : Type := {
  stats_user_id : string;
  num_documents : nat;
  stats_index_type : IndexType;
  stats_dimension : Z;
  stats_is_trained : bool
}.

Definition get_stats (user_id : string) : M World Stats :=
  _ensure_user_database user_id ;;
  w <- get ;;
  ret {| stats_user_id := user_id;
         num_documents := length (documents (self w));
         stats_index_type := index_type (self w);
         stats_dimension := dimension (self w);
         stats_is_trained := is_trained (index (self w)) |}.

(** [RAGSystem(index_type=t)] *)
Definition new_rag_system (t : IndexType) : RAGSystem :=
  {| index_type := t; dimension := 384; current_user_id := None;
     documents := []; metadata := []; doc_counter := 0;
     index := _create_index t; db_path := None |}.

End StoreOperations.

(** ** The working-memory window ([simple_qa_chatbot.py]) *)

Inductive Role : Type := system | user | assistant | tool.

Record Turn : Type := { role : Role; content : string }.

Definition RetrievedDoc : Type := (string * string * Q * Meta)%type.

(** One entry of [message_memory_mapping]: [(user_message, retrieved_docs)]. *)
Definition Mapping : Type := (string * list RetrievedDoc)%type.

Record SimpleQAChatBot : Type := {
  user_id : string;
  session_id : string;
  template_path : string;
  conversation_history : list Turn;
  max_history_length : Z;
  max_working_length : Z;
  enable_background_memory : bool;
  message_memory_mapping : list Mapping;
  (** whether [self.background_rag_chatbot] is set; the object itself, with
      its store and its own history, is part of the external world *)
  background_rag_chatbot : bool
}.

(** The external collaborators of the window, over a world [W] that holds
    the background chatbot, its store, the language model and the session
    files.  Each may raise. *)
Class Assistant (W : Type) : Type := {
  (** [RAGChatBot.chat(user_message)]: one full assistant round trip *)
  rag_chat : string -> M W string;
  (** [rag_executor.execute_tool("search_documents", ...)], results extracted *)
  retrieve : string -> M W (list RetrievedDoc);
  (** [SessionManager.save_exchange(session_id, user_query, api_response)] *)
  save_exchange : string -> string -> string -> M W unit;
  (** [render_template(template_path, context)] *)
  render_template : string -> string -> list Turn -> W -> py_result (list Turn);
  (** [call_openai_chat_with_messages(messages).choices[0].message.content] *)
  call_openai : list Turn -> M W string
}.

(** Observations kept beside the program state, in chronological order:
    which batches were handed to the consolidation pipeline, and which
    evicted user messages were sent through a round trip, with the outcome. *)
Inductive Event : Type :=
| Forwarded (batch : list string)
| Consolidated (user_message : string) (succeeded : bool).

Record Session (W : Type) : Type := {
  bot : SimpleQAChatBot;
  world : W;
  events : list Event
}.
Arguments bot {W} s.
Arguments world {W} s.
Arguments events {W} s.

Definition with_history (h : list Turn) (b : SimpleQAChatBot) :=
  {| user_id := user_id b; session_id := session_id b;
     template_path := template_path b; conversation_history := h;
     max_history_length := max_history_length b;
     max_working_length := max_working_length b;
     enable_background_memory := enable_background_memory b;
     message_memory_mapping := message_memory_mapping b;
     background_rag_chatbot := background_rag_chatbot b |}.

Definition with_mapping (m : list Mapping) (b : SimpleQAChatBot) :=
  {| user_id := user_id b; session_id := session_id b;
     template_path := template_path b;
     conversation_history := conversation_history b;
     max_history_length := max_history_length b;
     max_working_length := max_working_length b;
     enable_background_memory := enable_background_memory b;
     message_memory_mapping := m;
     background_rag_chatbot := background_rag_chatbot b |}.

Definition with_lengths (n : Z) (b : SimpleQAChatBot) :=
  {| user_id := user_id b; session_id := session_id b;
     template_path := template_path b;
     conversation_history := conversation_history b;
     max_history_length := n;
     max_working_length := n * 2;
     enable_background_memory := enable_background_memory b;
     message_memory_mapping := message_memory_mapping b;
     background_rag_chatbot := background_rag_chatbot b |}.

(** [SimpleQAChatBot(user_id, max_history_length=n, enable_background_memory=e)]
    for a new session, the import of the background chatbot succeeding. *)
Definition new_chatbot (uid sid : string) (n : Z) (e : bool) : SimpleQAChatBot :=
  {| user_id := uid; session_id := sid;
     template_path := "prompt_templates/simple_qa.yaml";
     conversation_history := [];
     max_history_length := n;
     max_working_length := n * 2;
     enable_background_memory := e;
     message_memory_mapping := [];
     background_rag_chatbot := e |}.

Section Window.
Context {W : Type} `{Assistant W}.

Definition set_bot (f : SimpleQAChatBot -> SimpleQAChatBot)
  : M (Session W) unit :=
  modify (fun s => {| bot := f (bot s); world := world s; events := events s |}).

Definition log (e : Event) : M (Session W) unit :=
  modify (fun s => {| bot := bot s; world := world s;
                      events := events s ++ [e] |}).

(** Run a collaborator on the world component. *)
Definition ext {A} (c : M W A) : M (Session W) A :=
  fun s => let '(w', r) := c (world s) in
           ({| bot := bot s; world := w'; events := events s |}, r).

Definition background_on (b : SimpleQAChatBot) : bool :=
  enable_background_memory b && background_rag_chatbot b.

(** [for user_message, retrieved_docs in old_message_mappings:
       self.background_rag_chatbot.chat(user_message)] *)
Fixpoint consolidate_each (old : list Mapping) : M (Session W) unit :=
  match old with
  | [] => ret tt
  | (user_message, _) :: old' =>
      try_except
        (ext (rag_chat user_message) ;; log (Consolidated user_message true))
        (fun e => log (Consolidated user_message false) ;; raise e) ;;
      consolidate_each old'
  end.

Definition _process_old_messages_to_background_memory
    (old_message_mappings : list Mapping) : M (Session W) unit :=
  log (Forwarded (map fst old_message_mappings)) ;;
  s <- get ;;
  if negb (background_on (bot s)) then ret tt
  else try_except (consolidate_each old_message_mappings) (fun _ => ret tt).

Definition message_pairs (b : SimpleQAChatBot) : Z :=
  (Z.of_nat (length (conversation_history b)) / 2)%Z.

Definition _manage_conversation_history : M (Session W) unit :=
  s <- get ;;
  let b := bot s in
  if (max_working_length b <=? message_pairs b)%Z then
    let messages_to_keep := (max_history_length b * 2)%Z in
    let pairs_to_remove := (message_pairs b - max_history_length b)%Z in
    let old_message_mappings :=
      py_slice_to pairs_to_remove (message_memory_mapping b) in
    match old_message_mappings with
    | [] => ret tt
    | _ => _process_old_messages_to_background_memory old_message_mappings
    end ;;
    set_bot (fun b => with_history
      (py_slice_from (- messages_to_keep) (conversation_history b)) b) ;;
    set_bot (fun b => with_mapping
      (py_slice_from (- max_history_length b) (message_memory_mapping b)) b)
  else ret tt.

Definition get_retrieved_documents (user_message : string)
  : M (Session W) (list RetrievedDoc) :=
  s <- get ;;
  if negb (background_on (bot s)) then ret []
  else try_except (ext (retrieve user_message)) (fun _ => ret []).

(** The statements shared by both modes of [chat] once the reply is known. *)
Definition record_exchange (user_message assistant_response : string)
  : M (Session W) unit :=
  retrieved_docs <- get_retrieved_documents user_message ;;
  set_bot (fun b => with_mapping
    (message_memory_mapping b ++ [(user_message, retrieved_docs)]) b) ;;
  s <- get ;;
  ext (save_exchange (session_id (bot s)) user_message assistant_response) ;;
  set_bot (fun b => with_history
    (conversation_history b ++ [{| role := user; content := user_message |}]) b) ;;
  set_bot (fun b => with_history
    (conversation_history b
       ++ [{| role := assistant; content := assistant_response |}]) b) ;;
  _manage_conversation_history.

Definition chat_rag_mode (user_message : string) : M (Session W) string :=
  assistant_response <- ext (rag_chat user_message) ;;
  record_exchange user_message assistant_response ;;
  ret assistant_response.

Definition fallback_messages (history : list Turn) (user_message : string)
  : list Turn :=
  [{| role := system;
      content := "You are a helpful and knowledgeable assistant." |}]
    ++ history ++ [{| role := user; content := user_message |}].

Definition chat_simple_mode (user_message : string) : M (Session W) string :=
  s <- get ;;
  let messages :=
    match render_template (template_path (bot s)) user_message
            (conversation_history (bot s)) (world s) with
    | Ret ms => ms
    | Raise _ => fallback_messages (conversation_history (bot s)) user_message
    end in
  assistant_response <- ext (call_openai messages) ;;
  record_exchange user_message assistant_response ;;
  ret assistant_response.

Definition chat (user_message : string) : M (Session W) string :=
  s <- get ;;
  if background_on (bot s) then
    try_except (chat_rag_mode user_message)
               (fun _ => chat_simple_mode user_message)
  else chat_simple_mode user_message.

Definition set_history_length (n : Z) : M (Session W) unit :=
  set_bot (with_lengths n) ;;
  _manage_conversation_history.

(** Successive [chat] calls; stops at the first one that raises. *)
Fixpoint chat_all (user_messages : list string) : M (Session W) (list string) :=
  match user_messages with
  | [] => ret []
  | m :: ms =>
      r <- chat m ;;
      rs <- chat_all ms ;;
      ret (r :: rs)
  end.

Definition pair_count (s : Session W) : Z := message_pairs (bot s).

Definition forwarded_batches (evs : list Event) : list (list string) :=
  flat_map (fun e => match e with Forwarded b => [b] | _ => [] end) evs.

Definition consolidations (evs : list Event) : list (string * bool) :=
  flat_map (fun e => match e with
                     | Consolidated m ok => [(m, ok)]
                     | _ => []
                     end) evs.

End Window.

(** ** Contracts of the numeric collaborators *)

(** [np.argsort] answers a permutation of the positions, ascending by value. *)
Definition argsort_contract `{Backend} : Prop :=
  forall xs : list Q,
    Permutation (np_argsort xs) (seq 0 (length xs)) /\
    StronglySorted (fun i j => (nth i xs 0 <= nth j xs 0)%Q) (np_argsort xs).

(** [IndexFlatIP.search] is exact: for [1 <= k <= ntotal] it answers the
    first [k] positions of some ordering of all stored vectors by descending
    inner product with the query, each with its score. *)
Definition flat_search_contract `{Backend} : Prop :=
  forall (xb : list Vec) (q : Vec) (k : Z),
    (1 <= k <= Z.of_nat (length xb))%Z ->
    exists order : list nat,
      Permutation order (seq 0 (length xb)) /\
      StronglySorted
        (fun i j => (inner (nth j xb []) q <= inner (nth i xb []) q)%Q) order /\
      flat_search xb q k =
        Ret (map (fun i => (Z.of_nat i, inner (nth i xb []) q))
               (firstn (Z.to_nat k) order)).

(** ** A reference backend and a reference assistant

    Executable stand-ins for the collaborators, used to run the model on
    concrete inputs.  They meet the contracts above, and settle what the
    contracts leave open the way the libraries do on short inputs:
    [np.argsort] leaves equal values in positional order (ascending order
    by insertion), and the flat inner-product index keeps a candidate until
    a strictly larger score is met, so the earliest of equal scores wins. *)

Fixpoint insert_by (leb : nat -> nat -> bool) (x : nat) (l : list nat)
  : list nat :=
  match l with
  | [] => [x]
  | y :: l' => if leb x y then x :: y :: l' else y :: insert_by leb x l'
  end.

Definition sort_by (leb : nat -> nat -> bool) (l : list nat) : list nat :=
  fold_right (insert_by leb) [] l.

Definition ref_argsort (xs : list Q) : list nat :=
  sort_by (fun i j => Qle_bool (nth i xs 0%Q) (nth j xs 0%Q))
          (seq 0 (length xs)).

(** Score reported beside the label [-1] of a missing neighbour. *)
Definition missing_score : Q := (- 340282346638528859811704183484516925440)%Q.

(** Exact search keeping the earliest position among equal scores; refuses
    [k <= 0]; pads with label [-1] when fewer than [k] vectors are stored. *)
Definition ref_flat_search (xb : list Vec) (q : Vec) (k : Z)
  : py_result (list (Z * Q)) :=
  if (k <=? 0)%Z then Raise AssertionError
  else
    let order :=
      sort_by (fun i j => Qle_bool (inner (nth j xb []) q) (inner (nth i xb []) q))
              (seq 0 (length xb)) in
    let found := firstn (Z.to_nat k) order in
    Ret (map (fun i => (Z.of_nat i, inner (nth i xb []) q)) found
           ++ repeat ((-1)%Z, missing_score) (Z.to_nat k - length found)).

(** A toy embedding into unit vectors of dimension 3, chosen by the length
    of the text. *)
Definition ref_encode (t : string) : Vec :=
  match (String.length t mod 4)%nat with
  | 0%nat => [1%Q; 0%Q; 0%Q]
  | 1%nat => [0%Q; 1%Q; 0%Q]
  | 2%nat => [0%Q; 0%Q; 1%Q]
  | _ => [(3 # 5)%Q; (4 # 5)%Q; 0%Q]
  end.

Definition ref_backend : Backend :=
  {| encode := ref_encode;
     np_argsort := ref_argsort;
     flat_search := ref_flat_search;
     ivf_search := fun _ xb q k => ref_flat_search xb q k;
     hnsw_search := ref_flat_search |}.

(** The reference assistant keeps the list of messages it was sent.  A
    message starting with [bad] is answered the first time and makes the
    round trip raise from the second time on. *)
Definition ref_rag_chat (m : string) : M (list string) string :=
  fun seen =>
    if (String.prefix "bad" m && existsb (String.eqb m) seen)%bool
    then (seen ++ [m], Raise (RuntimeError "assistant unavailable"))
    else (seen ++ [m], Ret ("re: " ++ m)%string).

Definition ref_assistant : Assistant (list string) :=
  {| rag_chat := ref_rag_chat;
     retrieve := fun _ => ret [];
     save_exchange := fun _ _ _ => ret tt;
     render_template := fun _ _ _ _ => Raise OSError;
     call_openai := fun _ => ret "ok" |}.

Definition new_session (b : SimpleQAChatBot) : Session (list string) :=
  {| bot := b; world := []; events := [] |}.

(** ** State predicates of the document store *)

(** The database of [uid] is the one in memory, and it has its file path. *)
Definition loaded (w : World) (uid : string) : Prop :=
  current_user_id (self w) = Some uid /\
  exists p, db_path (self w) = Some p /\ p <> "".

(** Vector [i] of the index is the embedding of the [i]-th document. *)
Definition aligned `{Backend} (s : RAGSystem) : Prop :=
  index_vectors (index s) = map encode (dict_values (documents s)).

Definition empty_disk : Disk :=
  {| files := ∅; dirs := ∅; read_only := false; write_log := [] |}.

(** A store object just constructed, before any user was touched. *)
Definition fresh_world (t : IndexType) : World :=
  {| self := new_rag_system t; disk := empty_disk |}.

(** ** Concrete scenarios *)

(** A three-document database of user [u] on the exact index, as left by
    three [add_document] calls under the reference backend, and the same
    corpus on a clustered index that is still untrained. *)
Definition example_store (t : IndexType) (ix : Index) : RAGSystem :=
  {| index_type := t; dimension := 384;
     current_user_id := Some "u";
     documents := [("doc_0", "a"); ("doc_1", "bb"); ("doc_2", "ccc")];
     metadata := [("doc_0", []); ("doc_1", []); ("doc_2", [])];
     doc_counter := 3;
     index := ix;
     db_path := Some "user_memory/u/rag_db_u.pkl" |}.

Definition example_world : World :=
  {| self := example_store flat
               (IndexFlatIP [ref_encode "a"; ref_encode "bb"; ref_encode "ccc"]);
     disk := empty_disk |}.

Definition example_world_ivf : World :=
  {| self := example_store ivf (IndexIVFFlat None []); disk := empty_disk |}.

(** Three additions to a new exact store, then deletion of the first. *)
Definition add_three_delete_first `{Backend} : M World bool :=
  add_document "u" "a" None ;;
  add_document "u" "b" None ;;
  add_document "u" "c" None ;;
  delete_document "u" "doc_0".

(** ** The window step as pure functions of the chatbot object *)

Definition overflowing (b : SimpleQAChatBot) : bool :=
  (max_working_length b <=? message_pairs b)%Z.

(** The mapping entries handed to consolidation when the window overflows. *)
Definition evicted_batch (b : SimpleQAChatBot) : list Mapping :=
  py_slice_to (message_pairs b - max_history_length b) (message_memory_mapping b).

Definition forwarded_by (b : SimpleQAChatBot) : list (list string) :=
  if overflowing b then
    match evicted_batch b with
    | [] => []
    | batch => [map fst batch]
    end
  else [].

(** The chatbot object after [_manage_conversation_history]. *)
Definition trimmed (b : SimpleQAChatBot) : SimpleQAChatBot :=
  if overflowing b then
    with_mapping
      (py_slice_from (- max_history_length b) (message_memory_mapping b))
      (with_history
         (py_slice_from (- (max_history_length b * 2)) (conversation_history b)) b)
  else b.

(** The chatbot object after the appends of one exchange. *)
Definition appended (b : SimpleQAChatBot) (user_message reply : string)
    (docs : list RetrievedDoc) : SimpleQAChatBot :=
  with_history
    (conversation_history b
       ++ [{| role := user; content := user_message |};
           {| role := assistant; content := reply |}])
    (with_mapping (message_memory_mapping b ++ [(user_message, docs)]) b).

(** Replays exchanges whose replies and retrieved documents are known:
    the final chatbot object and the batches forwarded on the way. *)
Fixpoint replay (b : SimpleQAChatBot)
    (turns : list (string * string * list RetrievedDoc))
  : SimpleQAChatBot * list (list string) :=
  match turns with
  | [] => (b, [])
  | (m, r, docs) :: turns' =>
      let b1 := appended b m r docs in
      let '(b', f) := replay (trimmed b1) turns' in
      (b', forwarded_by b1 ++ f)
  end.

(** [batch_outcome msgs attempts completed]: the round trips made for a
    batch [msgs] are its messages in order, each answered, up to the end of
    the batch ([completed = true]) or up to and including the first one that
    raised ([completed = false]). *)
Inductive batch_outcome : list string -> list (string * bool) -> bool -> Prop :=
| outcome_end : batch_outcome [] [] true
| outcome_answered m ms cs c :
    batch_outcome ms cs c -> batch_outcome (m :: ms) ((m, true) :: cs) c
| outcome_raised m ms : batch_outcome (m :: ms) [(m, false)] false.

Definition consolidated_events (cs : list (string * bool)) : list Event :=
  map (fun c => Consolidated (fst c) (snd c)) cs.

(** [save_exchange] never raises: the session file can be appended to. *)
Definition session_writable {W : Type} `{Assistant W} : Prop :=
  forall (sid q a : string) (w : W), snd (save_exchange sid q a w) = Ret tt.

Fixpoint zip3 {A B C} (l1 : list A) (l2 : list B) (l3 : list C)
  : list (A * B * C) :=
  match l1, l2, l3 with
  | a :: l1', b :: l2', c :: l3' => (a, b, c) :: zip3 l1' l2' l3'
  | _, _, _ => []
  end.

(** The round trips made for [batch] by one call of the consolidation
    pipeline from [s], with their outcomes, in order. *)
Definition round_trips {W : Type} `{Assistant W}
    (batch : list Mapping) (s : Session W) : list (string * bool) :=
  consolidations
    (skipn (length (events s))
           (events (fst (_process_old_messages_to_background_memory batch s)))).

(** Some turn of the batch still gets its round trip after the round trip
    of an earlier turn of the batch has raised. *)
Definition later_turn_runs_after_failure {W : Type} `{Assistant W}
    (batch : list Mapping) (s : Session W) : Prop :=
  exists pre m1 mid m2 ok post,
    round_trips batch s = pre ++ (m1, false) :: mid ++ (m2, ok) :: post.

Definition seven_messages : list string :=
  ["m1"; "m2"; "m3"; "m4"; "m5"; "m6"; "m7"].

(** A session of the reference assistant in which [bad2] was answered once. *)
Definition session_after_bad2 : Session (list string) :=
  {| bot := new_chatbot "u" "s" 3 true; world := ["bad2"]; events := [] |}.

(** A window of five pairs with [N = 3], about to overflow; [bad1] has been
    answered once, so its consolidation will raise. *)
Definition five_pair_session : Session (list string) :=
  {| bot :=
       with_mapping [("bad1", []); ("m2", []); ("m3", []); ("m4", []); ("m5", [])]
         (with_history
            [{| role := user; content := "bad1" |};
             {| role := assistant; content := "re: bad1" |};
             {| role := user; content := "m2" |};
             {| role := assistant; content := "re: m2" |};
             {| role := user; content := "m3" |};
             {| role := assistant; content := "re: m3" |};
             {| role := user; content := "m4" |};
             {| role := assistant; content := "re: m4" |};
             {| role := user; content := "m5" |};
             {| role := assistant; content := "re: m5" |}]
            (new_chatbot "u" "s" 3 true));
     world := ["bad1"; "m2"; "m3"; "m4"; "m5"];
     events := [] |}.

(** Descending order of positions by a score function. *)
Definition by_score_desc (sc : nat -> Q) (i j : nat) : Prop := (sc j <= sc i)%Q.

(** Score of the [i]-th document of a corpus against a query vector. *)
Definition corpus_score `{Backend} (docs : dict string) (q : Vec) (i : nat) : Q :=
  inner (nth i (map encode (dict_values docs)) []) q.

(** An ordering of all positions of the corpus by descending score. *)
Definition is_ranking `{Backend} (docs : dict string) (q : Vec)
    (order : list nat) : Prop :=
  Permutation order (seq 0 (length docs)) /\
  StronglySorted (by_score_desc (corpus_score docs q)) order.

(** No two documents of the corpus have the same score against the query. *)
Definition no_ties `{Backend} (docs : dict string) (q : Vec) : Prop :=
  forall i j, (i < length docs)%nat -> (j < length docs)%nat -> i <> j ->
              ~ (corpus_score docs q i == corpus_score docs q j)%Q.

(** The same text stored twice, on the exact and on the clustered variant. *)
Definition add_twice `{Backend} : M World string :=
  add_document "u" "a" None ;;
  add_document "u" "a" None.

(** The documents and metadata of the store after [add_document]. *)
Definition after_add (s : RAGSystem) (text : string) (meta : option Meta)
  : RAGSystem :=
  with_metadata
    (dict_set (doc_id_of (doc_counter s)) (meta_or_empty meta) (metadata s))
    (with_documents (dict_set (doc_id_of (doc_counter s)) text (documents s))
       (with_doc_counter (doc_counter s + 1) s)).

(** Two additions, deletion of the first document, one more addition. *)
Definition add_delete_add `{Backend} : M World string :=
  add_document "u" "a" None ;;
  add_document "u" "bb" None ;;
  delete_document "u" "doc_0" ;;
  add_document "u" "ccc" None.

(** Three additions to a new exact store, then an update of the first. *)
Definition add_three_update_first `{Backend} : M World bool :=
  add_document "u" "a" None ;;
  add_document "u" "bb" None ;;
  add_document "u" "ccc" None ;;
  update_document "u" "doc_0" "dddd" None.

(** Store operations of one user, run one after the other; the caller goes
    on after an operation that raised, with the state it left. *)
Inductive StoreOp : Type :=
| op_add (text : string) (meta : option Meta)
| op_update (doc_id text : string) (meta : option Meta)
| op_delete (doc_id : string)
| op_search (query : string) (top_k : Z)
| op_stats.

Definition run_op `{Backend} (uid : string) (o : StoreOp) (w : World) : World :=
  match o with
  | op_add text meta => fst (add_document uid text meta w)
  | op_update doc_id text meta => fst (update_document uid doc_id text meta w)
  | op_delete doc_id => fst (delete_document uid doc_id w)
  | op_search query top_k => fst (search uid query top_k w)
  | op_stats => fst (get_stats uid w)
  end.

Definition run_ops `{Backend} (uid : string) (ops : list StoreOp) (w : World)
  : World :=
  fold_left (fun w o => run_op uid o w) ops w.

(** [c] keeps [P] true of the state, whether it returns or raises. *)
Definition preserves {A} (P : World -> Prop) (c : M World A) : Prop :=
  forall w, P w -> P (fst (c w)).

(** The database of [uid] is in memory, it does not hold the identifier
    made from [n], and its counter is past [n]. *)
Definition retired (uid : string) (n : nat) (w : World) : Prop :=
  current_user_id (self w) = Some uid /\
  ~ In (doc_id_of n) (dict_keys (documents (self w))) /\
  (n < doc_counter (self w))%nat.

(** ** Closed forms of the store mutations *)

(** The document list the rebuild embeds: position [pos] left out when it is
    in range. *)
Definition remaining {A} (pos : nat) (l : list A) : list A :=
  if (pos <? length l)%nat then list_pop pos l else l.

(** The index the rebuild leaves for a store of type [t] from the
    embeddings [embs] of the remaining documents. *)
Definition rebuilt_index (t : IndexType) (embs : list Vec) : Index :=
  match embs with
  | [] => _create_index t
  | _ :: _ =>
      match t with
      | flat => IndexFlatIP embs
      | ivf =>
          if (100 <=? length embs)%nat then IndexIVFFlat (Some embs) embs
          else IndexIVFFlat None []
      | hnsw => IndexHNSWFlat embs
      end
  end.

(** Documents and metadata after [delete_document] of a present identifier. *)
Definition after_delete (s : RAGSystem) (doc_id : string) : RAGSystem :=
  with_metadata (dict_del doc_id (metadata s))
    (with_documents (dict_del doc_id (documents s)) s).

(** Documents and metadata after [update_document] of a present identifier. *)
Definition after_update (s : RAGSystem) (doc_id text : string)
    (meta : option Meta) : RAGSystem :=
  match meta with
  | Some m =>
      with_metadata (dict_set doc_id m (metadata s))
        (with_documents (dict_set doc_id text (documents s)) s)
  | None => with_documents (dict_set doc_id text (documents s)) s
  end.

(** The store object is [s] except, possibly, for its index. *)
Definition same_but_index (s : RAGSystem) (w : World) : Prop :=
  exists ix, self w = with_index ix s.

(** What Python's [dict] and the counter guarantee of a database: distinct
    keys, the same keys in [metadata] as in [documents], and every key
    issued by the counter. *)
Definition consistent_db (s : RAGSystem) : Prop :=
  List.NoDup (dict_keys (documents s)) /\
  dict_keys (metadata s) = dict_keys (documents s) /\
  forall k, In k (dict_keys (documents s)) ->
            exists n, (n < doc_counter s)%nat /\ k = doc_id_of n.

(** The snapshot file of the database in memory holds its current state. *)
Definition persisted (w : World) : Prop :=
  exists p, db_path (self w) = Some p /\
            files (disk w) !! p = Some (snapshot_of (self w)).

(** The index object of a variant that needs no training, holding [vs]. *)
Definition plain_index (t : IndexType) (vs : list Vec) : Index :=
  match t with
  | flat => IndexFlatIP vs
  | ivf => IndexIVFFlat None []
  | hnsw => IndexHNSWFlat vs
  end.

(** The three-document database with its snapshot on disk, and the same
    on a disk that refuses writes. *)
Definition saved_example_world : World :=
  {| self := self example_world;
     disk := {| files := <[ user_db_path "u" := snapshot_of (self example_world) ]> ∅;
                dirs := {[ _get_user_directory "u" ]};
                read_only := false;
                write_log := [] |} |}.

Definition locked_example_world : World :=
  {| self := self example_world;
     disk := {| files := <[ user_db_path "u" := snapshot_of (self example_world) ]> ∅;
                dirs := {[ _get_user_directory "u" ]};
                read_only := true;
                write_log := [] |} |}.

(** Whenever [c] returns, [Q] holds of the state it leaves and of the value. *)
Definition on_return {A} (Q : World -> A -> Prop) (c : M World A) : Prop :=
  forall w w' a, c w = (w', Ret a) -> Q w' a.

(** The answer row of position [i] of the corpus for a query vector:
    identifier, stored text, score and stored metadata. *)
Definition answer_row `{Backend} (s : RAGSystem) (q : Vec) (i : nat)
  : SearchResult :=
  (nth i (dict_keys (documents s)) "",
   nth i (dict_values (documents s)) "",
   corpus_score (documents s) q i,
   nth i (dict_values (metadata s)) []).

(** A clustered store of user [u] holding [n] documents, as [n] additions
    below the training threshold leave it: nothing in the index yet. *)
Definition bulk_docs (n : nat) : dict string :=
  map (fun i => (doc_id_of i, "a")) (seq 0 n).

Definition bulk_world (n : nat) : World :=
  {| self := {| index_type := ivf; dimension := 384;
                current_user_id := Some "u";
                documents := bulk_docs n;
                metadata := map (fun i => (doc_id_of i, [])) (seq 0 n);
                doc_counter := n;
                index := IndexIVFFlat None [];
                db_path := Some "user_memory/u/rag_db_u.pkl" |};
     disk := empty_disk |}.

(** ** The window in step with its mapping *)

(** The two turns that one exchange appends to the history. *)
Definition exchange_turns (p : string * string) : list Turn :=
  [{| role := user; content := fst p |};
   {| role := assistant; content := snd p |}].

(** The history is the exchanges of the mapping entries, in order, each a
    user turn with the entry's message followed by an assistant turn. *)
Definition history_of_mapping (b : SimpleQAChatBot) : Prop :=
  exists replies : list string,
    length replies = length (message_memory_mapping b) /\
    conversation_history b
    = flat_map exchange_turns
        (combine (map fst (message_memory_mapping b)) replies).

(** [N >= 1], the threshold is [2N], the history is that of the mapping
    entries, and the window is below its threshold. *)
Definition window_in_step (b : SimpleQAChatBot) : Prop :=
  (1 <= max_history_length b)%Z /\
  max_working_length b = (max_history_length b * 2)%Z /\
  history_of_mapping b /\
  (message_pairs b < max_working_length b)%Z.

(** The user messages the session accounts for: those of the batches
    forwarded to consolidation, then those still in the window. *)
Definition accounted {W : Type} (s : Session W) : list string :=
  concat (forwarded_batches (events s))
    ++ map fst (message_memory_mapping (bot s)).

(** [clear_conversation]: empties the history; the mapping is not touched. *)
Definition clear_conversation {W : Type} : M (Session W) unit :=
  set_bot (with_history []).

(** ** The tool executor ([rag_tool_executor.py]) *)

(** A call of [execute_tool] with a well-formed argument dictionary, for
    the tools whose store operations are modelled above. *)
Inductive ToolCall : Type :=
| tool_add_document (user_id document : string) (metadata : option Meta)
| tool_search_documents (user_id query : string) (top_k : Z)
| tool_update_document (user_id doc_id new_document : string)
    (new_metadata : option Meta)
| tool_delete_document (user_id doc_id : string)
| tool_save_database
| tool_load_database (user_id : string)
| tool_get_database_stats (user_id : string).

(** The dictionaries answered by the tool methods, one constructor per
    shape; [load_documents_only_data] is the answer of [_load_documents_only]
    for a file that was read. *)
Inductive ToolData : Type :=
| add_document_data (doc_id message user_id document_preview : string)
| search_documents_data (query user_id : string) (num_results : nat)
    (results : list SearchResult)
| update_document_data (message doc_id user_id : string) (updated : bool)
| delete_document_data (message doc_id user_id : string) (deleted : bool)
| save_database_data (message : string) (saved : bool)
| load_database_data (message user_id : string) (was_loaded : bool)
    (stats : option Stats)
| get_database_stats_data (message : string) (stats : Stats)
| load_documents_only_data (message file_path : string) (num_documents : nat)
    (document_ids : list string) (docs : dict string).

(** The envelope answered by [execute_tool]; [error] is the exception whose
    text the envelope carries. *)
Record ToolResult : Type := {
  success : bool;
  error : option exn;
  data : option ToolData
}.

(** [d["document_ids"]] when the dictionary has that key. *)
Definition document_ids_of (d : ToolData) : option (list string) :=
  match d with
  | load_documents_only_data _ _ _ ids _ => Some ids
  | _ => None
  end.

(** [d["results"]] when the dictionary has that key. *)
Definition results_of (d : ToolData) : option (list SearchResult) :=
  match d with
  | search_documents_data _ _ _ rs => Some rs
  | _ => None
  end.

(** [document[:100] + "..." if len(document) > 100 else document] *)
Definition document_preview (document : string) : string :=
  if (100 <? String.length document)%nat
  then (substring 0 100 document ++ "...")%string
  else document.

(** [k in None]: a [TypeError], which no handler here tells from the
    other exceptions. *)
Definition not_iterable : exn :=
  RuntimeError "argument of type 'NoneType' is not iterable".

Section ToolExecutor.
Context `{Backend}.

Definition _add_document (user_id document : string) (meta : option Meta)
  : M World ToolData :=
  doc_id <- add_document user_id document meta ;;
  ret (add_document_data doc_id
         ("Document added successfully for user " ++ user_id)%string
         user_id (document_preview document)).

Definition _search_documents (user_id query : string) (top_k : Z)
  : M World ToolData :=
  results <- search user_id query top_k ;;
  ret (search_documents_data query user_id (length results) results).

Definition _update_document (user_id doc_id new_document : string)
    (new_metadata : option Meta) : M World ToolData :=
  ok <- update_document user_id doc_id new_document new_metadata ;;
  if (ok : bool) then
    ret (update_document_data
           ("Document " ++ doc_id ++ " updated successfully for user " ++ user_id)%string
           doc_id user_id true)
  else
    ret (update_document_data
           ("Document " ++ doc_id ++ " not found for user " ++ user_id)%string
           doc_id user_id false).

Definition _delete_document (user_id doc_id : string) : M World ToolData :=
  ok <- delete_document user_id doc_id ;;
  if (ok : bool) then
    ret (delete_document_data
           ("Document " ++ doc_id ++ " deleted successfully for user " ++ user_id)%string
           doc_id user_id true)
  else
    ret (delete_document_data
           ("Document " ++ doc_id ++ " not found for user " ++ user_id)%string
           doc_id user_id false).

(** Only [ValueError] is handled here; anything else goes on to the
    handler of [execute_tool]. *)
Definition _save_database : M World ToolData :=
  try_except
    (save_database ;; ret (save_database_data "Database saved successfully" true))
    (fun e => match e with
              | ValueError msg => ret (save_database_data msg false)
              | _ => raise e
              end).

Definition _load_database (user_id : string) : M World ToolData :=
  ok <- load_database user_id ;;
  if (ok : bool) then
    stats <- get_stats user_id ;;
    ret (load_database_data
           ("Database loaded successfully for user " ++ user_id)%string
           user_id true (Some stats))
  else
    ret (load_database_data
           ("Database not found for user " ++ user_id)%string
           user_id false None).

Definition _get_database_stats (user_id : string) : M World ToolData :=
  stats <- get_stats user_id ;;
  ret (get_database_stats_data
         ("Statistics retrieved for user " ++ user_id)%string stats).

Definition execute_tool (call : ToolCall) : M World ToolResult :=
  try_except
    (result <-
       match call with
       | tool_add_document u d m => _add_document u d m
       | tool_search_documents u q k => _search_documents u q k
       | tool_update_document u i d m => _update_document u i d m
       | tool_delete_document u i => _delete_document u i
       | tool_save_database => _save_database
       | tool_load_database u => _load_database u
       | tool_get_database_stats u => _get_database_stats u
       end ;;
     ret {| success := true; error := None; data := Some result |})
    (fun e => ret {| success := false; error := Some e; data := None |}).

(** [create_rag_enabled_chat(user_id, index_type)]: the store of the new
    executor, on the disk as it is. *)
Definition create_rag_enabled_chat (user_id : option string) (t : IndexType)
    (d : Disk) : World :=
  let w := {| self := new_rag_system t; disk := d |} in
  match user_id with
  | None | Some "" => w
  | Some u => fst (execute_tool (tool_load_database u) w)
  end.

(** [for doc_id in ...: execute_tool("delete_document", ...)] *)
Fixpoint delete_each (user_id : string) (doc_ids : list string) : M World unit :=
  match doc_ids with
  | [] => ret tt
  | doc_id :: doc_ids' =>
      execute_tool (tool_delete_document user_id doc_id) ;;
      delete_each user_id doc_ids'
  end.

(** [SimpleQAChatBot.clear_background_memory], on the store of the
    background chatbot's executor. *)
Definition clear_background_memory (b : SimpleQAChatBot) : M World unit :=
  if background_on b then
    try_except
      (stats_result <- execute_tool (tool_get_database_stats (user_id b)) ;;
       match data stats_result with
       | None => raise not_iterable
       | Some d =>
           match document_ids_of d with
           | Some doc_ids => delete_each (user_id b) doc_ids
           | None => ret tt
           end
       end)
      (fun _ => ret tt)
  else ret tt.

(** The search behind [SimpleQAChatBot.get_retrieved_documents], before its
    handler: the rows under [results] of the [search_documents] tool. *)
Definition retrieve_through_executor (b : SimpleQAChatBot)
    (user_message : string) : M World (list SearchResult) :=
  search_result <-
    execute_tool (tool_search_documents (user_id b) user_message 5) ;;
  match data search_result with
  | None => raise not_iterable
  | Some d =>
      match results_of d with
      | Some rs => ret rs
      | None => ret []
      end
  end.

End ToolExecutor.

(** The reference assistant with a session file that cannot be written. *)
Definition unwritable_assistant : Assistant (list string) :=
  {| rag_chat := ref_rag_chat;
     retrieve := fun _ => ret [];
     save_exchange := fun _ _ _ => raise OSError;
     render_template := fun _ _ _ _ => Raise OSError;
     call_openai := fun _ => ret "ok" |}.

(** The database of [uid] is in memory with its path [p], and the file
    system holds [x] (a snapshot or nothing) at the other path [q]. *)
Definition other_file_kept (uid p q : string) (x : option db_data)
    (w : World) : Prop :=
  current_user_id (self w) = Some uid /\
  db_path (self w) = Some p /\
  files (disk w) !! q = x.

(** The clustered store just trained by its hundredth addition. *)
Definition trained_hundred_world : World :=
  fst (@add_document ref_backend "u" "bb" None (bulk_world 99)).

(** ** A session resumed from its file *)

Definition with_session_id (sid : string) (b : SimpleQAChatBot) :=
  {| user_id := user_id b; session_id := sid;
     template_path := template_path b;
     conversation_history := conversation_history b;
     max_history_length := max_history_length b;
     max_working_length := max_working_length b;
     enable_background_memory := enable_background_memory b;
     message_memory_mapping := message_memory_mapping b;
     background_rag_chatbot := background_rag_chatbot b |}.

(** [message["role"] in ["user", "assistant", "tool"]] *)
Definition kept_in_history (t : Turn) : bool :=
  match role t with
  | user | assistant | tool => true
  | system => false
  end.

(** [load_session(session_id)], where [messages] is what
    [load_session_history] answers for the session file: the history is
    rebuilt from the messages; the mapping is not touched. *)
Definition load_session {W : Type} (messages : list Turn) (sid : string)
  : M (Session W) unit :=
  set_bot (with_history []) ;;
  set_bot (fun b =>
    with_history
      (fold_left (fun h t => if kept_in_history t then h ++ [t] else h)
                 messages (conversation_history b)) b) ;;
  set_bot (with_session_id sid).

(** [SimpleQAChatBot(user_id, session_id, max_history_length=3)] for a
    session file that holds five exchanges. *)
Definition five_exchanges : list Turn :=
  [{| role := user; content := "m1" |};
   {| role := assistant; content := "re: m1" |};
   {| role := user; content := "m2" |};
   {| role := assistant; content := "re: m2" |};
   {| role := user; content := "m3" |};
   {| role := assistant; content := "re: m3" |};
   {| role := user; content := "m4" |};
   {| role := assistant; content := "re: m4" |};
   {| role := user; content := "m5" |};
   {| role := assistant; content := "re: m5" |}].

Definition resumed_session : Session (list string) :=
  fst (load_session five_exchanges "s"
         (new_session (new_chatbot "u" "s" 3 true))).

(** * Properties *)

(** ** Facts about dictionaries and slices *)

Lemma dict_mem_In {V} (k : string) (d : dict V) :
  dict_mem k d = true <-> In k (dict_keys d).
Proof.
  unfold dict_mem. induction d as [|[k' v] d IH]; simpl.
  - split; [discriminate | tauto].
  - destruct (String.eqb_spec k k') as [->|Hne].
    + split; auto.
    + rewrite IH. split; [auto | intros [Heq|Hin]; [congruence | exact Hin]].
Qed.

Lemma dict_mem_false {V} (k : string) (d : dict V) :
  dict_mem k d = false <-> ~ In k (dict_keys d).
Proof.
  rewrite <- dict_mem_In. destruct (dict_mem k d); split; congruence.
Qed.

Lemma dict_set_fresh {V} (k : string) (v : V) (d : dict V) :
  dict_mem k d = false -> dict_set k v d = d ++ [(k, v)].
Proof.
  unfold dict_mem. induction d as [|[k' v'] d IH]; simpl; [reflexivity|].
  destruct (String.eqb k k'); [discriminate|].
  intros Hm. rewrite IH by exact Hm. reflexivity.
Qed.

Lemma dict_get_set_eq {V} (k : string) (v : V) (d : dict V) :
  dict_get k (dict_set k v d) = Some v.
Proof.
  induction d as [|[k' v'] d IH]; simpl.
  - rewrite String.eqb_refl. reflexivity.
  - destruct (String.eqb k k') eqn:E; simpl.
    + rewrite String.eqb_refl. reflexivity.
    + rewrite E. exact IH.
Qed.

Lemma dict_del_length {V} (k : string) (d : dict V) :
  dict_mem k d = true -> S (length (dict_del k d)) = length d.
Proof.
  unfold dict_mem. induction d as [|[k' v'] d IH]; simpl; [discriminate|].
  destruct (String.eqb k k'); [reflexivity|].
  intros Hm. simpl. rewrite IH by exact Hm. reflexivity.
Qed.

Lemma dict_del_keys_incl {V} (k x : string) (d : dict V) :
  In x (dict_keys (dict_del k d)) -> In x (dict_keys d).
Proof.
  induction d as [|[k' v'] d IH]; simpl; [tauto|].
  destruct (String.eqb k k'); simpl; [auto|].
  intros [Hx|Hx]; auto.
Qed.

Lemma dict_del_not_in {V} (k : string) (d : dict V) :
  List.NoDup (dict_keys d) -> ~ In k (dict_keys (dict_del k d)).
Proof.
  induction d as [|[k' v'] d IH]; simpl; [tauto|].
  intros Hnd. apply List.NoDup_cons_iff in Hnd as [Hk' Hnd].
  destruct (String.eqb_spec k k') as [->|Hne]; [exact Hk'|].
  simpl. intros [Heq|Hin]; [congruence | exact (IH Hnd Hin)].
Qed.

Lemma list_index_Some (k : string) (l : list string) :
  In k l -> exists i, list_index k l = Some i /\ (i < length l)%nat.
Proof.
  induction l as [|k' l IH]; simpl; [tauto|].
  intros Hin. destruct (String.eqb_spec k k') as [->|Hne].
  - exists 0%nat. split; [reflexivity | lia].
  - destruct Hin as [Heq|Hin]; [congruence|].
    destruct (IH Hin) as (i & -> & Hi). exists (S i). split; [reflexivity | lia].
Qed.

Lemma py_slice_to_nonneg {A} (k : Z) (l : list A) :
  (0 <= k)%Z -> py_slice_to k l = firstn (Z.to_nat k) l.
Proof.
  intros Hk. unfold py_slice_to, py_bound.
  destruct (k <? 0)%Z eqn:E; [apply Z.ltb_lt in E; lia|].
  destruct (Nat.le_ge_cases (Z.to_nat k) (length l)) as [Hle|Hge].
  - rewrite Nat.min_l by exact Hle. reflexivity.
  - rewrite Nat.min_r by exact Hge.
    rewrite !firstn_all2 by lia. reflexivity.
Qed.

Lemma py_slice_from_last {A} (k : Z) (l : list A) :
  (0 < k <= Z.of_nat (length l))%Z ->
  py_slice_from (- k) l = skipn (length l - Z.to_nat k) l.
Proof.
  intros Hk. unfold py_slice_from, py_bound.
  destruct (- k <? 0)%Z eqn:E; [|apply Z.ltb_ge in E; lia].
  f_equal. lia.
Qed.

(** ** Running the store operations *)

Section StoreFacts.
Context `{Backend}.

Lemma ensure_loaded (w : World) (uid : string) :
  current_user_id (self w) = Some uid ->
  _ensure_user_database uid w = (w, Ret tt).
Proof.
  intros Hc. unfold _ensure_user_database, bind, get. simpl.
  rewrite Hc. simpl. rewrite String.eqb_refl. reflexivity.
Qed.

Lemma update_document_absent (w : World) (uid doc_id text : string)
    (meta : option Meta) :
  loaded w uid -> dict_mem doc_id (documents (self w)) = false ->
  update_document uid doc_id text meta w = (w, Ret false).
Proof.
  intros [Hc _] Hm. unfold update_document, bind.
  rewrite (ensure_loaded w uid Hc). unfold get. simpl.
  rewrite Hm. reflexivity.
Qed.

Lemma delete_document_absent (w : World) (uid doc_id : string) :
  loaded w uid -> dict_mem doc_id (documents (self w)) = false ->
  delete_document uid doc_id w = (w, Ret false).
Proof.
  intros [Hc _] Hm. unfold delete_document, bind.
  rewrite (ensure_loaded w uid Hc). unfold get. simpl.
  rewrite Hm. reflexivity.
Qed.

End StoreFacts.

Section StoreRuns.
Context `{Backend}.
#[local] Arguments Nat.leb : simpl never.
#[local] Arguments Nat.ltb : simpl never.

Lemma save_database_ok (w : World) (p : string) :
  db_path (self w) = Some p -> p <> "" -> read_only (disk w) = false ->
  exists d, save_database w = ({| self := self w; disk := d |}, Ret tt) /\
            write_log d = (p, snapshot_of (self w)) :: write_log (disk w).
Proof.
  intros Hp Hne Hro. unfold save_database, bind, get. rewrite Hp.
  destruct p as [|c p]; [congruence|].
  unfold write_file. rewrite Hro. eexists. split; reflexivity.
Qed.

(** Rebuilding never raises and touches nothing but the index. *)
Lemma rebuild_frame (w : World) (pos : nat) :
  exists ix,
    _rebuild_index_without_document pos w
    = ({| self := with_index ix (self w); disk := disk w |}, Ret tt).
Proof.
  destruct w as [[it dim cu docs md dc ix0 dp] dk].
  unfold _rebuild_index_without_document, bind, get, set_index, set_self,
    modify, lift, ret.
  cbn [self disk with_index documents index_type index].
  destruct (if (pos <? length (dict_values docs))%nat
            then list_pop pos (dict_values docs)
            else dict_values docs) as [|d0 dl].
  - eexists. reflexivity.
  - destruct it; cbn.
    + eexists. reflexivity.
    + destruct (100 <=? S (length dl))%nat eqn:E100; cbn.
      * unfold nlist. rewrite length_map, E100. cbn.
        eexists. reflexivity.
      * eexists. reflexivity.
    + eexists. reflexivity.
Qed.

Lemma prepare_results_ids (s : RAGSystem) (doc_ids : list string)
    (hits : list (Z * Q)) (rs : list SearchResult) :
  prepare_results s doc_ids hits = Ret rs ->
  forall r, In r rs -> In (fst (fst (fst r))) doc_ids.
Proof.
  revert rs. induction hits as [|[idx score] hits IH]; intros rs; simpl.
  - intros [= <-] r [].
  - destruct ((0 <=? idx)%Z && (idx <? Z.of_nat (length doc_ids))%Z)%bool eqn:Ev.
    + apply andb_prop in Ev as [H0 H1].
      apply Z.leb_le in H0. apply Z.ltb_lt in H1.
      destruct (dict_get _ (documents s)); [|discriminate].
      destruct (dict_get _ (metadata s)); [|discriminate].
      destruct (prepare_results s doc_ids hits) as [rs'|]; [|discriminate].
      intros [= <-] r [<-|Hin].
      * simpl. apply nth_In. lia.
      * exact (IH rs' eq_refl r Hin).
    + exact (IH rs).
Qed.

(** Every row of a search answer names a key of [documents]. *)
Lemma search_ids (w w' : World) (uid q : string) (k : Z)
    (rs : list SearchResult) :
  current_user_id (self w) = Some uid ->
  search uid q k w = (w', Ret rs) ->
  forall r, In r rs -> In (fst (fst (fst r))) (dict_keys (documents (self w))).
Proof.
  intros Hc. unfold search, bind. rewrite (ensure_loaded w uid Hc).
  unfold get. cbn [fst snd].
  destruct (length (documents (self w)) =? 0)%nat.
  - intros [= _ <-] r [].
  - destruct (is_ivf_untrained (self w)).
    + unfold ret, lift. intros [= _ Hr]. exact (prepare_results_ids _ _ _ _ Hr).
    + unfold lift.
      destruct (index_search _ _ _) as [hits|]; [|discriminate].
      intros [= _ Hr]. exact (prepare_results_ids _ _ _ _ Hr).
Qed.

(** The run of [delete_document] on a present identifier. *)
Lemma delete_document_present (w : World) (uid doc_id : string) :
  loaded w uid -> read_only (disk w) = false ->
  dict_mem doc_id (documents (self w)) = true ->
  dict_mem doc_id (metadata (self w)) = true ->
  exists ix d,
    delete_document uid doc_id w
    = ({| self := with_index ix
                    (with_metadata (dict_del doc_id (metadata (self w)))
                       (with_documents (dict_del doc_id (documents (self w)))
                          (self w)));
          disk := d |}, Ret true) /\
    exists p, write_log d
              = (p, snapshot_of
                      (with_index ix
                         (with_metadata (dict_del doc_id (metadata (self w)))
                            (with_documents
                               (dict_del doc_id (documents (self w)))
                               (self w))))) :: write_log (disk w).
Proof.
  intros [Hc (p & Hp & Hne)] Hro Hm Hmm. unfold delete_document, bind.
  rewrite (ensure_loaded w uid Hc). unfold get. cbn [fst snd].
  rewrite Hm. cbn [negb].
  destruct (list_index_Some doc_id (dict_keys (documents (self w))))
    as (pos & -> & _); [apply dict_mem_In; exact Hm|].
  unfold set_self, modify. cbn [self disk with_documents metadata].
  rewrite Hmm.
  match goal with
  | |- context [_rebuild_index_without_document pos ?w1] =>
      destruct (rebuild_frame w1 pos) as [ix ->]
  end.
  cbn [self disk].
  match goal with
  | |- context [save_database ?w2] =>
      destruct (save_database_ok w2 p) as (d & -> & Hlog);
        [exact Hp | exact Hne | exact Hro |]
  end.
  exists ix, d. split; [reflexivity|]. exists p. exact Hlog.
Qed.

End StoreRuns.

(** ** The document store: claims *)

Section StoreClaims.
Context `{Backend}.

(** C6. For a loaded user database and a [doc_id] absent from [documents],
    [update_document] and [delete_document] both return [False]; neither
    raises. *)
Theorem C6_absent_doc_id_returns_false
    (w : World) (uid doc_id new_text : string) (new_meta : option Meta) :
  loaded w uid ->
  dict_mem doc_id (documents (self w)) = false ->
  snd (update_document uid doc_id new_text new_meta w) = Ret false /\
  snd (delete_document uid doc_id w) = Ret false.
Proof.
  intros Hl Hm.
  rewrite (update_document_absent w uid doc_id new_text new_meta Hl Hm).
  rewrite (delete_document_absent w uid doc_id Hl Hm).
  split; reflexivity.
Qed.

(** C10. For a loaded user database and a [doc_id] absent from [documents],
    [update_document] and [delete_document] leave the whole state as it was:
    documents, metadata, counter and index, and the disk with its history of
    snapshot writes. *)
Theorem C10_absent_doc_id_changes_nothing
    (w : World) (uid doc_id new_text : string) (new_meta : option Meta) :
  loaded w uid ->
  dict_mem doc_id (documents (self w)) = false ->
  (fst (update_document uid doc_id new_text new_meta w) = w /\
   fst (delete_document uid doc_id w) = w) /\
  (write_log (disk (fst (update_document uid doc_id new_text new_meta w)))
     = write_log (disk w) /\
   write_log (disk (fst (delete_document uid doc_id w))) = write_log (disk w)).
Proof.
  intros Hl Hm.
  rewrite (update_document_absent w uid doc_id new_text new_meta Hl Hm).
  rewrite (delete_document_absent w uid doc_id Hl Hm).
  repeat split; reflexivity.
Qed.

(** C8. Deleting a [doc_id] present in a loaded user database returns [True],
    lowers the document count reported by [get_stats] by exactly one, and no
    search on the resulting database, for any query and any [top_k], has a
    row with that [doc_id]. *)
Theorem C8_delete_decrements_count_and_hides_document
    (w : World) (uid doc_id : string) :
  loaded w uid ->
  read_only (disk w) = false ->
  List.NoDup (dict_keys (documents (self w))) ->
  dict_keys (metadata (self w)) = dict_keys (documents (self w)) ->
  dict_mem doc_id (documents (self w)) = true ->
  exists w',
    delete_document uid doc_id w = (w', Ret true) /\
    (exists before after,
        snd (get_stats uid w) = Ret before /\
        snd (get_stats uid w') = Ret after /\
        S (num_documents after) = num_documents before) /\
    (forall (query : string) (top_k : Z) w'' rs,
        search uid query top_k w' = (w'', Ret rs) ->
        forall r, In r rs -> fst (fst (fst r)) <> doc_id).
Proof.
  intros Hl Hro Hnd Hkeys Hm.
  assert (Hmm : dict_mem doc_id (metadata (self w)) = true).
  { apply dict_mem_In. rewrite Hkeys. apply dict_mem_In. exact Hm. }
  destruct (delete_document_present w uid doc_id Hl Hro Hm Hmm)
    as (ix & d & Hrun & _).
  destruct Hl as [Hc _].
  eexists. split; [exact Hrun|]. split.
  - unfold get_stats, bind, get, ret.
    rewrite (ensure_loaded w uid Hc).
    rewrite ensure_loaded by exact Hc. cbn.
    do 2 eexists. split; [reflexivity|]. split; [reflexivity|].
    cbn. apply dict_del_length. exact Hm.
  - intros query top_k w'' rs Hs r Hin Heq.
    pose proof (fun Hc' => search_ids _ _ uid query top_k rs Hc' Hs r Hin) as Hk.
    specialize (Hk Hc). cbn in Hk. rewrite Heq in Hk.
    exact (dict_del_not_in doc_id _ Hnd Hk).
Qed.

(** C1, at the failing input.  On the exact index, after adding three
    documents and deleting the first, [documents] holds two entries while the
    index holds one vector, the embedding of the last document: the rebuild
    drops a second document, so the count and the alignment are both lost. *)
Theorem C1_delete_leaves_index_short :
  let r := add_three_delete_first (fresh_world flat) in
  snd r = Ret true /\
  documents (self (fst r)) = [("doc_1", "b"); ("doc_2", "c")] /\
  index (self (fst r)) = IndexFlatIP [encode "c"] /\
  ntotal (index (self (fst r))) <> length (documents (self (fst r))) /\
  ~ aligned (self (fst r)).
Proof.
  assert (E : add_three_delete_first (fresh_world flat)
              = (fst (add_three_delete_first (fresh_world flat)), Ret true)
              /\ documents (self (fst (add_three_delete_first (fresh_world flat))))
                 = [("doc_1", "b"); ("doc_2", "c")]
              /\ index (self (fst (add_three_delete_first (fresh_world flat))))
                 = IndexFlatIP [encode "c"]).
  { vm_compute. repeat split. }
  destruct E as (E1 & E2 & E3). cbv zeta.
  rewrite E1 at 1. unfold aligned. rewrite E2, E3. cbn.
  repeat split; try discriminate.
Qed.

(** C2, at the failing input.  The first [add_document] on a new clustered
    store returns the new [doc_id] with the document held in memory, and
    nothing has been written: no snapshot file exists and the write history
    is empty. *)
Theorem C2_untrained_ivf_add_writes_nothing :
  let r := add_document "u" "hello" None (fresh_world ivf) in
  snd r = Ret "doc_0" /\
  documents (self (fst r)) = [("doc_0", "hello")] /\
  write_log (disk (fst r)) = [] /\
  files (disk (fst r)) = ∅.
Proof. vm_compute. repeat split. Qed.

End StoreClaims.

(** ** Running the window *)

Lemma consolidations_app (e1 e2 : list Event) :
  consolidations (e1 ++ e2) = consolidations e1 ++ consolidations e2.
Proof. unfold consolidations. apply flat_map_app. Qed.

Lemma forwarded_batches_app (e1 e2 : list Event) :
  forwarded_batches (e1 ++ e2) = forwarded_batches e1 ++ forwarded_batches e2.
Proof. unfold forwarded_batches. apply flat_map_app. Qed.

Lemma consolidations_consolidated (cs : list (string * bool)) :
  consolidations (consolidated_events cs) = cs.
Proof.
  induction cs as [|[m ok] cs IH]; [reflexivity|].
  cbn. unfold consolidations, consolidated_events in IH. rewrite IH. reflexivity.
Qed.

Lemma forwarded_batches_consolidated (cs : list (string * bool)) :
  forwarded_batches (consolidated_events cs) = [].
Proof. induction cs as [|[m ok] cs IH]; [reflexivity | exact IH]. Qed.

(** A raised round trip is the last one of its batch. *)
Lemma batch_outcome_failure_last ms cs c :
  batch_outcome ms cs c ->
  forall pre m post, cs = pre ++ (m, false) :: post -> post = [].
Proof.
  induction 1 as [|m0 ms cs c Hb IH|m0 ms]; intros pre m post E.
  - destruct pre; discriminate.
  - destruct pre as [|p pre]; [discriminate|].
    injection E as _ E. exact (IH pre m post E).
  - destruct pre as [|p [|p' pre]]; [|discriminate..].
    injection E as _ E. symmetry. exact E.
Qed.

(** The round trips are a prefix of the batch, in its order. *)
Lemma batch_outcome_prefix ms cs c :
  batch_outcome ms cs c -> exists rest, ms = map fst cs ++ rest.
Proof.
  induction 1 as [|m0 ms cs c Hb [rest IH]|m0 ms].
  - exists []. reflexivity.
  - exists rest. cbn. rewrite IH at 1. reflexivity.
  - exists ms. reflexivity.
Qed.

Lemma batch_outcome_completed ms cs :
  batch_outcome ms cs true -> cs = map (fun m => (m, true)) ms.
Proof.
  intros Hb. remember true as c eqn:Ec in Hb.
  induction Hb as [|m0 ms cs c Hb IH|m0 ms].
  - reflexivity.
  - cbn. rewrite IH by exact Ec. reflexivity.
  - discriminate.
Qed.

Section WindowRuns.
Context {W : Type} `{Assistant W}.

Lemma consolidate_each_outcome (old : list Mapping) (s : Session W) :
  exists w' cs c r,
    consolidate_each old s
    = ({| bot := bot s; world := w';
          events := events s ++ consolidated_events cs |}, r) /\
    batch_outcome (map fst old) cs c /\
    (c = true -> r = Ret tt) /\ (c = false -> exists e, r = Raise e).
Proof.
  revert s. induction old as [|[m docs] old IH]; intros s.
  - exists (world s), [], true, (Ret tt). cbn. rewrite app_nil_r.
    destruct s; repeat split; try constructor; discriminate.
  - cbn [consolidate_each]. unfold bind at 1. unfold try_except, bind, ext, log, modify, raise.
    cbn [bot world events].
    destruct (rag_chat m (world s)) as [w1 [a|e]] eqn:Ec;
      cbn [bot world events].
    + destruct (IH {| bot := bot s; world := w1;
                      events := events s ++ [Consolidated m true] |})
        as (w' & cs & c & r & -> & Hb & Hok & Hfail).
      exists w', ((m, true) :: cs), c, r. cbn [bot world events].
      rewrite <- app_assoc. repeat split; try assumption.
      constructor. exact Hb.
    + exists w1, [(m, false)], false, (Raise e). repeat split.
      * constructor.
      * discriminate.
      * intros _. exists e. reflexivity.
Qed.

(** The pipeline never raises and leaves the chatbot object as it was. *)
Lemma process_old_outcome (old : list Mapping) (s : Session W) :
  exists w' cs,
    _process_old_messages_to_background_memory old s
    = ({| bot := bot s; world := w';
          events := events s ++ Forwarded (map fst old) :: consolidated_events cs |},
       Ret tt) /\
    (if background_on (bot s)
     then exists c, batch_outcome (map fst old) cs c
     else cs = []).
Proof.
  unfold _process_old_messages_to_background_memory, bind, log, modify, get.
  cbn [bot world events].
  destruct (background_on (bot s)) eqn:Eb; cbn [negb].
  - unfold try_except.
    destruct (consolidate_each_outcome old
                {| bot := bot s; world := world s;
                   events := events s ++ [Forwarded (map fst old)] |})
      as (w' & cs & c & r & -> & Hb & Hok & Hfail).
    cbn [bot world events]. exists w', cs. rewrite <- app_assoc. cbn [app].
    split; [|exists c; exact Hb].
    destruct c.
    + rewrite Hok by reflexivity. reflexivity.
    + destruct Hfail as [e ->]; reflexivity.
  - exists (world s), []. split; reflexivity.
Qed.

Lemma manage_outcome (s : Session W) :
  exists w' evs,
    _manage_conversation_history s
    = ({| bot := trimmed (bot s); world := w'; events := events s ++ evs |},
       Ret tt) /\
    forwarded_batches evs = forwarded_by (bot s) /\
    (if (background_on (bot s) && overflowing (bot s))%bool
     then exists c, batch_outcome (map fst (evicted_batch (bot s)))
                                  (consolidations evs) c
     else consolidations evs = []).
Proof.
  unfold _manage_conversation_history, bind, get, trimmed, forwarded_by.
  fold (overflowing (bot s)). fold (evicted_batch (bot s)).
  destruct (overflowing (bot s)) eqn:Eo.
  - destruct (evicted_batch (bot s)) as [|x batch] eqn:Eb.
    + exists (world s), []. rewrite app_nil_r. unfold ret, set_bot, modify.
      cbn. repeat split.
      destruct (background_on (bot s)); [|reflexivity].
      exists true. constructor.
    + destruct (process_old_outcome (x :: batch) s) as (w' & cs & -> & Hcs).
      exists w', (Forwarded (map fst (x :: batch)) :: consolidated_events cs).
      unfold set_bot, modify. cbn [bot world events].
      split; [reflexivity|]. split.
      * cbn. rewrite forwarded_batches_consolidated. reflexivity.
      * change (consolidations (Forwarded (map fst (x :: batch))
                                  :: consolidated_events cs))
          with (consolidations (consolidated_events cs)).
        rewrite consolidations_consolidated.
        destruct (background_on (bot s)); cbn [andb]; exact Hcs.
  - exists (world s), []. rewrite app_nil_r. unfold ret. destruct s.
    repeat split. rewrite andb_false_r. reflexivity.
Qed.

End WindowRuns.

Section ChatRuns.
Context {W : Type} `{Assistant W}.

Lemma appended_twice (b : SimpleQAChatBot) (m r : string)
    (docs : list RetrievedDoc) :
  with_history
    (conversation_history
       (with_history
          (conversation_history
             (with_mapping (message_memory_mapping b ++ [(m, docs)]) b)
             ++ [{| role := user; content := m |}])
          (with_mapping (message_memory_mapping b ++ [(m, docs)]) b))
       ++ [{| role := assistant; content := r |}])
    (with_history
       (conversation_history
          (with_mapping (message_memory_mapping b ++ [(m, docs)]) b)
          ++ [{| role := user; content := m |}])
       (with_mapping (message_memory_mapping b ++ [(m, docs)]) b))
  = appended b m r docs.
Proof.
  unfold appended, with_history, with_mapping. cbn.
  rewrite <- app_assoc. reflexivity.
Qed.

Lemma get_retrieved_documents_outcome (m : string) (s : Session W) :
  exists w' docs,
    get_retrieved_documents m s
    = ({| bot := bot s; world := w'; events := events s |}, Ret docs).
Proof.
  unfold get_retrieved_documents, bind, get, try_except, ext, ret.
  destruct (background_on (bot s)); cbn [negb].
  - destruct (retrieve m (world s)) as [w' [docs|e]]; eauto.
  - destruct s; eauto.
Qed.

(** Once the reply is known, recording the exchange cannot raise if the
    session file can be written; the chatbot object ends appended and
    trimmed. *)
Lemma record_exchange_outcome (m r : string) (s : Session W) :
  session_writable ->
  exists w' docs evs,
    record_exchange m r s
    = ({| bot := trimmed (appended (bot s) m r docs); world := w';
          events := events s ++ evs |}, Ret tt) /\
    forwarded_batches evs = forwarded_by (appended (bot s) m r docs) /\
    (if (background_on (bot s)
         && overflowing (appended (bot s) m r docs))%bool
     then exists c, batch_outcome
                      (map fst (evicted_batch (appended (bot s) m r docs)))
                      (consolidations evs) c
     else consolidations evs = []).
Proof.
  intros Hsave. unfold record_exchange. unfold bind at 1.
  destruct (get_retrieved_documents_outcome m s) as (w1 & docs & ->).
  unfold bind, set_bot, modify, get, ext. cbn [bot world events].
  pose proof (Hsave (session_id (bot s)) m r w1) as Hs.
  change (session_id
            (with_mapping (message_memory_mapping (bot s) ++ [(m, docs)]) (bot s)))
    with (session_id (bot s)).
  destruct (save_exchange (session_id (bot s)) m r w1) as [w2 r2].
  cbn in Hs. subst r2. cbn [bot world events].
  rewrite appended_twice.
  destruct (manage_outcome
              {| bot := appended (bot s) m r docs; world := w2;
                 events := events s |}) as (w' & evs & -> & Hf & Hc).
  cbn [bot world events] in *.
  exists w', docs, evs. split; [reflexivity|]. split; [exact Hf|].
  exact Hc.
Qed.

(** A [chat] call that returns went through exactly one recorded exchange,
    started from the same chatbot object. *)
Lemma chat_returns (m r : string) (s s' : Session W) :
  session_writable ->
  chat m s = (s', Ret r) ->
  exists w1,
    record_exchange m r {| bot := bot s; world := w1; events := events s |}
    = (s', Ret tt).
Proof.
  intros Hsave. unfold chat, bind at 1, get.
  assert (Hsimple : forall s0 : Session W,
             chat_simple_mode m s0 = (s', Ret r) ->
             exists w1, record_exchange m r
                          {| bot := bot s0; world := w1; events := events s0 |}
                        = (s', Ret tt)).
  { intros s0. unfold chat_simple_mode, bind at 1, get.
    unfold bind at 1, ext.
    destruct (call_openai _ (world s0)) as [w1 [a|e]]; [|discriminate].
    unfold bind, ret.
    destruct (record_exchange_outcome m a
                {| bot := bot s0; world := w1; events := events s0 |} Hsave)
      as (w' & docs & evs & Hrec & _).
    rewrite Hrec. intros [= <- <-]. exists w1. exact Hrec. }
  destruct (background_on (bot s)).
  - unfold try_except, chat_rag_mode, bind at 1, ext.
    destruct (rag_chat m (world s)) as [w1 [a|e]].
    + unfold bind, ret.
      destruct (record_exchange_outcome m a
                  {| bot := bot s; world := w1; events := events s |} Hsave)
        as (w' & docs & evs & Hrec & _).
      rewrite Hrec. intros [= <- <-]. exists w1. exact Hrec.
    + intros Hc. apply Hsimple in Hc. exact Hc.
  - apply Hsimple.
Qed.

(** With the background chatbot on and its round trip answering, [chat]
    returns that answer after recording the exchange. *)
Lemma chat_rag_answered (m r : string) (s : Session W) (w1 : W) :
  background_on (bot s) = true ->
  rag_chat m (world s) = (w1, Ret r) ->
  session_writable ->
  exists s',
    chat m s = (s', Ret r) /\
    record_exchange m r {| bot := bot s; world := w1; events := events s |}
    = (s', Ret tt).
Proof.
  intros Hon Hr Hsave. unfold chat, bind at 1, get. rewrite Hon.
  unfold try_except, chat_rag_mode, bind at 1, ext. rewrite Hr.
  unfold bind, ret.
  destruct (record_exchange_outcome m r
              {| bot := bot s; world := w1; events := events s |} Hsave)
    as (w' & docs & evs & Hrec & _).
  rewrite Hrec. eexists. split; reflexivity.
Qed.

(** When [chat] raises, it is the reply that could not be obtained: the
    window is as it was and no consolidation round trip was made. *)
Lemma chat_raises_before_consolidation (m : string) (s s' : Session W) (e : exn) :
  session_writable ->
  chat m s = (s', Raise e) ->
  bot s' = bot s /\ events s' = events s.
Proof.
  intros Hsave. unfold chat, bind at 1, get.
  assert (Hsimple : forall s0 : Session W,
             chat_simple_mode m s0 = (s', Raise e) ->
             bot s' = bot s0 /\ events s' = events s0).
  { intros s0. unfold chat_simple_mode, bind at 1, get.
    unfold bind at 1, ext.
    destruct (call_openai _ (world s0)) as [w1 [a|e0]].
    - unfold bind, ret.
      destruct (record_exchange_outcome m a
                  {| bot := bot s0; world := w1; events := events s0 |} Hsave)
        as (w' & docs & evs & -> & _). discriminate.
    - intros [= <- _]. split; reflexivity. }
  destruct (background_on (bot s)).
  - unfold try_except, chat_rag_mode, bind at 1, ext.
    destruct (rag_chat m (world s)) as [w1 [a|e0]].
    + unfold bind, ret.
      destruct (record_exchange_outcome m a
                  {| bot := bot s; world := w1; events := events s |} Hsave)
        as (w' & docs & evs & -> & _). discriminate.
    + intros Hc. exact (Hsimple _ Hc).
  - apply Hsimple.
Qed.

(** A run of [chat] calls that all return is a replay of its exchanges. *)
Lemma chat_all_replay (ms rs : list string) (s s' : Session W) :
  session_writable ->
  chat_all ms s = (s', Ret rs) ->
  exists dss fbs,
    length rs = length ms /\ length dss = length ms /\
    replay (bot s) (zip3 ms rs dss) = (bot s', fbs) /\
    forwarded_batches (events s') = forwarded_batches (events s) ++ fbs.
Proof.
  intros Hsave. revert rs s. induction ms as [|m ms IH]; intros rs s.
  - cbn. unfold ret. intros [= <- <-]. exists [], []. cbn.
    rewrite app_nil_r. repeat split.
  - cbn [chat_all]. unfold bind at 1.
    destruct (chat m s) as [s1 [r|e]] eqn:Ec; [|discriminate].
    unfold bind at 1.
    destruct (chat_all ms s1) as [s2 [rs'|e]] eqn:Ea; [|discriminate].
    unfold ret. intros [= <- <-].
    destruct (chat_returns m r s s1 Hsave Ec) as (w1 & Hrec).
    destruct (record_exchange_outcome m r
                {| bot := bot s; world := w1; events := events s |} Hsave)
      as (w' & docs & evs & Hrec' & Hf & _).
    rewrite Hrec in Hrec'. injection Hrec' as ->.
    destruct (IH rs' _ Ea) as (dss & fbs & Hlr & Hld & Hrep & Hfb).
    cbn [bot world events] in *.
    exists (docs :: dss), (forwarded_by (appended (bot s) m r docs) ++ fbs).
    cbn [length zip3 replay]. rewrite Hlr, Hld, Hrep. repeat split.
    rewrite Hfb, forwarded_batches_app, Hf, app_assoc. reflexivity.
Qed.

End ChatRuns.

(** ** The working-memory window: claims *)

Section WindowClaims.
Context {W : Type} `{Assistant W}.

Lemma round_trips_outcome (batch : list Mapping) (s : Session W) :
  snd (_process_old_messages_to_background_memory batch s) = Ret tt /\
  if background_on (bot s)
  then exists c, batch_outcome (map fst batch) (round_trips batch s) c
  else round_trips batch s = [].
Proof.
  unfold round_trips.
  destruct (process_old_outcome batch s) as (w' & cs & -> & Hcs).
  cbn [fst snd events]. split; [reflexivity|].
  rewrite skipn_app, skipn_all, Nat.sub_diag. cbn [app skipn].
  change (consolidations (Forwarded (map fst batch) :: consolidated_events cs))
    with (consolidations (consolidated_events cs)).
  rewrite consolidations_consolidated. exact Hcs.
Qed.

(** C3, as amended.  With [N = 3] (threshold 6), a new session in which
    seven [chat] calls have returned holds exactly four pairs, the turns 4
    to 7; exactly one batch was forwarded to consolidation, the user
    messages of turns 1 to 3 in chronological order. *)
Theorem C3_seven_turns_keep_four_pairs_forward_three
    (uid sid : string) (enabled : bool) (w0 : W)
    (m1 m2 m3 m4 m5 m6 m7 : string) (s' : Session W) (rs : list string) :
  session_writable ->
  chat_all [m1; m2; m3; m4; m5; m6; m7]
    {| bot := new_chatbot uid sid 3 enabled; world := w0; events := [] |}
  = (s', Ret rs) ->
  pair_count s' = 4%Z /\
  (exists r1 r2 r3 r4 r5 r6 r7,
      rs = [r1; r2; r3; r4; r5; r6; r7] /\
      conversation_history (bot s')
      = [{| role := user; content := m4 |};
         {| role := assistant; content := r4 |};
         {| role := user; content := m5 |};
         {| role := assistant; content := r5 |};
         {| role := user; content := m6 |};
         {| role := assistant; content := r6 |};
         {| role := user; content := m7 |};
         {| role := assistant; content := r7 |}]) /\
  map fst (message_memory_mapping (bot s')) = [m4; m5; m6; m7] /\
  forwarded_batches (events s') = [[m1; m2; m3]].
Proof.
  intros Hsave Hrun.
  destruct (chat_all_replay _ _ _ _ Hsave Hrun)
    as (dss & fbs & Hlr & Hld & Hrep & Hfb).
  cbn [bot events forwarded_batches flat_map app] in Hrep, Hfb.
  destruct rs as [|r1 [|r2 [|r3 [|r4 [|r5 [|r6 [|r7 [|? ?]]]]]]]];
    try discriminate Hlr.
  destruct dss as [|d1 [|d2 [|d3 [|d4 [|d5 [|d6 [|d7 [|? ?]]]]]]]];
    try discriminate Hld.
  unfold pair_count, message_pairs. rewrite Hfb.
  generalize dependent (bot s'). intros b Hrep.
  vm_compute in Hrep. injection Hrep as <- <-. cbn.
  repeat split. exists r1, r2, r3, r4, r5, r6, r7. split; reflexivity.
Qed.

(** One call of the pipeline never raises, and its round trips are the user
    messages of the batch oldest first, each answered, up to the end of the
    batch or up to and including the first that raises: nothing of the batch
    runs after a failure.  With the background chatbot off there is no round
    trip. *)
Lemma consolidation_stops_at_first_failure
    (batch : list Mapping) (s : Session W) :
  snd (_process_old_messages_to_background_memory batch s) = Ret tt /\
  (if background_on (bot s)
   then exists completed,
          batch_outcome (map fst batch) (round_trips batch s) completed
   else round_trips batch s = []) /\
  ~ later_turn_runs_after_failure batch s.
Proof.
  destruct (round_trips_outcome batch s) as [Hret Hout].
  split; [exact Hret|]. split; [exact Hout|].
  intros (pre & m1 & mid & m2 & ok & post & E).
  destruct (background_on (bot s)).
  - destruct Hout as [c Hb].
    pose proof (batch_outcome_failure_last _ _ _ Hb pre m1 _ E) as Hnil.
    destruct mid; discriminate Hnil.
  - rewrite Hout in E. destruct pre; discriminate E.
Qed.

(** C5, as amended.  For [N >= 1], a session file that can be written and a
    mapping in step with the window ([p] pairs of turns, [p] entries), for a
    [chat] call that makes the window reach its threshold,
    whatever the consolidation round trips do, raising included: if the call
    raises, the reply itself could not be obtained, and nothing was appended
    or consolidated; otherwise it returns the reply, the window is cut to
    its newest [N] pairs and the mapping to its newest [N] entries, the
    evicted entries were forwarded once, as one batch, and the round trips
    made for them are a prefix of that batch ending at the first failure, so
    a failed turn has had exactly one round trip and is no longer in the
    mapping. *)
Theorem C5_consolidation_failure_is_swallowed
    (s s' : Session W) (m : string) (r : py_result string) (n p : nat) :
  session_writable ->
  max_history_length (bot s) = Z.of_nat n ->
  max_working_length (bot s) = Z.of_nat (2 * n) ->
  (1 <= n)%nat ->
  length (conversation_history (bot s)) = (2 * p)%nat ->
  length (message_memory_mapping (bot s)) = p ->
  (2 * n <= p + 1)%nat ->
  chat m s = (s', r) ->
  match r with
  | Raise _ => bot s' = bot s /\ events s' = events s
  | Ret reply =>
      exists docs evs,
        events s' = events s ++ evs /\
        let history :=
          conversation_history (bot s)
            ++ [{| role := user; content := m |};
                {| role := assistant; content := reply |}] in
        let mapping := message_memory_mapping (bot s) ++ [(m, docs)] in
        let batch := firstn (p + 1 - n) mapping in
        conversation_history (bot s') = skipn (2 * (p + 1 - n)) history /\
        length (conversation_history (bot s')) = (2 * n)%nat /\
        message_memory_mapping (bot s') = skipn (p + 1 - n) mapping /\
        length (message_memory_mapping (bot s')) = n /\
        forwarded_batches evs = [map fst batch] /\
        if background_on (bot s)
        then exists completed,
               batch_outcome (map fst batch) (consolidations evs) completed
        else consolidations evs = []
  end.
Proof.
  intros Hsave HN H2N Hn Hh Hmp Hover Hchat.
  destruct r as [reply|e];
    [|exact (chat_raises_before_consolidation m s s' e Hsave Hchat)].
  destruct (chat_returns m reply s s' Hsave Hchat) as (w1 & Hrec).
  destruct (record_exchange_outcome m reply
              {| bot := bot s; world := w1; events := events s |} Hsave)
    as (w' & docs & evs & Hrec' & Hf & Hc).
  rewrite Hrec in Hrec'. injection Hrec' as ->.
  cbn [bot world events] in *.
  set (b1 := appended (bot s) m reply docs) in *.
  assert (Hlh : length (conversation_history b1) = (2 * (p + 1))%nat).
  { unfold b1, appended. cbn. rewrite length_app, Hh. cbn. lia. }
  assert (Hlm : length (message_memory_mapping b1) = (p + 1)%nat).
  { unfold b1, appended. cbn. rewrite length_app, Hmp. reflexivity. }
  assert (Hpairs : message_pairs b1 = Z.of_nat (p + 1)).
  { unfold message_pairs. rewrite Hlh.
    replace (Z.of_nat (2 * (p + 1))) with (Z.of_nat (p + 1) * 2)%Z by lia.
    apply Z.div_mul. lia. }
  assert (HN1 : max_history_length b1 = Z.of_nat n) by exact HN.
  assert (Hov : overflowing b1 = true).
  { unfold overflowing. rewrite Hpairs.
    change (max_working_length b1) with (max_working_length (bot s)).
    rewrite H2N. apply Z.leb_le. lia. }
  assert (Hbatch : evicted_batch b1
                   = firstn (p + 1 - n) (message_memory_mapping b1)).
  { unfold evicted_batch. rewrite Hpairs, HN1.
    rewrite py_slice_to_nonneg by lia. f_equal. lia. }
  rewrite Hov, andb_true_r in Hc.
  exists docs, evs. split; [reflexivity|]. cbv zeta.
  change (message_memory_mapping (bot s) ++ [(m, docs)])
    with (message_memory_mapping b1).
  change (conversation_history (bot s)
            ++ [{| role := user; content := m |};
                {| role := assistant; content := reply |}])
    with (conversation_history b1).
  unfold trimmed. rewrite Hov. cbn [conversation_history message_memory_mapping
                                     with_mapping with_history].
  rewrite HN1.
  rewrite (py_slice_from_last (Z.of_nat n * 2)) by lia.
  rewrite (py_slice_from_last (Z.of_nat n)) by lia.
  rewrite Hlh, Hlm.
  replace (2 * (p + 1) - Z.to_nat (Z.of_nat n * 2))%nat
    with (2 * (p + 1 - n))%nat by lia.
  replace (p + 1 - Z.to_nat (Z.of_nat n))%nat with (p + 1 - n)%nat by lia.
  split; [reflexivity|]. split; [rewrite length_skipn; lia|].
  split; [reflexivity|]. split; [rewrite length_skipn; lia|].
  rewrite <- Hbatch. split; [|exact Hc].
  rewrite Hf. unfold forwarded_by. rewrite Hov.
  assert (Hlen : length (evicted_batch b1) = (p + 1 - n)%nat).
  { rewrite Hbatch, length_firstn, Hlm. lia. }
  destruct (evicted_batch b1) as [|x batch]; [|reflexivity].
  cbn in Hlen. lia.
Qed.

End WindowClaims.

(** C4, as amended.  In every execution the pipeline consolidates a batch
    oldest first and stops at the first round trip that raises, swallowing
    the exception: no later turn of the batch runs after a failure.  The
    batch is still not atomic, since turns consolidated before the failure
    stay consolidated: in the execution shown, [m1] is answered, [bad2]
    raises, and [m3] never gets its round trip. *)
Theorem C4_consolidation_stops_at_first_failure :
  (forall (W : Type) (A : Assistant W) (batch : list Mapping) (s : Session W),
      snd (_process_old_messages_to_background_memory batch s) = Ret tt /\
      (if background_on (bot s)
       then exists completed,
              batch_outcome (map fst batch) (round_trips batch s) completed
       else round_trips batch s = []) /\
      ~ later_turn_runs_after_failure batch s) /\
  @round_trips _ ref_assistant
    [("m1", []); ("bad2", []); ("m3", [])] session_after_bad2
  = [("m1", true); ("bad2", false)].
Proof.
  split.
  - intros W A batch s. apply consolidation_stops_at_first_failure.
  - vm_compute. reflexivity.
Qed.

(** C4, the claim as stated, refuted: there is no execution, for any
    assistant, any session and any batch, in which a turn of the batch gets
    its round trip after the round trip of an earlier turn has raised. *)
Lemma C4_no_execution_continues_after_failure :
  ~ exists (W : Type) (A : Assistant W) (batch : list Mapping) (s : Session W),
      later_turn_runs_after_failure batch s.
Proof.
  intros (W & A & batch & s & Hlater).
  exact (proj2 (proj2 (consolidation_stops_at_first_failure batch s)) Hlater).
Qed.

(** C3, the claim as stated, refuted on a run: with [N = 3], after seven
    processed turns the window holds four pairs, not three, and three user
    messages were forwarded to consolidation, not four. *)
Lemma C3_seven_turns_do_not_leave_three_pairs :
  let r := @chat_all _ ref_assistant seven_messages
             (new_session (new_chatbot "u" "s" 3 true)) in
  (exists rs, snd r = Ret rs /\ length rs = 7%nat) /\
  pair_count (fst r) = 4%Z /\
  concat (forwarded_batches (events (fst r))) = ["m1"; "m2"; "m3"] /\
  ~ (pair_count (fst r) = 3%Z /\
     length (concat (forwarded_batches (events (fst r)))) = 4%nat).
Proof.
  cbv zeta. split; [|split; [|split]].
  - eexists. split; vm_compute; reflexivity.
  - vm_compute. reflexivity.
  - vm_compute. reflexivity.
  - intros [Hp _]. vm_compute in Hp. discriminate Hp.
Qed.

Lemma ref_session_writable : @session_writable _ ref_assistant.
Proof. intros sid q a w. reflexivity. Defined.

Lemma C3_witness :
  let s' := fst (@chat_all _ ref_assistant seven_messages
                   (new_session (new_chatbot "u" "s" 3 true))) in
  pair_count s' = 4%Z /\
  (exists r1 r2 r3 r4 r5 r6 r7,
      ["re: m1"; "re: m2"; "re: m3"; "re: m4"; "re: m5"; "re: m6"; "re: m7"]
      = [r1; r2; r3; r4; r5; r6; r7] /\
      conversation_history (bot s')
      = [{| role := user; content := "m4" |};
         {| role := assistant; content := r4 |};
         {| role := user; content := "m5" |};
         {| role := assistant; content := r5 |};
         {| role := user; content := "m6" |};
         {| role := assistant; content := r6 |};
         {| role := user; content := "m7" |};
         {| role := assistant; content := r7 |}]) /\
  map fst (message_memory_mapping (bot s')) = ["m4"; "m5"; "m6"; "m7"] /\
  forwarded_batches (events s') = [["m1"; "m2"; "m3"]].
Proof.
  cbv zeta.
  apply (@C3_seven_turns_keep_four_pairs_forward_three _ ref_assistant
           "u" "s" true [] "m1" "m2" "m3" "m4" "m5" "m6" "m7").
  - exact ref_session_writable.
  - vm_compute. reflexivity.
Defined.

Lemma C5_witness :
  let s' := fst (@chat _ ref_assistant "m6" five_pair_session) in
  exists docs evs,
    events s' = events five_pair_session ++ evs /\
    let history :=
      conversation_history (bot five_pair_session)
        ++ [{| role := user; content := "m6" |};
            {| role := assistant; content := "re: m6" |}] in
    let mapping := message_memory_mapping (bot five_pair_session) ++ [("m6", docs)] in
    let batch := firstn (5 + 1 - 3) mapping in
    conversation_history (bot s') = skipn (2 * (5 + 1 - 3)) history /\
    length (conversation_history (bot s')) = (2 * 3)%nat /\
    message_memory_mapping (bot s') = skipn (5 + 1 - 3) mapping /\
    length (message_memory_mapping (bot s')) = 3%nat /\
    forwarded_batches evs = [map fst batch] /\
    exists completed,
      batch_outcome (map fst batch) (consolidations evs) completed.
Proof.
  cbv zeta.
  apply (@C5_consolidation_failure_is_swallowed _ ref_assistant
           five_pair_session
           (fst (@chat _ ref_assistant "m6" five_pair_session))
           "m6" (Ret "re: m6") 3 5).
  - exact ref_session_writable.
  - reflexivity.
  - reflexivity.
  - lia.
  - reflexivity.
  - reflexivity.
  - lia.
  - vm_compute. reflexivity.
Defined.

(** In that run the consolidation of [bad1] does raise, and the two turns
    behind it in the batch are never sent. *)
(** C5, the claim as stated, refuted on a session resumed from its file:
    the history has the five stored exchanges and the mapping is empty.  The
    call [chat bad6] returns and cuts the window to three pairs, but the
    batch it forwards is the message just sent, whose consolidation raises;
    the mapping keeps that one entry for three pairs, and three calls later
    the same message is forwarded and its round trip made, and failed,
    again. *)
Lemma C5_resumed_session_retries_failed_turn :
  let r1 := @chat _ ref_assistant "bad6" resumed_session in
  let r := @chat_all _ ref_assistant ["bad6"; "m7"; "m8"; "m9"]
             resumed_session in
  (pair_count resumed_session = 5%Z /\
   message_memory_mapping (bot resumed_session) = []) /\
  (snd r1 = Ret "re: bad6" /\
   pair_count (fst r1) = 3%Z /\
   map fst (message_memory_mapping (bot (fst r1))) = ["bad6"] /\
   forwarded_batches (events (fst r1)) = [["bad6"]] /\
   consolidations (events (fst r1)) = [("bad6", false)]) /\
  ((exists rs, snd r = Ret rs /\ length rs = 4%nat) /\
   forwarded_batches (events (fst r)) = [["bad6"]; ["bad6"; "m7"; "m8"]] /\
   consolidations (events (fst r)) = [("bad6", false); ("bad6", false)]) /\
  ~ (Z.of_nat (length (message_memory_mapping (bot (fst r1))))
     = pair_count (fst r1)) /\
  ~ (length (filter (fun c => String.eqb (fst c) "bad6")
               (consolidations (events (fst r)))) <= 1)%nat.
Proof.
  cbv zeta. repeat split; try (vm_compute; reflexivity).
  - eexists. split; vm_compute; reflexivity.
  - intros E. vm_compute in E. discriminate E.
  - intros E. vm_compute in E. lia.
Qed.

Example five_pair_session_consolidation_fails :
  consolidations (events (fst (@chat _ ref_assistant "m6" five_pair_session)))
  = [("bad1", false)].
Proof. vm_compute. reflexivity. Qed.

Lemma example_world_loaded : loaded example_world "u".
Proof.
  split; [reflexivity|]. eexists. split; [reflexivity | discriminate].
Defined.

Lemma C6_witness :
  snd (@update_document ref_backend "u" "doc_7" "zz" None example_world)
  = Ret false /\
  snd (@delete_document ref_backend "u" "doc_7" example_world) = Ret false.
Proof.
  apply (@C6_absent_doc_id_returns_false ref_backend example_world
           "u" "doc_7" "zz" None).
  - exact example_world_loaded.
  - reflexivity.
Defined.

Lemma C10_witness :
  (fst (@update_document ref_backend "u" "doc_7" "zz" None example_world)
   = example_world /\
   fst (@delete_document ref_backend "u" "doc_7" example_world)
   = example_world) /\
  (write_log
     (disk (fst (@update_document ref_backend "u" "doc_7" "zz" None
                   example_world)))
   = write_log (disk example_world) /\
   write_log (disk (fst (@delete_document ref_backend "u" "doc_7" example_world)))
   = write_log (disk example_world)).
Proof.
  apply (@C10_absent_doc_id_changes_nothing ref_backend example_world
           "u" "doc_7" "zz" None).
  - exact example_world_loaded.
  - reflexivity.
Defined.

Lemma C8_witness :
  exists w',
    @delete_document ref_backend "u" "doc_0" example_world = (w', Ret true) /\
    (exists before after,
        snd (get_stats "u" example_world) = Ret before /\
        snd (get_stats "u" w') = Ret after /\
        S (num_documents after) = num_documents before) /\
    (forall (query : string) (top_k : Z) w'' rs,
        @search ref_backend "u" query top_k w' = (w'', Ret rs) ->
        forall r, In r rs -> fst (fst (fst r)) <> "doc_0").
Proof.
  apply (@C8_delete_decrements_count_and_hides_document ref_backend
           example_world "u" "doc_0").
  - exact example_world_loaded.
  - reflexivity.
  - repeat constructor; simpl; intuition discriminate.
  - reflexivity.
  - reflexivity.
Defined.

(** ** Rankings: orderings of the positions by score *)

Lemma StronglySorted_snoc {A} (R : A -> A -> Prop) (l : list A) (a : A) :
  StronglySorted R l -> Forall (fun x => R x a) l ->
  StronglySorted R (l ++ [a]).
Proof.
  induction 1 as [|b l Hs IH Hall]; intros Hla; cbn.
  - constructor; constructor.
  - apply Forall_cons_iff in Hla as [Hb Hla]. constructor.
    + exact (IH Hla).
    + apply Forall_app. split; [exact Hall | constructor; [exact Hb | constructor]].
Qed.

Section Rankings.
Variable sc : nat -> Q.

Lemma rev_ascending_is_descending (l : list nat) :
  StronglySorted (fun i j => (sc i <= sc j)%Q) l ->
  StronglySorted (by_score_desc sc) (rev l).
Proof.
  induction 1 as [|a l Hs IH Hall]; cbn; [constructor|].
  apply StronglySorted_snoc; [exact IH|].
  apply List.Forall_forall. intros x Hx. apply in_rev in Hx.
  exact (proj1 (List.Forall_forall _ _) Hall x Hx).
Qed.

(** A descending ordering starts with the position of a strict maximum. *)
Lemma descending_head_is_strict_max (order : list nat) (n best : nat) :
  Permutation order (seq 0 n) ->
  StronglySorted (by_score_desc sc) order ->
  (best < n)%nat ->
  (forall i, (i < n)%nat -> i <> best -> (sc i < sc best)%Q) ->
  exists rest, order = best :: rest.
Proof.
  intros Hperm Hsort Hbest Hmax.
  assert (Hin : In best order).
  { apply (Permutation_in _ (Permutation_sym Hperm)). apply in_seq. lia. }
  destruct order as [|h rest]; [destruct Hin|].
  destruct (Nat.eq_dec h best) as [->|Hne]; [exists rest; reflexivity|].
  exfalso. destruct Hin as [Heq|Hin]; [congruence|].
  apply StronglySorted_inv in Hsort as [_ Hall].
  pose proof (proj1 (List.Forall_forall _ _) Hall best Hin) as Hle.
  unfold by_score_desc in Hle.
  assert (Hh : (h < n)%nat).
  { assert (In h (seq 0 n)) as Hs
      by (apply (Permutation_in _ Hperm); left; reflexivity).
    apply in_seq in Hs. lia. }
  pose proof (Hmax h Hh Hne) as Hlt.
  exact (Qlt_not_le _ _ Hlt Hle).
Qed.

(** Without ties, the descending ordering of given positions is unique. *)
Lemma descending_order_unique (l1 l2 : list nat) :
  Permutation l1 l2 ->
  StronglySorted (by_score_desc sc) l1 ->
  StronglySorted (by_score_desc sc) l2 ->
  (forall i j, In i l1 -> In j l1 -> i <> j -> ~ (sc i == sc j)%Q) ->
  l1 = l2.
Proof.
  revert l2. induction l1 as [|a l1 IH]; intros l2 Hperm Hs1 Hs2 Hties.
  - apply Permutation_nil in Hperm. symmetry. exact Hperm.
  - destruct l2 as [|b l2].
    { apply Permutation_sym, Permutation_nil in Hperm. discriminate. }
    apply StronglySorted_inv in Hs1 as [Hs1 Hall1].
    apply StronglySorted_inv in Hs2 as [Hs2 Hall2].
    assert (Hab : a = b).
    { destruct (Nat.eq_dec a b) as [Heq|Hne]; [exact Heq|]. exfalso.
      assert (Ha : In a l2).
      { assert (In a (b :: l2)) as [E|Hin]
          by (apply (Permutation_in _ Hperm); left; reflexivity);
          [congruence | exact Hin]. }
      assert (Hb : In b l1).
      { assert (In b (a :: l1)) as [E|Hin]
          by (apply (Permutation_in _ (Permutation_sym Hperm)); left;
              reflexivity);
          [congruence | exact Hin]. }
      pose proof (proj1 (List.Forall_forall _ _) Hall2 a Ha) as H1.
      pose proof (proj1 (List.Forall_forall _ _) Hall1 b Hb) as H2.
      unfold by_score_desc in H1, H2.
      apply (Hties a b); [left; reflexivity | right; exact Hb | exact Hne |].
      apply Qle_antisym; assumption. }
    subst b. f_equal. apply IH.
    + exact (Permutation_cons_inv Hperm).
    + exact Hs1.
    + exact Hs2.
    + intros i j Hi Hj. apply Hties; right; assumption.
Qed.

End Rankings.

Lemma firstn_min_length {A} (k : nat) (l : list A) :
  firstn (Nat.min k (length l)) l = firstn k l.
Proof.
  destruct (Nat.le_ge_cases k (length l)) as [Hle|Hge].
  - rewrite Nat.min_l by exact Hle. reflexivity.
  - rewrite Nat.min_r by exact Hge. rewrite !firstn_all2 by lia. reflexivity.
Qed.

Lemma StronglySorted_impl {A} (R1 R2 : A -> A -> Prop) (l : list A) :
  (forall x y, R1 x y -> R2 x y) ->
  StronglySorted R1 l -> StronglySorted R2 l.
Proof.
  intros HR. induction 1 as [|a l Hs IH Hall]; constructor.
  - exact IH.
  - revert Hall. apply List.Forall_impl. exact (HR a).
Qed.

Section SearchRankings.
Context `{Backend}.

Lemma nth_similarities (xb : list Vec) (q : Vec) (i : nat) :
  nth i (map (fun e => inner e q) xb) 0%Q = inner (nth i xb []) q.
Proof.
  change 0%Q with ((fun e => inner e q) []). apply map_nth.
Qed.

(** The linear scan ranks the whole corpus, and answers its first [top_k]. *)
Lemma fallback_hits_ranking (s : RAGSystem) (q : Vec) (top_k : Z) :
  argsort_contract -> (0 <= top_k)%Z ->
  exists order,
    is_ranking (documents s) q order /\
    fallback_hits s q top_k
    = map (fun i => (Z.of_nat i, corpus_score (documents s) q i))
          (firstn (Z.to_nat top_k) order).
Proof.
  intros Hargsort Hk. unfold fallback_hits.
  set (xb := map encode (dict_values (documents s))).
  destruct (Hargsort (map (fun e => inner e q) xb)) as [Hperm Hsort].
  exists (rev (np_argsort (map (fun e => inner e q) xb))). split; [split|].
  - rewrite <- Permutation_rev. rewrite Hperm.
    unfold xb, dict_values. rewrite !length_map. reflexivity.
  - apply rev_ascending_is_descending.
    refine (StronglySorted_impl _ _ _ _ Hsort). intros i j Hij.
    unfold corpus_score. fold xb. rewrite <- !nth_similarities. exact Hij.
  - rewrite py_slice_to_nonneg by exact Hk. apply map_ext.
    intros i. unfold corpus_score. fold xb. rewrite nth_similarities.
    reflexivity.
Qed.

(** The exact index over the embeddings of the corpus does the same. *)
Lemma flat_hits_ranking (docs : dict string) (q : Vec) (top_k : Z) :
  flat_search_contract -> (1 <= top_k)%Z -> docs <> [] ->
  exists order,
    is_ranking docs q order /\
    flat_search (map encode (dict_values docs)) q
      (Z.min top_k (Z.of_nat (length docs)))
    = Ret (map (fun i => (Z.of_nat i, corpus_score docs q i))
             (firstn (Z.to_nat top_k) order)).
Proof.
  intros Hflat Hk Hne.
  assert (Hlen : length (map encode (dict_values docs)) = length docs).
  { unfold dict_values. rewrite !length_map. reflexivity. }
  assert (Hpos : (1 <= length docs)%nat).
  { destruct docs; [congruence | cbn; lia]. }
  destruct (Hflat (map encode (dict_values docs)) q
                  (Z.min top_k (Z.of_nat (length docs))))
    as (order & Hperm & Hsort & Hres); [rewrite Hlen; lia|].
  rewrite Hlen in Hperm.
  exists order. split; [split; [exact Hperm | exact Hsort]|].
  rewrite Hres. f_equal. f_equal.
  rewrite <- (firstn_min_length (Z.to_nat top_k) order).
  rewrite (Permutation_length Hperm), length_seq. f_equal. lia.
Qed.

Lemma prepare_results_same_dicts (s1 s2 : RAGSystem) (doc_ids : list string)
    (hits : list (Z * Q)) :
  documents s1 = documents s2 -> metadata s1 = metadata s2 ->
  prepare_results s1 doc_ids hits = prepare_results s2 doc_ids hits.
Proof.
  intros Hd Hm. induction hits as [|[idx score] hits IH]; cbn; [reflexivity|].
  rewrite Hd, Hm, IH. reflexivity.
Qed.

Lemma rankings_agree_without_ties (docs : dict string) (q : Vec)
    (o1 o2 : list nat) :
  no_ties docs q -> is_ranking docs q o1 -> is_ranking docs q o2 -> o1 = o2.
Proof.
  intros Hties [Hp1 Hs1] [Hp2 Hs2].
  apply (descending_order_unique (corpus_score docs q)); try assumption.
  - rewrite Hp1, Hp2. reflexivity.
  - intros i j Hi Hj. 
    apply (Permutation_in _ Hp1), in_seq in Hi.
    apply (Permutation_in _ Hp1), in_seq in Hj.
    apply Hties; lia.
Qed.

End SearchRankings.

(** ** The reference backend meets the contracts *)

Section InsertionSort.
Variable leb : nat -> nat -> bool.
Hypothesis leb_total : forall x y, leb x y = true \/ leb y x = true.
Hypothesis leb_trans :
  forall x y z, leb x y = true -> leb y z = true -> leb x z = true.

Lemma insert_by_perm (x : nat) (l : list nat) :
  Permutation (insert_by leb x l) (x :: l).
Proof.
  induction l as [|y l IH]; cbn; [reflexivity|].
  destruct (leb x y); [reflexivity|].
  rewrite IH. apply perm_swap.
Qed.

Lemma sort_by_perm (l : list nat) : Permutation (sort_by leb l) l.
Proof.
  induction l as [|x l IH]; cbn; [reflexivity|].
  rewrite insert_by_perm, IH. reflexivity.
Qed.

Lemma insert_by_sorted (x : nat) (l : list nat) :
  StronglySorted (fun i j => leb i j = true) l ->
  StronglySorted (fun i j => leb i j = true) (insert_by leb x l).
Proof.
  induction 1 as [|y l Hs IH Hall]; cbn.
  - constructor; constructor.
  - destruct (leb x y) eqn:E.
    + constructor; [constructor; assumption|].
      constructor; [exact E|].
      revert Hall. apply List.Forall_impl. intros z. apply leb_trans. exact E.
    + constructor; [exact IH|].
      apply (Permutation_Forall (Permutation_sym (insert_by_perm x l))).
      constructor; [|exact Hall].
      destruct (leb_total x y) as [Hxy|Hyx]; [congruence | exact Hyx].
Qed.

Lemma sort_by_sorted (l : list nat) :
  StronglySorted (fun i j => leb i j = true) (sort_by leb l).
Proof.
  induction l as [|x l IH]; cbn; [constructor|].
  apply insert_by_sorted. exact IH.
Qed.

End InsertionSort.

Lemma Qle_bool_total (a b : Q) : Qle_bool a b = true \/ Qle_bool b a = true.
Proof.
  destruct (Qlt_le_dec a b) as [Hlt|Hle].
  - left. apply Qle_bool_iff. apply Qlt_le_weak. exact Hlt.
  - right. apply Qle_bool_iff. exact Hle.
Qed.

Lemma Qle_bool_trans (a b c : Q) :
  Qle_bool a b = true -> Qle_bool b c = true -> Qle_bool a c = true.
Proof.
  rewrite !Qle_bool_iff. apply Qle_trans.
Qed.

Lemma ref_argsort_contract : @argsort_contract ref_backend.
Proof.
  intros xs. cbn. unfold ref_argsort. split.
  - apply sort_by_perm.
  - refine (StronglySorted_impl _ _ _ _ (sort_by_sorted _ _ _ _)).
    + intros i j Hij. apply Qle_bool_iff. exact Hij.
    + intros x y. apply Qle_bool_total.
    + intros x y z. apply Qle_bool_trans.
Defined.

Lemma ref_flat_search_contract : @flat_search_contract ref_backend.
Proof.
  intros xb q k Hk. cbn. unfold ref_flat_search.
  destruct (k <=? 0)%Z eqn:E; [apply Z.leb_le in E; lia|].
  set (order := sort_by _ (seq 0 (length xb))).
  assert (Hperm : Permutation order (seq 0 (length xb))) by apply sort_by_perm.
  exists order. split; [exact Hperm|]. split.
  - refine (StronglySorted_impl _ _ _ _ (sort_by_sorted _ _ _ _)).
    + intros i j Hij. apply Qle_bool_iff. exact Hij.
    + intros x y. apply Qle_bool_total.
    + intros x y z Hxy Hyz. exact (Qle_bool_trans _ _ _ Hyz Hxy).
  - rewrite length_firstn, (Permutation_length Hperm), length_seq.
    replace (Z.to_nat k - Nat.min (Z.to_nat k) (length xb))%nat with 0%nat by lia.
    cbn. rewrite app_nil_r. reflexivity.
Defined.

(** ** Search rankings: claims *)

Section SearchClaims.
Context `{Backend}.

(** What [search] answers once the user's database is the loaded one. *)
Lemma search_loaded (w : World) (uid query : string) (top_k : Z) :
  current_user_id (self w) = Some uid ->
  search uid query top_k w
  = (w,
     if (length (documents (self w)) =? 0)%nat then Ret []
     else
       match
         (if is_ivf_untrained (self w)
          then Ret (fallback_hits (self w) (encode query) top_k)
          else index_search (index (self w)) (encode query)
                 (Z.min top_k (Z.of_nat (length (documents (self w))))))
       with
       | Ret hits =>
           prepare_results (self w) (dict_keys (documents (self w))) hits
       | Raise e => Raise e
       end).
Proof.
  intros Hc. unfold search, bind. rewrite (ensure_loaded w uid Hc).
  unfold get, ret, lift.
  destruct (length (documents (self w)) =? 0)%nat; [reflexivity|].
  destruct (is_ivf_untrained (self w)); [reflexivity|].
  destruct (index_search _ _ _); reflexivity.
Qed.

(** C7, as amended.  For one corpus held by an untrained clustered store
    and by an exact store whose index is aligned with it, a query against
    which no two documents have the same score, and [top_k >= 1], the
    exhaustive fallback of the clustered store and the exact store answer
    the same rows in the same order (or raise alike). *)
Theorem C7_fallback_matches_exact_without_ties
    (w_ivf w_flat : World) (uid query : string) (top_k : Z) :
  argsort_contract ->
  flat_search_contract ->
  loaded w_ivf uid ->
  loaded w_flat uid ->
  index_type (self w_ivf) = ivf ->
  is_trained (index (self w_ivf)) = false ->
  index_type (self w_flat) = flat ->
  index (self w_flat)
    = IndexFlatIP (map encode (dict_values (documents (self w_flat)))) ->
  documents (self w_ivf) = documents (self w_flat) ->
  metadata (self w_ivf) = metadata (self w_flat) ->
  (1 <= top_k)%Z ->
  no_ties (documents (self w_flat)) (encode query) ->
  snd (search uid query top_k w_ivf) = snd (search uid query top_k w_flat).
Proof.
  intros Hargsort Hflat [Hc1 _] [Hc2 _] Ht1 Hu1 Ht2 Hix Hdocs Hmeta Hk Hties.
  rewrite (search_loaded w_ivf uid query top_k Hc1).
  rewrite (search_loaded w_flat uid query top_k Hc2).
  cbn [snd]. unfold is_ivf_untrained. rewrite Ht1, Hu1, Ht2, Hix, Hdocs.
  cbn [IndexType_eqb andb negb index_search].
  destruct (length (documents (self w_flat)) =? 0)%nat eqn:E0; [reflexivity|].
  assert (Hne : documents (self w_flat) <> []).
  { intros E. rewrite E in E0. discriminate E0. }
  destruct (fallback_hits_ranking (self w_ivf) (encode query) top_k Hargsort)
    as (o1 & Hr1 & ->); [lia|].
  destruct (flat_hits_ranking (documents (self w_flat)) (encode query) top_k
              Hflat Hk Hne) as (o2 & Hr2 & ->).
  rewrite Hdocs in *.
  rewrite (rankings_agree_without_ties _ _ o1 o2 Hties Hr1 Hr2).
  apply prepare_results_same_dicts; [exact Hdocs | exact Hmeta].
Qed.

End SearchClaims.

(** C7, the claim as stated, refuted on a corpus with a tie: the text [a]
    stored twice, by the same two additions, on a clustered store (left
    untrained) and on an exact store.  For the query [a] with [top_k = 1]
    the fallback answers the later document and the exact index the
    earlier one. *)
Lemma C7_duplicate_text_ranks_differently :
  let w_ivf := fst (@add_twice ref_backend (fresh_world ivf)) in
  let w_flat := fst (@add_twice ref_backend (fresh_world flat)) in
  documents (self w_ivf) = documents (self w_flat) /\
  metadata (self w_ivf) = metadata (self w_flat) /\
  is_trained (index (self w_ivf)) = false /\
  @aligned ref_backend (self w_flat) /\
  snd (@search ref_backend "u" "a" 1 w_ivf) = Ret [("doc_1", "a", 1%Q, [])] /\
  snd (@search ref_backend "u" "a" 1 w_flat) = Ret [("doc_0", "a", 1%Q, [])] /\
  snd (@search ref_backend "u" "a" 1 w_ivf)
    <> snd (@search ref_backend "u" "a" 1 w_flat).
Proof.
  cbv zeta.
  assert (E1 : snd (@search ref_backend "u" "a" 1
                      (fst (@add_twice ref_backend (fresh_world ivf))))
               = Ret [("doc_1", "a", 1%Q, [])]) by (vm_compute; reflexivity).
  assert (E2 : snd (@search ref_backend "u" "a" 1
                      (fst (@add_twice ref_backend (fresh_world flat))))
               = Ret [("doc_0", "a", 1%Q, [])]) by (vm_compute; reflexivity).
  repeat split; try (vm_compute; reflexivity); try assumption.
  rewrite E1, E2. intros E. discriminate E.
Qed.

Lemma example_world_ivf_loaded : loaded example_world_ivf "u".
Proof.
  split; [reflexivity|]. eexists. split; [reflexivity | discriminate].
Defined.

Lemma example_no_ties :
  @no_ties ref_backend (documents (self example_world)) (ref_encode "a").
Proof.
  intros i j Hi Hj Hij.
  destruct i as [|[|[|i]]]; destruct j as [|[|[|j]]];
    cbn in Hi, Hj; try lia; vm_compute; intros E; discriminate E.
Defined.

Lemma C7_witness :
  snd (@search ref_backend "u" "a" 2 example_world_ivf)
  = snd (@search ref_backend "u" "a" 2 example_world).
Proof.
  apply (@C7_fallback_matches_exact_without_ties ref_backend
           example_world_ivf example_world "u" "a" 2).
  - exact ref_argsort_contract.
  - exact ref_flat_search_contract.
  - exact example_world_ivf_loaded.
  - exact example_world_loaded.
  - reflexivity.
  - reflexivity.
  - reflexivity.
  - reflexivity.
  - reflexivity.
  - reflexivity.
  - lia.
  - exact example_no_ties.
Defined.

(** ** Adding a document and searching for it *)

Lemma dict_get_app_fresh {V} (k : string) (v : V) (d : dict V) :
  dict_mem k d = false -> dict_get k (d ++ [(k, v)]) = Some v.
Proof.
  unfold dict_mem. induction d as [|[k' v'] d IH]; cbn.
  - rewrite String.eqb_refl. reflexivity.
  - destruct (String.eqb k k'); [discriminate | exact IH].
Qed.

Section AddThenSearch.
Context `{Backend}.
#[local] Arguments Nat.leb : simpl never.

Lemma add_document_flat_run (w : World) (uid text : string)
    (meta : option Meta) (xb : list Vec) :
  loaded w uid -> read_only (disk w) = false ->
  index_type (self w) = flat -> index (self w) = IndexFlatIP xb ->
  exists d,
    add_document uid text meta w
    = ({| self := with_index (IndexFlatIP (xb ++ [encode text]))
                    (after_add (self w) text meta);
          disk := d |}, Ret (doc_id_of (doc_counter (self w)))) /\
    exists p,
      write_log d
      = (p, snapshot_of (with_index (IndexFlatIP (xb ++ [encode text]))
                           (after_add (self w) text meta)))
          :: write_log (disk w).
Proof.
  intros [Hc (p & Hp & Hne)] Hro Ht Hix. unfold add_document, bind.
  rewrite (ensure_loaded w uid Hc).
  unfold set_index, get, set_self, modify, lift, ret, is_ivf_untrained.
  cbn [fst snd self disk index_type index with_doc_counter with_documents
       with_metadata].
  rewrite Ht, Hix. cbn [IndexType_eqb andb index_add].
  match goal with
  | |- context [save_database ?w2] =>
      destruct (save_database_ok w2 p) as (d & -> & Hlog);
        [exact Hp | exact Hne | exact Hro |]
  end.
  exists d. split; [reflexivity|]. exists p. exact Hlog.
Qed.

(** X7.  On the exact index, [add_document] keeps the index aligned with
    [documents] and writes the snapshot of the state it leaves. *)
Lemma add_document_flat_keeps_aligned (w : World) (uid text : string)
    (meta : option Meta) :
  loaded w uid -> read_only (disk w) = false ->
  index_type (self w) = flat ->
  (exists xb, index (self w) = IndexFlatIP xb) ->
  dict_mem (doc_id_of (doc_counter (self w))) (documents (self w)) = false ->
  aligned (self w) ->
  let r := add_document uid text meta w in
  snd r = Ret (doc_id_of (doc_counter (self w))) /\
  aligned (self (fst r)) /\
  exists p rest, write_log (disk (fst r)) = (p, snapshot_of (self (fst r))) :: rest.
Proof.
  intros Hl Hro Ht [xb Hix] Hfresh Hal. cbv zeta.
  destruct (add_document_flat_run w uid text meta xb Hl Hro Ht Hix)
    as (d & -> & p & Hlog).
  cbn [fst snd self disk]. split; [reflexivity|]. split.
  - unfold aligned in *. rewrite Hix in Hal. cbn in *.
    rewrite (dict_set_fresh _ _ _ Hfresh). unfold dict_values in *.
    rewrite !map_app, <- Hal. reflexivity.
  - exists p, (write_log (disk w)). exact Hlog.
Qed.

Lemma add_document_ivf_untrained_run (w : World) (uid text : string)
    (meta : option Meta) :
  loaded w uid ->
  index_type (self w) = ivf -> is_trained (index (self w)) = false ->
  dict_mem (doc_id_of (doc_counter (self w))) (documents (self w)) = false ->
  (S (length (documents (self w))) < 100)%nat ->
  add_document uid text meta w
  = ({| self := after_add (self w) text meta; disk := disk w |},
     Ret (doc_id_of (doc_counter (self w)))).
Proof.
  intros [Hc _] Ht Hu Hfresh Hlen. unfold add_document, bind.
  rewrite (ensure_loaded w uid Hc).
  unfold set_index, get, set_self, modify, lift, ret, is_ivf_untrained.
  cbn [fst snd self disk index_type index with_doc_counter with_documents
       with_metadata documents].
  rewrite Ht, Hu. cbn [IndexType_eqb andb negb].
  rewrite (dict_set_fresh _ _ _ Hfresh), length_app. cbn [length].
  destruct (100 <=? length (documents (self w)) + 1)%nat eqn:E;
    [apply Nat.leb_le in E; lia|].
  rewrite <- (dict_set_fresh _ text _ Hfresh). reflexivity.
Qed.

(** The answer row built for a hit on a document just appended. *)
Lemma prepare_results_new_doc (s : RAGSystem) (docs : dict string)
    (doc_id text : string) (m : Meta) (score : Q) :
  documents s = docs ++ [(doc_id, text)] ->
  dict_mem doc_id docs = false ->
  dict_get doc_id (metadata s) = Some m ->
  prepare_results s (dict_keys (documents s)) [(Z.of_nat (length docs), score)]
  = Ret [(doc_id, text, score, m)].
Proof.
  intros Hd Hfresh Hm. cbn [prepare_results]. rewrite Hd.
  unfold dict_keys. rewrite map_app, length_app, length_map. cbn [map length fst].
  assert (E : ((0 <=? Z.of_nat (length docs))%Z
               && (Z.of_nat (length docs) <? Z.of_nat (length docs + 1))%Z)%bool
              = true).
  { apply andb_true_intro. split; [apply Z.leb_le | apply Z.ltb_lt]; lia. }
  rewrite E, Nat2Z.id.
  replace (nth (length docs) (map fst docs ++ [doc_id]) "") with doc_id.
  2:{ rewrite app_nth2 by (rewrite length_map; lia).
      rewrite length_map, Nat.sub_diag. reflexivity. }
  rewrite (dict_get_app_fresh _ _ _ Hfresh), Hm. reflexivity.
Qed.

(** A ranking of a corpus whose last document strictly beats the others
    starts with the last position. *)
Lemma ranking_head_new_doc (docs : dict string) (doc_id text : string)
    (q : Vec) (order : list nat) :
  is_ranking (docs ++ [(doc_id, text)]) q order ->
  (forall d, In d (dict_values docs) -> (inner (encode d) q < inner (encode text) q)%Q) ->
  firstn 1 order = [length docs] /\
  corpus_score (docs ++ [(doc_id, text)]) q (length docs) = inner (encode text) q.
Proof.
  intros [Hperm Hsort] Hmax.
  assert (Hv : map encode (dict_values (docs ++ [(doc_id, text)]))
               = map encode (dict_values docs) ++ [encode text]).
  { unfold dict_values. rewrite !map_app. reflexivity. }
  assert (Hl : length (map encode (dict_values docs)) = length docs).
  { unfold dict_values. rewrite !length_map. reflexivity. }
  assert (Hlast : corpus_score (docs ++ [(doc_id, text)]) q (length docs)
                  = inner (encode text) q).
  { unfold corpus_score. rewrite Hv, app_nth2 by lia.
    rewrite Hl, Nat.sub_diag. reflexivity. }
  split; [|exact Hlast].
  rewrite length_app in Hperm. cbn [length] in Hperm.
  destruct (descending_head_is_strict_max _ order _ (length docs) Hperm Hsort)
    as [rest ->]; [lia | | reflexivity].
  intros i Hi Hne. rewrite Hlast. unfold corpus_score.
  rewrite Hv, app_nth1 by lia.
  rewrite nth_indep with (d' := encode "") by lia. rewrite map_nth.
  apply Hmax. apply nth_In. unfold dict_values. rewrite length_map. lia.
Qed.

End AddThenSearch.

Section AddThenSearchClaim.
Context `{Backend}.

(** Searching, with [top_k = 1], a loaded store whose last document was just
    appended and strictly beats every other document against the query: the
    answer is the one row of that document, whichever of the exact index
    (aligned) and the linear scan serves the search. *)
Lemma search_top1_new_doc (w1 : World) (uid doc_id text : string)
    (docs : dict string) (m : Meta) (q : string) :
  argsort_contract -> flat_search_contract ->
  current_user_id (self w1) = Some uid ->
  documents (self w1) = docs ++ [(doc_id, text)] ->
  dict_mem doc_id docs = false ->
  dict_get doc_id (metadata (self w1)) = Some m ->
  (is_ivf_untrained (self w1) = false /\
   index (self w1) = IndexFlatIP (map encode (dict_values (documents (self w1)))))
  \/ is_ivf_untrained (self w1) = true ->
  (forall d, In d (dict_values docs) ->
             (inner (encode d) (encode q) < inner (encode text) (encode q))%Q) ->
  search uid q 1 w1
  = (w1, Ret [(doc_id, text, inner (encode text) (encode q), m)]).
Proof.
  intros Hargsort Hflat Hc Hdocs Hfresh Hm Hvariant Hmax.
  rewrite (search_loaded w1 uid q 1 Hc). f_equal.
  assert (Hne : documents (self w1) <> []).
  { rewrite Hdocs. destruct docs; discriminate. }
  destruct (length (documents (self w1)) =? 0)%nat eqn:E0.
  { apply Nat.eqb_eq in E0. destruct (documents (self w1)); [congruence|].
    discriminate E0. }
  assert (Hrow : forall order,
             is_ranking (documents (self w1)) (encode q) order ->
             prepare_results (self w1) (dict_keys (documents (self w1)))
               (map (fun i => (Z.of_nat i,
                               corpus_score (documents (self w1)) (encode q) i))
                    (firstn (Z.to_nat 1) order))
             = Ret [(doc_id, text, inner (encode text) (encode q), m)]).
  { intros order Hrank. rewrite Hdocs in Hrank.
    destruct (ranking_head_new_doc docs doc_id text (encode q) order Hrank Hmax)
      as [Hhead Hscore].
    change (Z.to_nat 1) with 1%nat. rewrite Hhead. cbn [map].
    rewrite Hdocs at 2. rewrite Hscore.
    apply prepare_results_new_doc; assumption. }
  destruct Hvariant as [[Hu Hix]|Hu]; rewrite Hu.
  - rewrite Hix. cbn [index_search].
    destruct (flat_hits_ranking (documents (self w1)) (encode q) 1 Hflat)
      as (order & Hrank & ->); [lia | exact Hne |].
    exact (Hrow order Hrank).
  - destruct (fallback_hits_ranking (self w1) (encode q) 1 Hargsort)
      as (order & Hrank & ->); [lia|].
    exact (Hrow order Hrank).
Qed.

(** C9, as amended.  On a loaded, writable store that is either the exact
    variant with its index aligned with [documents], or the clustered
    variant still untrained and staying below the training size, and for a
    text [t] against which every stored document scores strictly less than
    [t] itself: [add_document] with [t] returns the new [doc_id], and
    [search] with query [t] and [top_k = 1] then answers exactly the row of
    that [doc_id], with the inner product of the embedding of [t] with
    itself as score, which is 1 for a unit-norm embedding. *)
Theorem C9_add_then_search_returns_new_document
    (w : World) (uid text : string) (meta : option Meta) :
  argsort_contract ->
  flat_search_contract ->
  loaded w uid ->
  read_only (disk w) = false ->
  dict_mem (doc_id_of (doc_counter (self w))) (documents (self w)) = false ->
  (index_type (self w) = flat /\
   index (self w) = IndexFlatIP (map encode (dict_values (documents (self w)))))
  \/ (index_type (self w) = ivf /\ is_trained (index (self w)) = false /\
      (S (length (documents (self w))) < 100)%nat) ->
  (forall d, In d (dict_values (documents (self w))) ->
             (inner (encode d) (encode text)
              < inner (encode text) (encode text))%Q) ->
  (inner (encode text) (encode text) == 1)%Q ->
  exists w1 w2 score,
    add_document uid text meta w
    = (w1, Ret (doc_id_of (doc_counter (self w)))) /\
    search uid text 1 w1
    = (w2, Ret [(doc_id_of (doc_counter (self w)), text, score,
                 meta_or_empty meta)]) /\
    score = inner (encode text) (encode text) /\
    (score == 1)%Q.
Proof.
  intros Hargsort Hflat Hl Hro Hfresh Hvariant Hmax Hunit.
  set (doc_id := doc_id_of (doc_counter (self w))) in *.
  assert (Hc : current_user_id (self w) = Some uid) by exact (proj1 Hl).
  assert (Hd : dict_set doc_id text (documents (self w))
               = documents (self w) ++ [(doc_id, text)])
    by exact (dict_set_fresh _ _ _ Hfresh).
  destruct Hvariant as [[Ht Hix]|(Ht & Hu & Hlen)].
  - destruct (add_document_flat_run w uid text meta _ Hl Hro Ht Hix)
      as (d & Hadd & _).
    eexists. eexists. exists (inner (encode text) (encode text)).
    split; [exact Hadd|]. split; [|split; [reflexivity | exact Hunit]].
    apply (search_top1_new_doc _ uid doc_id text (documents (self w))
             (meta_or_empty meta) text Hargsort Hflat).
    + exact Hc.
    + exact Hd.
    + exact Hfresh.
    + apply dict_get_set_eq.
    + left. split.
      * unfold is_ivf_untrained. cbn. rewrite Ht. reflexivity.
      * cbn. fold doc_id. rewrite Hd. unfold dict_values.
        rewrite !map_app. reflexivity.
    + exact Hmax.
  - rewrite (add_document_ivf_untrained_run w uid text meta Hl Ht Hu Hfresh Hlen).
    eexists. eexists. exists (inner (encode text) (encode text)).
    split; [reflexivity|]. split; [|split; [reflexivity | exact Hunit]].
    apply (search_top1_new_doc _ uid doc_id text (documents (self w))
             (meta_or_empty meta) text Hargsort Hflat).
    + exact Hc.
    + exact Hd.
    + exact Hfresh.
    + apply dict_get_set_eq.
    + right. unfold is_ivf_untrained. cbn. rewrite Ht, Hu. reflexivity.
    + exact Hmax.
Qed.

End AddThenSearchClaim.

(** C9, the claim as stated, refuted on a store that already holds the
    text: on the exact index, after [a] was added as [doc_0], adding [a]
    again returns [doc_1], and the search for [a] with [top_k = 1] answers
    [doc_0]. *)
Lemma C9_duplicate_text_finds_older_document :
  let w1 := fst (@add_document ref_backend "u" "a" None (fresh_world flat)) in
  let r := @add_document ref_backend "u" "a" None w1 in
  snd r = Ret "doc_1" /\
  snd (@search ref_backend "u" "a" 1 (fst r)) = Ret [("doc_0", "a", 1%Q, [])] /\
  ~ (exists score m rest,
        snd (@search ref_backend "u" "a" 1 (fst r))
        = Ret (("doc_1", "a", score, m) :: rest)).
Proof.
  cbv zeta.
  assert (E : snd (@search ref_backend "u" "a" 1
                     (fst (@add_document ref_backend "u" "a" None
                             (fst (@add_document ref_backend "u" "a" None
                                     (fresh_world flat))))))
              = Ret [("doc_0", "a", 1%Q, [])]) by (vm_compute; reflexivity).
  split; [vm_compute; reflexivity|]. split; [exact E|].
  intros (score & m & rest & E'). rewrite E in E'. discriminate E'.
Qed.

(** The same claim also fails on a store whose index lost its alignment in
    an earlier deletion: the new document's vector sits at position 0, and
    the row answered is the document at position 0 of [documents]. *)
Example add_then_search_after_delete :
  let r := @add_delete_add ref_backend (fresh_world flat) in
  snd r = Ret "doc_2" /\
  snd (@search ref_backend "u" "ccc" 1 (fst r))
  = Ret [("doc_1", "bb", (625 # 625)%Q, [])].
Proof. cbv zeta. split; vm_compute; reflexivity. Qed.

Lemma C9_witness :
  exists w1 w2 score,
    @add_document ref_backend "u" "dddd" None example_world
    = (w1, Ret (doc_id_of (doc_counter (self example_world)))) /\
    @search ref_backend "u" "dddd" 1 w1
    = (w2, Ret [(doc_id_of (doc_counter (self example_world)), "dddd", score,
                 meta_or_empty None)]) /\
    score = inner (ref_encode "dddd") (ref_encode "dddd") /\
    (score == 1)%Q.
Proof.
  apply (@C9_add_then_search_returns_new_document ref_backend
           example_world "u" "dddd" None).
  - exact ref_argsort_contract.
  - exact ref_flat_search_contract.
  - exact example_world_loaded.
  - reflexivity.
  - reflexivity.
  - left. split; reflexivity.
  - intros d Hd. cbn in Hd.
    destruct Hd as [<-|[<-|[<-|[]]]]; vm_compute; reflexivity.
  - vm_compute. reflexivity.
Defined.

(** ** A deleted identifier stays out of later answers *)

Lemma string_app_inv_head (p a b : string) :
  (p ++ a)%string = (p ++ b)%string -> a = b.
Proof.
  induction p as [|c p IH]; cbn; intros E; [exact E|].
  injection E as E. exact (IH E).
Qed.

Lemma doc_id_of_inj (n m : nat) : doc_id_of n = doc_id_of m -> n = m.
Proof.
  unfold doc_id_of. intros E. apply string_app_inv_head in E.
  apply Unsigned.to_uint_inj.
  pose proof (NilEmpty.usu (Nat.to_uint n)) as Hn.
  pose proof (NilEmpty.usu (Nat.to_uint m)) as Hm.
  rewrite E in Hn. rewrite Hn in Hm. injection Hm as Hm. exact Hm.
Qed.

Lemma dict_set_keys {V} (k x : string) (v : V) (d : dict V) :
  In x (dict_keys (dict_set k v d)) -> x = k \/ In x (dict_keys d).
Proof.
  induction d as [|[k' v'] d IH]; cbn.
  - intros [E|[]]. left. symmetry. exact E.
  - destruct (String.eqb_spec k k') as [->|Hne]; cbn.
    + intros [E|Hin]; [right; left; exact E | right; right; exact Hin].
    + intros [E|Hin]; [right; left; exact E|].
      destruct (IH Hin) as [E|Hin']; [left; exact E | right; right; exact Hin'].
Qed.

Section Preservation.
Context `{Backend}.
Variable P : World -> Prop.

Lemma preserves_ret {A} (a : A) : preserves P (ret a).
Proof. intros w Hw. exact Hw. Qed.

Lemma preserves_raise {A} (e : exn) : preserves P (raise (A := A) e).
Proof. intros w Hw. exact Hw. Qed.

Lemma preserves_lift {A} (r : py_result A) : preserves P (lift r).
Proof. intros w Hw. exact Hw. Qed.

Lemma preserves_bind {A B} (c : M World A) (k : A -> M World B) :
  preserves P c -> (forall a, preserves P (k a)) -> preserves P (bind c k).
Proof.
  intros Hc Hk w Hw. unfold bind. specialize (Hc w Hw).
  destruct (c w) as [w1 [a|e]]; cbn in Hc.
  - exact (Hk a w1 Hc).
  - exact Hc.
Qed.

(** After [get], the continuation may use that [P] holds of the state read. *)
Lemma preserves_get_bind {B} (k : World -> M World B) :
  (forall w0, P w0 -> P (fst (k w0 w0))) -> preserves P (bind get k).
Proof. intros Hk w Hw. exact (Hk w Hw). Qed.

Lemma preserves_set_self (f : RAGSystem -> RAGSystem) :
  (forall w, P w -> P {| self := f (self w); disk := disk w |}) ->
  preserves P (set_self f).
Proof. intros Hf w Hw. exact (Hf w Hw). Qed.

End Preservation.

Section Retired.
Context `{Backend}.
Variable uid : string.
Variable n : nat.

(** A property of the current user, the document keys and the counter does
    not see the index or the disk. *)
Lemma retired_frame (w : World) (s : RAGSystem) (d : Disk) :
  retired uid n w ->
  current_user_id s = current_user_id (self w) ->
  documents s = documents (self w) ->
  doc_counter s = doc_counter (self w) ->
  retired uid n {| self := s; disk := d |}.
Proof.
  intros (Hc & Hk & Hn) E1 E2 E3. unfold retired. cbn.
  rewrite E1, E2, E3. repeat split; assumption.
Qed.

Lemma retired_set_index (ix : Index) : preserves (retired uid n) (set_index ix).
Proof.
  apply preserves_set_self. intros w Hw. apply (retired_frame w); auto.
Qed.

Lemma retired_save_database : preserves (retired uid n) save_database.
Proof.
  intros w Hw. unfold save_database, bind, get, raise, write_file.
  destruct (db_path (self w)) as [[|c p]|]; cbn; try exact Hw.
  destruct (read_only (disk w)); cbn; [exact Hw|].
  apply (retired_frame w); auto.
Qed.

Lemma retired_rebuild (pos : nat) :
  preserves (retired uid n) (_rebuild_index_without_document pos).
Proof.
  intros w Hw. destruct (rebuild_frame w pos) as [ix ->]. cbn.
  apply (retired_frame w); auto.
Qed.

Lemma retired_retrain : preserves (retired uid n) _retrain_ivf_index.
Proof.
  unfold _retrain_ivf_index. apply preserves_get_bind. intros w0 Hw0.
  destruct (documents (self w0)); [exact Hw0|].
  revert w0 Hw0. change (preserves (retired uid n)
    (set_self (fun s => with_index (_create_index (index_type s)) s) ;;
     w <- get ;;
     ix <- lift (index_train (index (self w))
                   (map encode (dict_values (documents (self w))))) ;;
     set_index ix ;;
     ix' <- lift (index_add ix (map encode (dict_values (documents (self w))))) ;;
     set_index ix')).
  apply preserves_bind.
  { apply preserves_set_self. intros w Hw. apply (retired_frame w); auto. }
  intros _. apply preserves_get_bind. intros w0 Hw0. revert w0 Hw0.
  intros w0 Hw0.
  refine (preserves_bind _ _ _ _ _ w0 Hw0); [apply preserves_lift|].
  intros ix. apply preserves_bind; [apply retired_set_index|].
  intros _. apply preserves_bind; [apply preserves_lift|].
  intros ix'. apply retired_set_index.
Qed.

Lemma retired_ensure : preserves (retired uid n) (_ensure_user_database uid).
Proof.
  intros w Hw. rewrite ensure_loaded by exact (proj1 Hw). exact Hw.
Qed.

End Retired.

Section RetiredOperations.
Context `{Backend}.
Variable uid : string.
Variable n : nat.

Lemma retired_add_document (text : string) (meta : option Meta) :
  preserves (retired uid n) (add_document uid text meta).
Proof.
  unfold add_document. apply preserves_bind; [apply retired_ensure|].
  intros _. apply preserves_get_bind. intros w0 Hw0.
  refine ((_ : preserves (retired uid n) _) w0 Hw0). cbv zeta.
  assert (Hnew : doc_id_of (doc_counter (self w0)) <> doc_id_of n).
  { intros E. apply doc_id_of_inj in E. destruct Hw0 as (_ & _ & Hn). lia. }
  clear Hw0.
  apply preserves_bind.
  { apply preserves_set_self. intros w (Hc & Hk & Hn).
    repeat split; cbn; [exact Hc | exact Hk | lia]. }
  intros _. apply preserves_bind.
  { apply preserves_set_self. intros w (Hc & Hk & Hn).
    repeat split; cbn; [exact Hc | | exact Hn].
    intros Hin. apply dict_set_keys in Hin as [E|Hin]; [congruence | exact (Hk Hin)]. }
  intros _. apply preserves_bind.
  { apply preserves_set_self. intros w Hw. apply (retired_frame uid n w); auto. }
  intros _. apply preserves_get_bind. intros w1 Hw1.
  refine ((_ : preserves (retired uid n) _) w1 Hw1).
  apply preserves_bind.
  - destruct (is_ivf_untrained (self w1)).
    + destruct (100 <=? length (documents (self w1)))%nat; [|apply preserves_ret].
      apply preserves_bind; [apply preserves_lift|]. intros ix.
      apply preserves_bind; [apply retired_set_index|]. intros _.
      apply preserves_bind; [apply preserves_lift|]. intros ix'.
      apply preserves_bind; [apply retired_set_index|]. intros _.
      apply preserves_ret.
    + apply preserves_bind; [apply preserves_lift|]. intros ix.
      apply preserves_bind; [apply retired_set_index|]. intros _.
      apply preserves_ret.
  - intros [|]; [apply preserves_ret|].
    apply preserves_bind; [apply retired_save_database|]. intros _.
    apply preserves_ret.
Qed.

Lemma retired_update_document (doc_id text : string) (meta : option Meta) :
  preserves (retired uid n) (update_document uid doc_id text meta).
Proof.
  unfold update_document. apply preserves_bind; [apply retired_ensure|].
  intros _. apply preserves_get_bind. intros w0 Hw0.
  destruct (dict_mem doc_id (documents (self w0))) eqn:Hm; cbn [negb];
    [|exact Hw0].
  assert (Hother : doc_id <> doc_id_of n).
  { intros ->. apply dict_mem_In in Hm. exact (proj1 (proj2 Hw0) Hm). }
  refine ((_ : preserves (retired uid n) _) w0 Hw0). cbv zeta. clear Hw0.
  destruct (list_index doc_id (dict_keys (documents (self w0))));
    [|apply preserves_raise].
  apply preserves_bind; [apply retired_rebuild|]. intros _.
  apply preserves_bind.
  { apply preserves_set_self. intros w (Hc & Hk & Hn).
    repeat split; cbn; [exact Hc | | exact Hn].
    intros Hin. apply dict_set_keys in Hin as [E|Hin]; [congruence | exact (Hk Hin)]. }
  intros _. apply preserves_bind.
  { destruct meta; [|apply preserves_ret].
    apply preserves_set_self. intros w Hw. apply (retired_frame uid n w); auto. }
  intros _. apply preserves_get_bind. intros w1 Hw1.
  refine ((_ : preserves (retired uid n) _) w1 Hw1).
  apply preserves_bind.
  - destruct (is_ivf_untrained (self w1)).
    + destruct (100 <=? length (documents (self w1)))%nat;
        [apply retired_retrain | apply preserves_ret].
    + apply preserves_bind; [apply preserves_lift|]. intros ix.
      apply retired_set_index.
  - intros _. apply preserves_bind; [apply retired_save_database|]. intros _.
    apply preserves_ret.
Qed.

Lemma retired_delete_document (doc_id : string) :
  preserves (retired uid n) (delete_document uid doc_id).
Proof.
  unfold delete_document. apply preserves_bind; [apply retired_ensure|].
  intros _. apply preserves_get_bind. intros w0 Hw0.
  destruct (dict_mem doc_id (documents (self w0))); cbn [negb]; [|exact Hw0].
  refine ((_ : preserves (retired uid n) _) w0 Hw0). cbv zeta. clear Hw0.
  destruct (list_index doc_id (dict_keys (documents (self w0))));
    [|apply preserves_raise].
  apply preserves_bind.
  { apply preserves_set_self. intros w (Hc & Hk & Hn).
    repeat split; cbn; [exact Hc | | exact Hn].
    intros Hin. apply dict_del_keys_incl in Hin. exact (Hk Hin). }
  intros _. apply preserves_get_bind. intros w1 Hw1.
  refine ((_ : preserves (retired uid n) _) w1 Hw1).
  apply preserves_bind.
  { destruct (dict_mem doc_id (metadata (self w1))); [|apply preserves_raise].
    apply preserves_set_self. intros w Hw. apply (retired_frame uid n w); auto. }
  intros _. apply preserves_bind; [apply retired_rebuild|]. intros _.
  apply preserves_bind; [apply retired_save_database|]. intros _.
  apply preserves_ret.
Qed.

Lemma retired_run_op (o : StoreOp) (w : World) :
  retired uid n w -> retired uid n (run_op uid o w).
Proof.
  intros Hw. destruct o as [text meta|doc_id text meta|doc_id|query top_k|]; cbn.
  - exact (retired_add_document text meta w Hw).
  - exact (retired_update_document doc_id text meta w Hw).
  - exact (retired_delete_document doc_id w Hw).
  - rewrite search_loaded by exact (proj1 Hw). exact Hw.
  - unfold get_stats, bind. rewrite ensure_loaded by exact (proj1 Hw). exact Hw.
Qed.

Lemma retired_run_ops (ops : list StoreOp) (w : World) :
  retired uid n w -> retired uid n (run_ops uid ops w).
Proof.
  revert w. induction ops as [|o ops IH]; intros w Hw; [exact Hw|].
  cbn. apply IH. apply retired_run_op. exact Hw.
Qed.

(** X14.  After the deletion of an identifier that the counter had issued, no
    sequence of operations of that user brings it back into a search
    answer: the counter never issues it again. *)
Theorem deleted_doc_id_stays_hidden (w w' : World) (ops : list StoreOp) :
  loaded w uid ->
  read_only (disk w) = false ->
  List.NoDup (dict_keys (documents (self w))) ->
  dict_keys (metadata (self w)) = dict_keys (documents (self w)) ->
  dict_mem (doc_id_of n) (documents (self w)) = true ->
  (n < doc_counter (self w))%nat ->
  delete_document uid (doc_id_of n) w = (w', Ret true) ->
  forall (query : string) (top_k : Z) w'' rs,
    search uid query top_k (run_ops uid ops w') = (w'', Ret rs) ->
    forall r, In r rs -> fst (fst (fst r)) <> doc_id_of n.
Proof.
  intros Hl Hro Hnd Hkeys Hm Hn Hdel query top_k w'' rs Hs r Hin Heq.
  assert (Hmm : dict_mem (doc_id_of n) (metadata (self w)) = true).
  { apply dict_mem_In. rewrite Hkeys. apply dict_mem_In. exact Hm. }
  destruct (delete_document_present w uid (doc_id_of n) Hl Hro Hm Hmm)
    as (ix & d & Hrun & _).
  rewrite Hrun in Hdel. injection Hdel as <-.
  assert (Hret : retired uid n
                   (run_ops uid ops
                      {| self := with_index ix
                           (with_metadata
                              (dict_del (doc_id_of n) (metadata (self w)))
                              (with_documents
                                 (dict_del (doc_id_of n) (documents (self w)))
                                 (self w)));
                         disk := d |})).
  { apply retired_run_ops. repeat split; cbn.
    - exact (proj1 Hl).
    - apply dict_del_not_in. exact Hnd.
    - exact Hn. }
  destruct Hret as (Hc & Hk & _).
  pose proof (search_ids _ _ uid query top_k rs Hc Hs r Hin) as Hin'.
  rewrite Heq in Hin'. exact (Hk Hin').
Qed.

End RetiredOperations.

(** ** Further runs of the two defects and of the degenerate window *)

(** [update_document] keeps the count but not the positions: the entry
    keeps its place in [documents] while its new vector goes last, so a
    search for the text at position 1 answers the entry at position 0. *)
Example update_leaves_index_permuted :
  let r := @add_three_update_first ref_backend (fresh_world flat) in
  snd r = Ret true /\
  dict_values (documents (self (fst r))) = ["dddd"; "bb"; "ccc"] /\
  index (self (fst r))
  = IndexFlatIP [ref_encode "bb"; ref_encode "ccc"; ref_encode "dddd"] /\
  ~ @aligned ref_backend (self (fst r)) /\
  snd (@search ref_backend "u" "bb" 1 (fst r)) = Ret [("doc_0", "dddd", 1%Q, [])].
Proof.
  cbv zeta. repeat split; try (vm_compute; reflexivity).
  unfold aligned. vm_compute. intros E. discriminate E.
Qed.

(** On the exact index the same first addition does write the snapshot. *)
Example flat_add_writes_snapshot :
  let r := @add_document ref_backend "u" "hello" None (fresh_world flat) in
  snd r = Ret "doc_0" /\
  write_log (disk (fst r))
  = [("user_memory/u/rag_db_u.pkl", snapshot_of (self (fst r)))].
Proof. cbv zeta. split; vm_compute; reflexivity. Qed.

(** With [N = 0] the slice [[-0:]] keeps the whole list: nothing is cut,
    and every turn is forwarded again at each later turn. *)
Example zero_length_window_is_never_cut :
  let r := @chat_all _ ref_assistant ["m1"; "m2"; "m3"]
             (new_session (new_chatbot "u" "s" 0 true)) in
  pair_count (fst r) = 3%Z /\
  forwarded_batches (events (fst r)) = [["m1"]; ["m1"; "m2"]; ["m1"; "m2"; "m3"]].
Proof. cbv zeta. split; vm_compute; reflexivity. Qed.

(** * Further properties of the document store *)

(** ** Closed forms of rebuild, delete and update *)

Section StoreClosedForms.
Context `{Backend}.
#[local] Arguments Nat.leb : simpl never.
#[local] Arguments Nat.ltb : simpl never.

Lemma rebuild_result (w : World) (pos : nat) :
  _rebuild_index_without_document pos w
  = ({| self := with_index
                  (rebuilt_index (index_type (self w))
                     (map encode (remaining pos (dict_values (documents (self w))))))
                  (self w);
        disk := disk w |}, Ret tt).
Proof.
  destruct w as [[it dim cu docs md dc ix0 dp] dk].
  unfold _rebuild_index_without_document, bind, get, set_index, set_self,
    modify, lift, ret, remaining.
  cbn [self disk with_index documents index_type index].
  destruct (if (pos <? length (dict_values docs))%nat
            then list_pop pos (dict_values docs)
            else dict_values docs) as [|d0 dl].
  - reflexivity.
  - destruct it; cbn.
    + reflexivity.
    + destruct (100 <=? S (length dl))%nat eqn:E100; cbn.
      * unfold nlist. rewrite !length_map, E100. cbn. reflexivity.
      * rewrite !length_map, E100. reflexivity.
    + reflexivity.
Qed.

Lemma save_database_outcome (w : World) :
  exists d r, save_database w = ({| self := self w; disk := d |}, r).
Proof.
  unfold save_database, bind, get, raise, write_file. destruct w as [s d].
  cbn. destruct (db_path s) as [[|c p]|]; cbn; eauto.
  destruct (read_only d); cbn; eauto.
Qed.

Lemma save_database_persists (w w' : World) :
  save_database w = (w', Ret tt) -> self w' = self w /\ persisted w'.
Proof.
  unfold save_database, bind, get, raise, write_file, persisted.
  destruct (db_path (self w)) as [[|c p]|] eqn:Ep; try discriminate.
  destruct (read_only (disk w)); [discriminate|].
  intros [= <-]. cbn. split; [reflexivity|].
  exists (String c p). split; [exact Ep|]. apply lookup_insert_eq.
Qed.

End StoreClosedForms.

Section StoreMutationRuns.
Context `{Backend}.
#[local] Arguments Nat.leb : simpl never.
#[local] Arguments Nat.ltb : simpl never.

(** [delete_document] of an identifier present in both dictionaries: the
    state handed to [save_database], whose outcome is the outcome. *)
Lemma delete_document_run (w : World) (uid doc_id : string) :
  current_user_id (self w) = Some uid ->
  dict_mem doc_id (documents (self w)) = true ->
  dict_mem doc_id (metadata (self w)) = true ->
  exists pos,
    list_index doc_id (dict_keys (documents (self w))) = Some pos /\
    delete_document uid doc_id w
    = (save_database ;; ret true)
        {| self := with_index
                     (rebuilt_index (index_type (self w))
                        (map encode
                           (remaining pos
                              (dict_values (dict_del doc_id (documents (self w)))))))
                     (after_delete (self w) doc_id);
           disk := disk w |}.
Proof.
  intros Hc Hm Hmm. unfold delete_document. unfold bind at 1.
  rewrite (ensure_loaded w uid Hc). unfold bind at 1, get. cbn [fst snd].
  rewrite Hm. cbn [negb].
  destruct (list_index_Some doc_id (dict_keys (documents (self w))))
    as (pos & Hpos & _); [apply dict_mem_In; exact Hm|].
  exists pos. split; [exact Hpos|]. rewrite Hpos.
  unfold bind, set_self, modify.
  cbn [self disk with_documents metadata]. rewrite Hmm.
  rewrite rebuild_result. reflexivity.
Qed.

(** [update_document] of a present identifier on a variant without
    training: the rebuilt vectors, then the new one, then the save. *)
Lemma update_document_run (w : World) (uid doc_id text : string)
    (meta : option Meta) :
  current_user_id (self w) = Some uid ->
  index_type (self w) <> ivf ->
  dict_mem doc_id (documents (self w)) = true ->
  exists pos,
    list_index doc_id (dict_keys (documents (self w))) = Some pos /\
    update_document uid doc_id text meta w
    = (save_database ;; ret true)
        {| self := with_index
                     (plain_index (index_type (self w))
                        (map encode
                           (remaining pos (dict_values (documents (self w))))
                           ++ [encode text]))
                     (after_update (self w) doc_id text meta);
           disk := disk w |}.
Proof.
  intros Hc Ht Hm. unfold update_document. unfold bind at 1.
  rewrite (ensure_loaded w uid Hc). unfold bind at 1, get. cbn [fst snd].
  rewrite Hm. cbn [negb].
  destruct (list_index_Some doc_id (dict_keys (documents (self w))))
    as (pos & Hpos & _); [apply dict_mem_In; exact Hm|].
  exists pos. split; [exact Hpos|]. rewrite Hpos.
  unfold bind at 1. rewrite rebuild_result.
  unfold bind at 1, set_self at 1, modify.
  destruct w as [[it dim cu docs md dc ix0 dp] dk]. cbn in Ht.
  cbn [self disk with_index with_documents documents metadata index_type].
  set (embs := map encode (remaining pos (dict_values docs))).
  unfold set_index, bind, set_self, modify, ret, lift, get, is_ivf_untrained,
    after_update.
  destruct meta as [m|];
    cbn [self disk with_index with_documents with_metadata documents metadata
         index_type index];
    destruct it; try congruence; cbn [IndexType_eqb andb];
    destruct embs; reflexivity.
Qed.

End StoreMutationRuns.

Section StoreMutationFacts.
Context `{Backend}.
#[local] Arguments Nat.leb : simpl never.
#[local] Arguments Nat.ltb : simpl never.

Lemma save_then_true (w : World) (p : string) :
  db_path (self w) = Some p -> p <> "" -> read_only (disk w) = false ->
  exists d, (save_database ;; ret true) w = ({| self := self w; disk := d |}, Ret true) /\
            files d !! p = Some (snapshot_of (self w)).
Proof.
  intros Hp Hne Hro. unfold save_database, bind, ret, get, write_file.
  rewrite Hp. destruct p as [|c p]; [congruence|]. rewrite Hro.
  eexists. split; [reflexivity|]. cbn. apply lookup_insert_eq.
Qed.

Lemma list_index_nth (k : string) (l : list string) (pos : nat) :
  list_index k l = Some pos -> (pos < length l)%nat /\ nth pos l "" = k.
Proof.
  revert pos. induction l as [|k' l IH]; intros pos; cbn; [discriminate|].
  destruct (String.eqb_spec k k') as [->|Hne].
  - intros [= <-]. split; [lia | reflexivity].
  - destruct (list_index k l) as [i|]; [|discriminate].
    intros [= <-]. destruct (IH i eq_refl) as [Hi Hn]. split; [lia | exact Hn].
Qed.

Lemma dict_set_values {V} (k : string) (v : V) (d : dict V) (pos : nat) :
  list_index k (dict_keys d) = Some pos ->
  dict_values (dict_set k v d)
  = firstn pos (dict_values d) ++ v :: skipn (S pos) (dict_values d).
Proof.
  unfold dict_keys, dict_values.
  revert pos. induction d as [|[k' v'] d IH]; intros pos; cbn; [discriminate|].
  destruct (String.eqb k k').
  - intros [= <-]. reflexivity.
  - destruct (list_index k (map fst d)) as [i|] eqn:Ei; [|discriminate].
    intros [= <-]. cbn. rewrite (IH i eq_refl). reflexivity.
Qed.

Lemma dict_set_keys_present {V} (k : string) (v : V) (d : dict V) :
  dict_mem k d = true -> dict_keys (dict_set k v d) = dict_keys d.
Proof.
  unfold dict_mem, dict_keys.
  induction d as [|[k' v'] d IH]; cbn; [discriminate|].
  destruct (String.eqb_spec k k') as [->|Hne]; cbn; [reflexivity|].
  intros Hm. rewrite IH by exact Hm. reflexivity.
Qed.

Lemma dict_set_length {V} (k : string) (v : V) (d : dict V) :
  dict_mem k d = true -> length (dict_set k v d) = length d.
Proof.
  unfold dict_mem. induction d as [|[k' v'] d IH]; cbn; [discriminate|].
  destruct (String.eqb k k'); [reflexivity|].
  intros Hm. cbn. rewrite IH by exact Hm. reflexivity.
Qed.

Lemma remaining_length {A} (pos : nat) (l : list A) :
  (pos < length l)%nat -> S (length (remaining pos l)) = length l.
Proof.
  intros Hp. unfold remaining, list_pop.
  destruct (pos <? length l)%nat eqn:E; [|apply Nat.ltb_ge in E; lia].
  rewrite length_app, length_firstn, length_skipn. lia.
Qed.

Lemma index_vectors_rebuilt_plain (t : IndexType) (embs : list Vec) :
  t <> ivf -> index_vectors (rebuilt_index t embs) = embs.
Proof. intros Ht. destruct embs, t; try congruence; reflexivity. Qed.

Lemma index_vectors_plain (t : IndexType) (vs : list Vec) :
  t <> ivf -> index_vectors (plain_index t vs) = vs.
Proof. intros Ht. destruct t; try congruence; reflexivity. Qed.

(** X11.  After a successful [delete_document], on every variant: the entry is
    gone from both dictionaries, and the index is the one rebuilt from the
    surviving documents less the one now standing at the deleted position. *)
Theorem delete_document_rebuilds_without_next
    (w : World) (uid doc_id : string) :
  loaded w uid ->
  read_only (disk w) = false ->
  dict_mem doc_id (documents (self w)) = true ->
  dict_mem doc_id (metadata (self w)) = true ->
  exists w' pos,
    delete_document uid doc_id w = (w', Ret true) /\
    list_index doc_id (dict_keys (documents (self w))) = Some pos /\
    documents (self w') = dict_del doc_id (documents (self w)) /\
    metadata (self w') = dict_del doc_id (metadata (self w)) /\
    index (self w')
    = rebuilt_index (index_type (self w))
        (map encode (remaining pos (dict_values (documents (self w'))))).
Proof.
  intros [Hc (p & Hp & Hne)] Hro Hm Hmm.
  destruct (delete_document_run w uid doc_id Hc Hm Hmm) as (pos & Hpos & ->).
  match goal with
  | |- context [(save_database ;; ret true) ?w2] =>
      destruct (save_then_true w2 p Hp Hne Hro) as (d & -> & _)
  end.
  eexists. exists pos. split; [reflexivity|]. split; [exact Hpos|].
  repeat split.
Qed.

(** X12.  Deleting the entry that stands last in [documents], on a variant
    without training: the index is left aligned with [documents], whatever
    it held before. *)
Theorem delete_last_document_keeps_aligned
    (w : World) (uid doc_id : string) :
  loaded w uid ->
  read_only (disk w) = false ->
  index_type (self w) <> ivf ->
  dict_mem doc_id (metadata (self w)) = true ->
  list_index doc_id (dict_keys (documents (self w)))
  = Some (length (documents (self w)) - 1)%nat ->
  exists w',
    delete_document uid doc_id w = (w', Ret true) /\
    aligned (self w') /\
    ntotal (index (self w')) = length (documents (self w')).
Proof.
  intros [Hc (p & Hp & Hne)] Hro Ht Hmm Hlast.
  assert (Hm : dict_mem doc_id (documents (self w)) = true).
  { apply dict_mem_In. destruct (list_index_nth _ _ _ Hlast) as [Hlt <-].
    apply nth_In. exact Hlt. }
  destruct (delete_document_run w uid doc_id Hc Hm Hmm) as (pos & Hpos & ->).
  rewrite Hlast in Hpos. injection Hpos as <-.
  match goal with
  | |- context [(save_database ;; ret true) ?w2] =>
      destruct (save_then_true w2 p Hp Hne Hro) as (d & -> & _)
  end.
  eexists. split; [reflexivity|]. cbn [self index with_index].
  assert (Hal : index_vectors
                  (rebuilt_index (index_type (self w))
                     (map encode
                        (remaining (length (documents (self w)) - 1)
                           (dict_values (dict_del doc_id (documents (self w)))))))
                = map encode (dict_values (dict_del doc_id (documents (self w))))).
  { rewrite index_vectors_rebuilt_plain by exact Ht. f_equal.
    unfold remaining.
    pose proof (dict_del_length doc_id (documents (self w)) Hm) as Hl.
    unfold dict_values. rewrite length_map.
    destruct (length (documents (self w)) - 1
              <? length (dict_del doc_id (documents (self w))))%nat eqn:E;
      [apply Nat.ltb_lt in E; lia | reflexivity]. }
  split.
  - unfold aligned. cbn. exact Hal.
  - unfold ntotal. cbn. rewrite Hal. unfold dict_values.
    rewrite !length_map. reflexivity.
Qed.

(** X10.  After a successful [update_document] on a variant without
    training: the index holds the embeddings of the other documents in order, then the
    embedding of the new text; so it has as many vectors as there are
    documents, whatever it held before, and it is aligned when the updated
    entry stands last. *)
Theorem update_document_appends_new_vector
    (w : World) (uid doc_id text : string) (meta : option Meta) :
  loaded w uid ->
  read_only (disk w) = false ->
  index_type (self w) <> ivf ->
  dict_mem doc_id (documents (self w)) = true ->
  exists w' pos,
    update_document uid doc_id text meta w = (w', Ret true) /\
    list_index doc_id (dict_keys (documents (self w))) = Some pos /\
    dict_keys (documents (self w')) = dict_keys (documents (self w)) /\
    dict_get doc_id (documents (self w')) = Some text /\
    index_vectors (index (self w'))
    = map encode (remaining pos (dict_values (documents (self w))))
        ++ [encode text] /\
    ntotal (index (self w')) = length (documents (self w')) /\
    (S pos = length (documents (self w)) -> aligned (self w')).
Proof.
  intros [Hc (p & Hp & Hne)] Hro Ht Hm.
  destruct (update_document_run w uid doc_id text meta Hc Ht Hm)
    as (pos & Hpos & ->).
  assert (Hp' : db_path (after_update (self w) doc_id text meta) = Some p).
  { destruct meta; exact Hp. }
  match goal with
  | |- context [(save_database ;; ret true) ?w2] =>
      destruct (save_then_true w2 p Hp' Hne Hro) as (d & -> & _)
  end.
  assert (Hdocs : documents (after_update (self w) doc_id text meta)
                  = dict_set doc_id text (documents (self w))).
  { destruct meta; reflexivity. }
  destruct (list_index_nth _ _ _ Hpos) as [Hlt _].
  unfold dict_keys in Hlt. rewrite length_map in Hlt.
  eexists. exists pos. split; [reflexivity|]. split; [exact Hpos|].
  cbn [self index with_index documents]. rewrite Hdocs.
  rewrite index_vectors_plain by exact Ht.
  split; [|split; [apply dict_get_set_eq|split; [reflexivity|split]]].
  - apply dict_set_keys_present. exact Hm.
  - unfold ntotal. rewrite index_vectors_plain by exact Ht.
    rewrite length_app, length_map. cbn [length].
    assert (Hlv : length (dict_values (documents (self w)))
                  = length (documents (self w)))
      by (unfold dict_values; apply length_map).
    pose proof (remaining_length pos (dict_values (documents (self w)))) as Hr.
    rewrite Hlv in Hr. specialize (Hr Hlt).
    rewrite (dict_set_length _ _ _ Hm). lia.
  - intros Hlast. unfold aligned. cbn [self index with_index documents].
    rewrite Hdocs, index_vectors_plain by exact Ht.
    rewrite (dict_set_values _ _ _ _ Hpos).
    unfold remaining, list_pop.
    assert (Hlv : length (dict_values (documents (self w)))
                  = length (documents (self w)))
      by (unfold dict_values; apply length_map).
    destruct (pos <? length (dict_values (documents (self w))))%nat eqn:E;
      [|apply Nat.ltb_ge in E; lia].
    rewrite (skipn_all2 (dict_values (documents (self w)))) by lia.
    rewrite app_nil_r, map_app. reflexivity.
Qed.

End StoreMutationFacts.

(** ** Snapshots: save, load, and changing the user *)

Lemma string_app_nonempty (a : string) (c : Ascii.ascii) (b : string) :
  (a ++ String c b)%string <> "".
Proof. destruct a; cbn; discriminate. Qed.

Lemma user_db_path_nonempty (uid : string) : user_db_path uid <> "".
Proof.
  unfold user_db_path, path_join. cbn [append String.prefix Ascii.ascii_dec].
  cbn.
  destruct (String.eqb _ ""); [discriminate|].
  destruct (String.eqb _ "/"); apply string_app_nonempty.
Qed.

Section Snapshots.
Context `{Backend}.

Lemma bind_get {A} (k : World -> M World A) (w : World) :
  bind get k w = k w w.
Proof. reflexivity. Qed.

Lemma bind_set_self {A} (f : RAGSystem -> RAGSystem) (k : unit -> M World A)
    (w : World) :
  bind (set_self f) k w = k tt {| self := f (self w); disk := disk w |}.
Proof. reflexivity. Qed.

Lemma bind_ensure_loaded {A} (uid : string) (k : unit -> M World A) (w : World) :
  current_user_id (self w) = Some uid ->
  bind (_ensure_user_database uid) k w = k tt w.
Proof. intros Hc. unfold bind. rewrite (ensure_loaded w uid Hc). reflexivity. Qed.

Lemma same_user_false (cur : option string) (uid : string) :
  cur <> Some uid -> same_user cur uid = false.
Proof.
  intros Hne. destruct cur as [u|]; [|reflexivity]. cbn.
  destruct (String.eqb_spec u uid) as [->|]; [congruence | reflexivity].
Qed.

(** What [load_database] puts in memory from a snapshot file. *)
Lemma load_database_found (w : World) (uid : string) (d : db_data) :
  files (disk w) !! user_db_path uid = Some d ->
  load_database uid w
  = ({| self := {| index_type := db_index_type d;
                   dimension := db_dimension d;
                   current_user_id := Some uid;
                   documents := db_documents d;
                   metadata := db_metadata d;
                   doc_counter := db_doc_counter d;
                   index := db_index_data d;
                   db_path := Some (user_db_path uid) |};
        disk := disk w |}, Ret true).
Proof.
  intros Hf. unfold load_database. rewrite bind_get. rewrite Hf. reflexivity.
Qed.

Lemma load_database_missing (w : World) (uid : string) :
  files (disk w) !! user_db_path uid = None ->
  load_database uid w = (w, Ret false).
Proof.
  intros Hf. unfold load_database. rewrite bind_get. rewrite Hf. reflexivity.
Qed.

Lemma restore_snapshot (s : RAGSystem) (uid : string) :
  current_user_id s = Some uid ->
  db_path s = Some (user_db_path uid) ->
  {| index_type := db_index_type (snapshot_of s);
     dimension := db_dimension (snapshot_of s);
     current_user_id := Some uid;
     documents := db_documents (snapshot_of s);
     metadata := db_metadata (snapshot_of s);
     doc_counter := db_doc_counter (snapshot_of s);
     index := db_index_data (snapshot_of s);
     db_path := Some (user_db_path uid) |} = s.
Proof. destruct s. cbn. intros -> ->. reflexivity. Qed.

(** X1.  Saving, then loading the same user from any store object on that disk,
    gives back the store object that was saved: type, dimension, documents,
    metadata, counter and index. *)
Theorem save_then_load_restores_store
    (w : World) (uid : string) (other : RAGSystem) :
  current_user_id (self w) = Some uid ->
  db_path (self w) = Some (user_db_path uid) ->
  read_only (disk w) = false ->
  exists d,
    save_database w = ({| self := self w; disk := d |}, Ret tt) /\
    load_database uid {| self := other; disk := d |}
    = ({| self := self w; disk := d |}, Ret true).
Proof.
  intros Hc Hp Hro.
  destruct (save_then_true w _ Hp (user_db_path_nonempty uid) Hro)
    as (d & Hsave & Hfile).
  exists d. split.
  - unfold bind, ret in Hsave.
    destruct (save_database w) as [w1 [[]|e]]; [|discriminate].
    injection Hsave as ->. reflexivity.
  - rewrite (load_database_found {| self := other; disk := d |} uid _ Hfile).
    rewrite (restore_snapshot (self w) uid Hc Hp). reflexivity.
Qed.

(** X2.  The first touch of a user with no snapshot file, on a writable disk:
    an empty database of the type and dimension of the store object, with
    its path set and its directory made; no file is written. *)
Theorem ensure_creates_empty_database (w : World) (uid : string) :
  current_user_id (self w) <> Some uid ->
  files (disk w) !! user_db_path uid = None ->
  read_only (disk w) = false ->
  exists w',
    _ensure_user_database uid w = (w', Ret tt) /\
    loaded w' uid /\
    documents (self w') = [] /\ metadata (self w') = [] /\
    doc_counter (self w') = 0%nat /\
    index (self w') = _create_index (index_type (self w)) /\
    index_type (self w') = index_type (self w) /\
    db_path (self w') = Some (user_db_path uid) /\
    files (disk w') = files (disk w) /\
    write_log (disk w') = write_log (disk w) /\
    _get_user_directory uid ∈ dirs (disk w').
Proof.
  intros Hcur Hfile Hro. unfold _ensure_user_database.
  rewrite bind_get, (same_user_false _ _ Hcur).
  unfold bind at 1. rewrite (load_database_missing w uid Hfile).
  rewrite !bind_set_self. unfold bind at 1, makedirs. cbn [self disk].
  rewrite Hro. rewrite bind_set_self. unfold set_self, modify.
  eexists. split; [reflexivity|]. cbn.
  repeat split.
  - exists (user_db_path uid). split; [reflexivity | apply user_db_path_nonempty].
  - set_solver.
Qed.

(** X3.  With the snapshot on disk current, going to another user and coming
    back restores the store object exactly. *)
Theorem switch_user_and_back_restores_store
    (w : World) (uid other : string) :
  current_user_id (self w) = Some uid ->
  db_path (self w) = Some (user_db_path uid) ->
  files (disk w) !! user_db_path uid = Some (snapshot_of (self w)) ->
  read_only (disk w) = false ->
  other <> uid ->
  exists w1 w2,
    _ensure_user_database other w = (w1, Ret tt) /\
    current_user_id (self w1) = Some other /\
    _ensure_user_database uid w1 = (w2, Ret tt) /\
    self w2 = self w /\
    files (disk w2) = files (disk w) /\
    write_log (disk w2) = write_log (disk w).
Proof.
  intros Hc Hp Hfile Hro Hne.
  assert (Hback : forall w1 : World,
             current_user_id (self w1) = Some other ->
             files (disk w1) = files (disk w) ->
             _ensure_user_database uid w1
             = ({| self := self w; disk := disk w1 |}, Ret tt)).
  { intros w1 Hc1 Hf1. unfold _ensure_user_database.
    rewrite bind_get, Hc1. cbn [same_user].
    destruct (String.eqb_spec other uid) as [E|_]; [congruence|].
    unfold bind at 1.
    rewrite (load_database_found w1 uid (snapshot_of (self w)))
      by (rewrite Hf1; exact Hfile).
    unfold set_self, modify. cbn [self disk with_current_user_id].
    rewrite (restore_snapshot (self w) uid Hc Hp).
    destruct (self w); cbn in *. rewrite Hc. reflexivity. }
  unfold _ensure_user_database at 1.
  rewrite bind_get, Hc. cbn [same_user].
  destruct (String.eqb_spec uid other) as [E|_]; [congruence|].
  unfold bind at 1.
  destruct (files (disk w) !! user_db_path other) as [d|] eqn:Eo.
  - rewrite (load_database_found w other d Eo).
    unfold set_self, modify. cbn [self disk with_current_user_id].
    eexists. eexists. split; [reflexivity|]. split; [reflexivity|].
    split; [apply Hback; reflexivity|]. repeat split.
  - rewrite (load_database_missing w other Eo).
    rewrite !bind_set_self. unfold bind at 1, makedirs. cbn [self disk].
    rewrite Hro. rewrite bind_set_self. unfold set_self, modify.
    eexists. eexists. split; [reflexivity|]. split; [reflexivity|].
    split; [apply Hback; reflexivity|]. repeat split.
Qed.

(** X4.  On a disk that refuses writes, touching a user with neither snapshot
    nor directory raises after the store object was emptied and before the
    current user was changed: the store still answers for the former user,
    with no documents, while that user's snapshot file is as it was. *)
Theorem failed_creation_empties_current_store
    (w : World) (uid other : string) :
  current_user_id (self w) = Some uid ->
  other <> uid ->
  files (disk w) !! user_db_path other = None ->
  _get_user_directory other ∉ dirs (disk w) ->
  read_only (disk w) = true ->
  exists w',
    _ensure_user_database other w = (w', Raise OSError) /\
    current_user_id (self w') = Some uid /\
    documents (self w') = [] /\
    disk w' = disk w /\
    exists stats,
      snd (get_stats uid w') = Ret stats /\ num_documents stats = 0%nat.
Proof.
  intros Hc Hne Hfile _ Hro. unfold _ensure_user_database.
  rewrite bind_get, Hc. cbn [same_user].
  destruct (String.eqb_spec uid other) as [E|_]; [congruence|].
  unfold bind at 1. rewrite (load_database_missing w other Hfile).
  rewrite !bind_set_self. unfold bind at 1, makedirs. cbn [self disk].
  rewrite Hro.
  eexists. split; [reflexivity|]. cbn [self disk with_index with_doc_counter
    with_metadata with_documents current_user_id documents].
  split; [exact Hc|]. split; [reflexivity|]. split; [reflexivity|].
  unfold get_stats. rewrite bind_ensure_loaded by exact Hc.
  rewrite bind_get. eexists. split; reflexivity.
Qed.

End Snapshots.

Lemma delete_document_rebuilds_without_next_witness :
  exists w' pos,
    @delete_document ref_backend "u" "doc_0" example_world = (w', Ret true) /\
    list_index "doc_0" (dict_keys (documents (self example_world))) = Some pos /\
    documents (self w') = dict_del "doc_0" (documents (self example_world)) /\
    metadata (self w') = dict_del "doc_0" (metadata (self example_world)) /\
    index (self w')
    = rebuilt_index (index_type (self example_world))
        (map ref_encode (remaining pos (dict_values (documents (self w'))))).
Proof.
  apply (@delete_document_rebuilds_without_next ref_backend example_world
           "u" "doc_0").
  - exact example_world_loaded.
  - reflexivity.
  - reflexivity.
  - reflexivity.
Defined.

Lemma delete_last_document_keeps_aligned_witness :
  exists w',
    @delete_document ref_backend "u" "doc_2" example_world = (w', Ret true) /\
    @aligned ref_backend (self w') /\
    ntotal (index (self w')) = length (documents (self w')).
Proof.
  apply (@delete_last_document_keeps_aligned ref_backend example_world
           "u" "doc_2").
  - exact example_world_loaded.
  - reflexivity.
  - discriminate.
  - reflexivity.
  - reflexivity.
Defined.

Lemma update_document_appends_new_vector_witness :
  exists w' pos,
    @update_document ref_backend "u" "doc_0" "dddd" None example_world
    = (w', Ret true) /\
    list_index "doc_0" (dict_keys (documents (self example_world))) = Some pos /\
    dict_keys (documents (self w')) = dict_keys (documents (self example_world)) /\
    dict_get "doc_0" (documents (self w')) = Some "dddd" /\
    index_vectors (index (self w'))
    = map ref_encode (remaining pos (dict_values (documents (self example_world))))
        ++ [ref_encode "dddd"] /\
    ntotal (index (self w')) = length (documents (self w')) /\
    (S pos = length (documents (self example_world)) ->
     @aligned ref_backend (self w')).
Proof.
  apply (@update_document_appends_new_vector ref_backend example_world
           "u" "doc_0" "dddd" None).
  - exact example_world_loaded.
  - reflexivity.
  - discriminate.
  - reflexivity.
Defined.

Lemma save_then_load_restores_store_witness :
  exists d,
    save_database example_world
    = ({| self := self example_world; disk := d |}, Ret tt) /\
    load_database "u" {| self := new_rag_system hnsw; disk := d |}
    = ({| self := self example_world; disk := d |}, Ret true).
Proof.
  apply (save_then_load_restores_store example_world "u" (new_rag_system hnsw)).
  - reflexivity.
  - reflexivity.
  - reflexivity.
Defined.

Lemma ensure_creates_empty_database_witness :
  exists w',
    _ensure_user_database "v" saved_example_world = (w', Ret tt) /\
    loaded w' "v" /\
    documents (self w') = [] /\ metadata (self w') = [] /\
    doc_counter (self w') = 0%nat /\
    index (self w') = _create_index (index_type (self saved_example_world)) /\
    index_type (self w') = index_type (self saved_example_world) /\
    db_path (self w') = Some (user_db_path "v") /\
    files (disk w') = files (disk saved_example_world) /\
    write_log (disk w') = write_log (disk saved_example_world) /\
    _get_user_directory "v" ∈ dirs (disk w').
Proof.
  apply (ensure_creates_empty_database saved_example_world "v").
  - discriminate.
  - apply lookup_insert_None. split; [apply lookup_empty | discriminate].
  - reflexivity.
Defined.

Lemma switch_user_and_back_restores_store_witness :
  exists w1 w2,
    _ensure_user_database "v" saved_example_world = (w1, Ret tt) /\
    current_user_id (self w1) = Some "v" /\
    _ensure_user_database "u" w1 = (w2, Ret tt) /\
    self w2 = self saved_example_world /\
    files (disk w2) = files (disk saved_example_world) /\
    write_log (disk w2) = write_log (disk saved_example_world).
Proof.
  apply (switch_user_and_back_restores_store saved_example_world "u" "v").
  - reflexivity.
  - reflexivity.
  - apply lookup_insert_eq.
  - reflexivity.
  - discriminate.
Defined.

Lemma failed_creation_empties_current_store_witness :
  exists w',
    _ensure_user_database "v" locked_example_world = (w', Raise OSError) /\
    current_user_id (self w') = Some "u" /\
    documents (self w') = [] /\
    disk w' = disk locked_example_world /\
    exists stats,
      snd (get_stats "u" w') = Ret stats /\ num_documents stats = 0%nat.
Proof.
  apply (failed_creation_empties_current_store locked_example_world "u" "v").
  - reflexivity.
  - discriminate.
  - apply lookup_insert_None. split; [apply lookup_empty | discriminate].
  - intros Hin. cbn [locked_example_world disk dirs] in Hin.
    apply elem_of_singleton in Hin. discriminate Hin.
  - reflexivity.
Defined.

(** ** What the operations do to the dictionaries, whatever the index *)

Section OnReturn.
Context {A : Type}.
Variable Q : World -> A -> Prop.

Lemma on_return_ret (a : A) : (forall w, Q w a) -> on_return Q (ret a).
Proof. intros HQ w w' a' [= <- <-]. apply HQ. Qed.

Lemma on_return_raise (e : exn) : on_return Q (raise e).
Proof. intros w w' a E. discriminate E. Qed.

Lemma on_return_bind {B} (c : M World B) (k : B -> M World A) :
  (forall b, on_return Q (k b)) -> on_return Q (bind c k).
Proof.
  intros Hk w w' a. unfold bind. destruct (c w) as [w1 [b|e]]; [|discriminate].
  apply Hk.
Qed.

Lemma on_return_get_bind (k : World -> M World A) :
  (forall w0 w' a, k w0 w0 = (w', Ret a) -> Q w' a) -> on_return Q (bind get k).
Proof. intros Hk w w' a. apply Hk. Qed.

Lemma on_return_assoc {B C} (m : M World B) (f : B -> M World C)
    (g : C -> M World A) :
  on_return Q (bind m (fun x => bind (f x) g)) ->
  on_return Q (bind (bind m f) g).
Proof.
  intros Hq w w' a E. apply (Hq w w' a). revert E. unfold bind.
  destruct (m w) as [w1 [b|e]]; [|discriminate]. exact (fun E => E).
Qed.

Lemma on_return_ret_bind {B} (b : B) (k : B -> M World A) :
  on_return Q (k b) -> on_return Q (bind (ret b) k).
Proof. intros Hq w w' a E. exact (Hq w w' a E). Qed.

Lemma on_return_save_then (a : A) :
  (forall w, persisted w -> Q w a) -> on_return Q (save_database ;; ret a).
Proof.
  intros HQ w w' a'. unfold bind at 1.
  destruct (save_database w) as [w1 [[]|e]] eqn:Es; [|discriminate].
  intros [= <- <-]. apply HQ. exact (proj2 (save_database_persists w w1 Es)).
Qed.

End OnReturn.

Section IndexFrame.
Context `{Backend}.
Variable s0 : RAGSystem.

Lemma same_but_index_with_index (w : World) (ix : Index) (d : Disk) :
  same_but_index s0 w ->
  same_but_index s0 {| self := with_index ix (self w); disk := d |}.
Proof. intros [ix0 E]. exists ix. cbn. rewrite E. reflexivity. Qed.

Lemma frame_set_index (ix : Index) :
  preserves (same_but_index s0) (set_index ix).
Proof.
  apply preserves_set_self. intros w Hw.
  apply same_but_index_with_index. exact Hw.
Qed.

Lemma frame_save_database : preserves (same_but_index s0) save_database.
Proof.
  intros w [ix E]. destruct (save_database_outcome w) as (d & r & ->).
  exists ix. exact E.
Qed.

Lemma frame_rebuild (pos : nat) :
  preserves (same_but_index s0) (_rebuild_index_without_document pos).
Proof.
  intros w Hw. destruct (rebuild_frame w pos) as [ix ->].
  apply same_but_index_with_index. exact Hw.
Qed.

Lemma frame_retrain : preserves (same_but_index s0) _retrain_ivf_index.
Proof.
  unfold _retrain_ivf_index. apply preserves_get_bind. intros w0 Hw0.
  destruct (documents (self w0)); [exact Hw0|].
  refine ((_ : preserves (same_but_index s0) _) w0 Hw0).
  apply preserves_bind.
  { apply preserves_set_self. intros w Hw.
    apply same_but_index_with_index. exact Hw. }
  intros _. apply preserves_get_bind. intros w1 Hw1.
  refine ((_ : preserves (same_but_index s0) _) w1 Hw1).
  apply preserves_bind; [apply preserves_lift|].
  intros ix. apply preserves_bind; [apply frame_set_index|].
  intros _. apply preserves_bind; [apply preserves_lift|].
  intros ix'. apply frame_set_index.
Qed.

End IndexFrame.

Section DictionaryFrames.
Context `{Backend}.

Lemma same_but_index_refl (w : World) : same_but_index (self w) w.
Proof. exists (index (self w)). destruct (self w); reflexivity. Qed.

Lemma add_document_frame (w : World) (uid text : string) (meta : option Meta) :
  current_user_id (self w) = Some uid ->
  same_but_index (after_add (self w) text meta)
    (fst (add_document uid text meta w)).
Proof.
  intros Hc. unfold add_document.
  rewrite bind_ensure_loaded by exact Hc.
  rewrite bind_get. cbv zeta. rewrite !bind_set_self, bind_get.
  match goal with
  | |- same_but_index ?s (fst (?c ?w1)) =>
      refine ((_ : preserves (same_but_index s) c) w1 _);
        [|apply (same_but_index_refl w1)]
  end.
  cbn [self]. apply preserves_bind.
  - destruct (is_ivf_untrained _).
    + destruct (100 <=? _)%nat; [|apply preserves_ret].
      apply preserves_bind; [apply preserves_lift|]. intros ix.
      apply preserves_bind; [apply frame_set_index|]. intros _.
      apply preserves_bind; [apply preserves_lift|]. intros ix'.
      apply preserves_bind; [apply frame_set_index|]. intros _.
      apply preserves_ret.
    + apply preserves_bind; [apply preserves_lift|]. intros ix.
      apply preserves_bind; [apply frame_set_index|]. intros _.
      apply preserves_ret.
  - intros [|]; [apply preserves_ret|].
    apply preserves_bind; [apply frame_save_database|]. intros _.
    apply preserves_ret.
Qed.

Lemma update_document_frame (w : World) (uid doc_id text : string)
    (meta : option Meta) :
  current_user_id (self w) = Some uid ->
  dict_mem doc_id (documents (self w)) = true ->
  same_but_index (after_update (self w) doc_id text meta)
    (fst (update_document uid doc_id text meta w)).
Proof.
  intros Hc Hm. unfold update_document.
  rewrite bind_ensure_loaded by exact Hc.
  rewrite bind_get, Hm. cbn [negb]. cbv zeta.
  destruct (list_index_Some doc_id (dict_keys (documents (self w))))
    as (pos & -> & _); [apply dict_mem_In; exact Hm|].
  unfold bind at 1. destruct (rebuild_frame w pos) as [ix ->].
  rewrite bind_set_self. cbn [self disk].
  assert (Hstep : forall (w1 : World) (c : M World bool),
             same_but_index (after_update (self w) doc_id text meta) w1 ->
             preserves (same_but_index (after_update (self w) doc_id text meta)) c ->
             same_but_index (after_update (self w) doc_id text meta) (fst (c w1))).
  { intros w1 c Hw1 Hc1. exact (Hc1 w1 Hw1). }
  assert (Htail : preserves
            (same_but_index (after_update (self w) doc_id text meta))
            (w2 <- get ;;
             (if is_ivf_untrained (self w2) then
                if (100 <=? length (documents (self w2)))%nat
                then _retrain_ivf_index else ret tt
              else
                ix <- lift (index_add (index (self w2)) [encode text]) ;;
                set_index ix) ;;
             save_database ;; ret true)).
  { apply preserves_get_bind. intros w2 Hw2.
    refine ((_ : preserves _ _) w2 Hw2).
    apply preserves_bind.
    - destruct (is_ivf_untrained _).
      + destruct (100 <=? _)%nat; [apply frame_retrain | apply preserves_ret].
      + apply preserves_bind; [apply preserves_lift|]. intros ix'.
        apply frame_set_index.
    - intros _. apply preserves_bind; [apply frame_save_database|].
      intros _. apply preserves_ret. }
  destruct meta as [m|].
  - rewrite bind_set_self. apply Hstep; [|exact Htail].
    exists ix. destruct (self w); reflexivity.
  - unfold bind at 1, ret at 1. apply Hstep; [|exact Htail].
    exists ix. destruct (self w); reflexivity.
Qed.

Lemma delete_document_frame (w : World) (uid doc_id : string) :
  current_user_id (self w) = Some uid ->
  dict_mem doc_id (documents (self w)) = true ->
  dict_mem doc_id (metadata (self w)) = true ->
  same_but_index (after_delete (self w) doc_id)
    (fst (delete_document uid doc_id w)).
Proof.
  intros Hc Hm Hmm. unfold delete_document.
  rewrite bind_ensure_loaded by exact Hc.
  rewrite bind_get, Hm. cbn [negb]. cbv zeta.
  destruct (list_index_Some doc_id (dict_keys (documents (self w))))
    as (pos & -> & _); [apply dict_mem_In; exact Hm|].
  rewrite bind_set_self, bind_get. cbn [self metadata with_documents].
  rewrite Hmm. rewrite bind_set_self. cbn [self disk].
  match goal with
  | |- same_but_index ?s (fst (?c ?w1)) =>
      refine ((_ : preserves (same_but_index s) c) w1 _)
  end.
  - apply preserves_bind; [apply frame_rebuild|]. intros _.
    apply preserves_bind; [apply frame_save_database|]. intros _.
    apply preserves_ret.
  - exists (index (self w)). destruct (self w); reflexivity.
Qed.

End DictionaryFrames.

(** ** Identifiers are never reused and the two dictionaries stay in step *)

Lemma NoDup_snoc {A} (l : list A) (a : A) :
  List.NoDup l -> ~ In a l -> List.NoDup (l ++ [a]).
Proof.
  induction l as [|x l IH]; cbn; intros Hnd Hin.
  - constructor; [intros [] | constructor].
  - apply List.NoDup_cons_iff in Hnd as [Hx Hnd].
    constructor.
    + rewrite in_app_iff. cbn. intros [Hx'|[E|[]]]; [exact (Hx Hx')|].
      apply Hin. left. symmetry. exact E.
    + apply IH; [exact Hnd | intros Ha; apply Hin; right; exact Ha].
Qed.

Lemma dict_mem_same_keys {V W} (k : string) (d : dict V) (d' : dict W) :
  dict_keys d = dict_keys d' -> dict_mem k d = dict_mem k d'.
Proof.
  intros E. destruct (dict_mem k d') eqn:E'.
  - apply dict_mem_In. rewrite E. apply dict_mem_In. exact E'.
  - apply dict_mem_false. rewrite E. apply dict_mem_false. exact E'.
Qed.

Lemma dict_del_same_keys {V W} (k : string) (d : dict V) (d' : dict W) :
  dict_keys d = dict_keys d' ->
  dict_keys (dict_del k d) = dict_keys (dict_del k d').
Proof.
  revert d'. induction d as [|[k1 v1] d IH]; intros [|[k2 v2] d'] E;
    try discriminate E; [reflexivity|].
  cbn in E. injection E as -> E. cbn.
  destruct (String.eqb k k2); [exact E|]. cbn. f_equal. exact (IH d' E).
Qed.

Lemma dict_del_NoDup {V} (k : string) (d : dict V) :
  List.NoDup (dict_keys d) -> List.NoDup (dict_keys (dict_del k d)).
Proof.
  induction d as [|[k' v'] d IH]; cbn; intros Hnd; [exact Hnd|].
  apply List.NoDup_cons_iff in Hnd as [Hk' Hnd].
  destruct (String.eqb k k'); [exact Hnd|]. cbn. constructor.
  - intros Hin. apply Hk'. exact (dict_del_keys_incl _ _ _ Hin).
  - exact (IH Hnd).
Qed.

Lemma dict_keys_app {V} (d d' : dict V) :
  dict_keys (d ++ d') = dict_keys d ++ dict_keys d'.
Proof. apply map_app. Qed.

Section Consistency.
Context `{Backend}.

Lemma consistent_db_same_but_index (s : RAGSystem) (w : World) :
  same_but_index s w -> consistent_db s -> consistent_db (self w).
Proof. intros [ix ->]. destruct s. exact (fun Hs => Hs). Qed.

Lemma counter_id_is_new (s : RAGSystem) :
  consistent_db s ->
  ~ In (doc_id_of (doc_counter s)) (dict_keys (documents s)).
Proof.
  intros (_ & _ & Hb) Hin. destruct (Hb _ Hin) as (n & Hn & E).
  apply doc_id_of_inj in E. lia.
Qed.

Lemma after_add_appends (s : RAGSystem) (text : string) (meta : option Meta) :
  consistent_db s ->
  documents (after_add s text meta)
  = documents s ++ [(doc_id_of (doc_counter s), text)] /\
  metadata (after_add s text meta)
  = metadata s ++ [(doc_id_of (doc_counter s), meta_or_empty meta)] /\
  doc_counter (after_add s text meta) = S (doc_counter s).
Proof.
  intros Hs. pose proof (counter_id_is_new s Hs) as Hnew.
  destruct Hs as (_ & Hk & _). unfold after_add. cbn.
  rewrite !dict_set_fresh.
  - repeat split. lia.
  - apply dict_mem_false. rewrite Hk. exact Hnew.
  - apply dict_mem_false. exact Hnew.
Qed.

Lemma consistent_after_add (s : RAGSystem) (text : string) (meta : option Meta) :
  consistent_db s -> consistent_db (after_add s text meta).
Proof.
  intros Hs. destruct (after_add_appends s text meta Hs) as (Ed & Em & Ec).
  pose proof (counter_id_is_new s Hs) as Hnew.
  destruct Hs as (Hnd & Hk & Hb). unfold consistent_db.
  rewrite Ed, Em, Ec, !dict_keys_app, Hk. cbn. repeat split.
  - apply NoDup_snoc; assumption.
  - intros k Hin. apply in_app_iff in Hin as [Hin|[<-|[]]].
    + destruct (Hb k Hin) as (n & Hn & E). exists n. split; [lia | exact E].
    + exists (doc_counter s). split; [lia | reflexivity].
Qed.

Lemma consistent_after_update (s : RAGSystem) (doc_id text : string)
    (meta : option Meta) :
  dict_mem doc_id (documents s) = true ->
  consistent_db s -> consistent_db (after_update s doc_id text meta).
Proof.
  intros Hm (Hnd & Hk & Hb).
  assert (Hmm : dict_mem doc_id (metadata s) = true).
  { rewrite (dict_mem_same_keys doc_id _ _ Hk). exact Hm. }
  unfold consistent_db, after_update.
  destruct meta as [m|];
    cbn [documents metadata doc_counter with_metadata with_documents];
    rewrite ?(dict_set_keys_present _ _ _ Hm), ?(dict_set_keys_present _ _ _ Hmm);
    repeat split; assumption.
Qed.

Lemma consistent_after_delete (s : RAGSystem) (doc_id : string) :
  consistent_db s -> consistent_db (after_delete s doc_id).
Proof.
  intros (Hnd & Hk & Hb). unfold consistent_db, after_delete. cbn.
  repeat split.
  - apply dict_del_NoDup. exact Hnd.
  - apply dict_del_same_keys. exact Hk.
  - intros k Hin. apply Hb. exact (dict_del_keys_incl _ _ _ Hin).
Qed.

Lemma same_but_index_user (s : RAGSystem) (w : World) :
  same_but_index s w -> current_user_id (self w) = current_user_id s.
Proof. intros [ix ->]. reflexivity. Qed.

Lemma update_document_absent_state (w : World) (uid doc_id text : string)
    (meta : option Meta) :
  current_user_id (self w) = Some uid ->
  dict_mem doc_id (documents (self w)) = false ->
  update_document uid doc_id text meta w = (w, Ret false).
Proof.
  intros Hc Hm. unfold update_document.
  rewrite bind_ensure_loaded by exact Hc. rewrite bind_get, Hm. reflexivity.
Qed.

Lemma delete_document_absent_state (w : World) (uid doc_id : string) :
  current_user_id (self w) = Some uid ->
  dict_mem doc_id (documents (self w)) = false ->
  delete_document uid doc_id w = (w, Ret false).
Proof.
  intros Hc Hm. unfold delete_document.
  rewrite bind_ensure_loaded by exact Hc. rewrite bind_get, Hm. reflexivity.
Qed.

Lemma get_stats_state (w : World) (uid : string) :
  current_user_id (self w) = Some uid -> fst (get_stats uid w) = w.
Proof.
  intros Hc. unfold get_stats. rewrite bind_ensure_loaded by exact Hc.
  reflexivity.
Qed.

Lemma run_op_keeps_consistent (uid : string) (o : StoreOp) (w : World) :
  current_user_id (self w) = Some uid ->
  consistent_db (self w) ->
  current_user_id (self (run_op uid o w)) = Some uid /\
  consistent_db (self (run_op uid o w)).
Proof.
  intros Hc Hs. destruct o as [text meta|doc_id text meta|doc_id|query top_k|];
    cbn [run_op].
  - pose proof (add_document_frame w uid text meta Hc) as Hf. split.
    + rewrite (same_but_index_user _ _ Hf). exact Hc.
    + apply (consistent_db_same_but_index _ _ Hf).
      apply consistent_after_add. exact Hs.
  - destruct (dict_mem doc_id (documents (self w))) eqn:Hm.
    + pose proof (update_document_frame w uid doc_id text meta Hc Hm) as Hf.
      split.
      * rewrite (same_but_index_user _ _ Hf). destruct meta; exact Hc.
      * apply (consistent_db_same_but_index _ _ Hf).
        apply consistent_after_update; assumption.
    + rewrite (update_document_absent_state w uid doc_id text meta Hc Hm).
      split; assumption.
  - destruct (dict_mem doc_id (documents (self w))) eqn:Hm.
    + assert (Hmm : dict_mem doc_id (metadata (self w)) = true).
      { rewrite (dict_mem_same_keys doc_id _ _ (proj1 (proj2 Hs))). exact Hm. }
      pose proof (delete_document_frame w uid doc_id Hc Hm Hmm) as Hf. split.
      * rewrite (same_but_index_user _ _ Hf). exact Hc.
      * apply (consistent_db_same_but_index _ _ Hf).
        apply consistent_after_delete. exact Hs.
    + rewrite (delete_document_absent_state w uid doc_id Hc Hm).
      split; assumption.
  - rewrite (search_loaded w uid query top_k Hc). split; assumption.
  - rewrite (get_stats_state w uid Hc). split; assumption.
Qed.

(** X16.  Any sequence of additions, updates, deletions, searches and statistics
    calls of one user, whichever of them raise and whatever the index
    variant, leaves the keys of [documents] without repetition, the keys of
    [metadata] equal to them in the same order, and every key an identifier
    made from a number below the counter. *)
Theorem operations_keep_dictionaries_in_step
    (uid : string) (ops : list StoreOp) (w : World) :
  current_user_id (self w) = Some uid ->
  consistent_db (self w) ->
  current_user_id (self (run_ops uid ops w)) = Some uid /\
  consistent_db (self (run_ops uid ops w)).
Proof.
  revert w. unfold run_ops.
  induction ops as [|o ops IH]; intros w Hc Hs; cbn [fold_left].
  - split; assumption.
  - destruct (run_op_keeps_consistent uid o w Hc Hs) as [Hc' Hs'].
    exact (IH _ Hc' Hs').
Qed.

(** X6.  [add_document] on a database whose dictionaries are in step: whatever
    the index variant and whether or not it raises, the new text and its
    metadata are the last entries under an identifier no document has, the
    counter moves by one, and a returned value is that identifier. *)
Theorem add_document_issues_unused_id
    (w : World) (uid text : string) (meta : option Meta) :
  current_user_id (self w) = Some uid ->
  consistent_db (self w) ->
  let doc_id := doc_id_of (doc_counter (self w)) in
  let out := add_document uid text meta w in
  ~ In doc_id (dict_keys (documents (self w))) /\
  documents (self (fst out)) = documents (self w) ++ [(doc_id, text)] /\
  metadata (self (fst out))
  = metadata (self w) ++ [(doc_id, meta_or_empty meta)] /\
  doc_counter (self (fst out)) = S (doc_counter (self w)) /\
  (forall a, snd out = Ret a -> a = doc_id).
Proof.
  intros Hc Hs. cbv zeta.
  split; [exact (counter_id_is_new _ Hs)|].
  destruct (add_document_frame w uid text meta Hc) as [ix Ef].
  destruct (after_add_appends (self w) text meta Hs) as (Ed & Em & En).
  rewrite Ef. cbn [documents metadata doc_counter with_index].
  split; [exact Ed|]. split; [exact Em|]. split; [exact En|].
  unfold add_document. rewrite bind_ensure_loaded by exact Hc.
  rewrite bind_get. cbv zeta. rewrite !bind_set_self, bind_get.
  match goal with
  | |- forall a, snd (?c ?w1) = Ret a -> _ =>
      assert (Hr : on_return
                     (fun _ a => a = doc_id_of (doc_counter (self w))) c)
  end.
  { apply on_return_bind. intros [|]; [apply on_return_ret; reflexivity|].
    apply on_return_bind. intros _. apply on_return_ret; reflexivity. }
  intros a Ha.
  match type of Ha with
  | snd (?c ?w1) = _ => destruct (c w1) as [w' r] eqn:Erun
  end.
  cbn in Ha. subst r. exact (Hr _ _ _ Erun).
Qed.

End Consistency.

(** ** When the snapshot on disk is the store in memory *)

Section SnapshotCurrent.
Context `{Backend}.
#[local] Arguments Nat.leb : simpl never.

Lemma is_ivf_untrained_true (s : RAGSystem) :
  is_ivf_untrained s = true ->
  index_type s = ivf /\ is_trained (index s) = false.
Proof.
  unfold is_ivf_untrained. intros E. apply andb_prop in E as [Et Eu].
  split; [destruct (index_type s); (reflexivity || discriminate Et)|].
  destruct (is_trained (index s)); [discriminate Eu | reflexivity].
Qed.

Lemma update_document_saved :
  forall uid doc_id text meta,
    on_return (fun w' ok => ok = true -> persisted w')
      (update_document uid doc_id text meta).
Proof.
  intros uid doc_id text meta. unfold update_document.
  apply on_return_bind. intros _. apply on_return_bind. intros w0.
  destruct (negb _); [apply on_return_ret; discriminate|]. cbv zeta.
  destruct (list_index _ _); [|apply on_return_raise].
  do 5 (apply on_return_bind; intros ?).
  apply on_return_save_then. intros w Hw _. exact Hw.
Qed.

Lemma delete_document_saved :
  forall uid doc_id,
    on_return (fun w' ok => ok = true -> persisted w')
      (delete_document uid doc_id).
Proof.
  intros uid doc_id. unfold delete_document.
  apply on_return_bind. intros _. apply on_return_bind. intros w0.
  destruct (negb _); [apply on_return_ret; discriminate|]. cbv zeta.
  destruct (list_index _ _); [|apply on_return_raise].
  do 4 (apply on_return_bind; intros ?).
  apply on_return_save_then. intros w Hw _. exact Hw.
Qed.

(** X15.  An update or a deletion that answers [True], on any index variant and
    from any state, has left on disk, at the path of the database, exactly
    the store that is in memory. *)
Theorem successful_change_is_on_disk
    (w w' : World) (uid doc_id text : string) (meta : option Meta) :
  update_document uid doc_id text meta w = (w', Ret true) \/
  delete_document uid doc_id w = (w', Ret true) ->
  persisted w'.
Proof.
  intros [Hrun|Hrun].
  - exact (update_document_saved uid doc_id text meta w w' true Hrun eq_refl).
  - exact (delete_document_saved uid doc_id w w' true Hrun eq_refl).
Qed.

(** X9.  Whenever [add_document] returns, either the snapshot on disk is the
    store in memory, or the store is a clustered one, still untrained, with
    fewer than 100 documents. *)
Theorem added_document_is_on_disk_unless_untrained
    (w w' : World) (uid text doc_id : string) (meta : option Meta) :
  add_document uid text meta w = (w', Ret doc_id) ->
  persisted w' \/
  (index_type (self w') = ivf /\ is_trained (index (self w')) = false /\
   (length (documents (self w')) < 100)%nat).
Proof.
  pose (Q := fun (w' : World) (_ : string) =>
               persisted w' \/
               (index_type (self w') = ivf /\
                is_trained (index (self w')) = false /\
                (length (documents (self w')) < 100)%nat)).
  revert w w' doc_id. change (on_return Q (add_document uid text meta)).
  assert (Hsave : forall a : string, on_return Q (save_database ;; ret a)).
  { intros a. apply on_return_save_then. intros w Hw. left. exact Hw. }
  unfold add_document. apply on_return_bind. intros _.
  apply on_return_bind. intros w0. cbv zeta.
  do 3 (apply on_return_bind; intros _).
  apply on_return_get_bind. intros w1 w' a.
  destruct (is_ivf_untrained (self w1)) eqn:Eu.
  - destruct (100 <=? length (documents (self w1)))%nat eqn:E100.
    + match goal with
      | |- ?c w1 = _ -> _ =>
          intros Hrun; refine ((_ : on_return Q c) w1 w' a Hrun)
      end.
      apply on_return_assoc, on_return_bind. intros ix.
      apply on_return_assoc, on_return_bind. intros _.
      apply on_return_assoc, on_return_bind. intros ix'.
      apply on_return_assoc, on_return_bind. intros _.
      apply on_return_ret_bind. apply Hsave.
    + intros [= <- _]. right. apply is_ivf_untrained_true in Eu as [Et Etr].
      apply Nat.leb_gt in E100. repeat split; assumption.
  - match goal with
    | |- ?c w1 = _ -> _ =>
        intros Hrun; refine ((_ : on_return Q c) w1 w' a Hrun)
    end.
    apply on_return_assoc, on_return_bind. intros ix.
    apply on_return_assoc, on_return_bind. intros _.
    apply on_return_ret_bind. apply Hsave.
Qed.

End SnapshotCurrent.

Lemma example_world_consistent : consistent_db (self example_world).
Proof.
  repeat split.
  - repeat constructor; simpl; intuition discriminate.
  - intros k [<-|[<-|[<-|[]]]];
      [exists 0%nat | exists 1%nat | exists 2%nat]; split;
      (reflexivity || (cbn; lia)).
Defined.

Lemma operations_keep_dictionaries_in_step_witness :
  current_user_id
    (self (@run_ops ref_backend "u"
             [op_add "dddd" None; op_delete "doc_1";
              op_update "doc_9" "e" None; op_search "a" 2; op_stats]
             example_world)) = Some "u" /\
  consistent_db
    (self (@run_ops ref_backend "u"
             [op_add "dddd" None; op_delete "doc_1";
              op_update "doc_9" "e" None; op_search "a" 2; op_stats]
             example_world)).
Proof.
  apply (@operations_keep_dictionaries_in_step ref_backend "u" _ example_world).
  - reflexivity.
  - exact example_world_consistent.
Defined.

Lemma add_document_issues_unused_id_witness :
  let doc_id := doc_id_of (doc_counter (self example_world)) in
  let out := @add_document ref_backend "u" "dddd" None example_world in
  ~ In doc_id (dict_keys (documents (self example_world))) /\
  documents (self (fst out))
  = documents (self example_world) ++ [(doc_id, "dddd")] /\
  metadata (self (fst out))
  = metadata (self example_world) ++ [(doc_id, meta_or_empty None)] /\
  doc_counter (self (fst out)) = S (doc_counter (self example_world)) /\
  (forall a, snd out = Ret a -> a = doc_id).
Proof.
  apply (@add_document_issues_unused_id ref_backend example_world
           "u" "dddd" None).
  - reflexivity.
  - exact example_world_consistent.
Defined.

Lemma successful_change_is_on_disk_witness :
  persisted
    (fst (@update_document ref_backend "u" "doc_0" "dddd" None example_world)).
Proof.
  apply (@successful_change_is_on_disk ref_backend example_world _
           "u" "doc_0" "dddd" None).
  left. vm_compute. reflexivity.
Defined.

Lemma added_document_is_on_disk_unless_untrained_witness :
  let w' := fst (@add_document ref_backend "u" "dddd" None example_world) in
  persisted w' \/
  (index_type (self w') = ivf /\ is_trained (index (self w')) = false /\
   (length (documents (self w')) < 100)%nat).
Proof.
  apply (@added_document_is_on_disk_unless_untrained ref_backend example_world
           _ "u" "dddd" "doc_3" None).
  vm_compute. reflexivity.
Defined.

(** ** What a search answers *)

Lemma dict_get_nth_key {V} (d : dict V) (i : nat) (dv : V) :
  List.NoDup (dict_keys d) -> (i < length d)%nat ->
  dict_get (nth i (dict_keys d) "") d = Some (nth i (dict_values d) dv).
Proof.
  revert i. induction d as [|[k v] d IH]; intros i Hnd Hi; cbn in Hi; [lia|].
  cbn in Hnd. apply List.NoDup_cons_iff in Hnd as [Hk Hnd].
  destruct i as [|i]; cbn.
  - rewrite String.eqb_refl. reflexivity.
  - destruct (String.eqb_spec (nth i (map fst d) "") k) as [E|_].
    + exfalso. apply Hk. rewrite <- E. apply nth_In.
      rewrite length_map. lia.
    + apply IH; [exact Hnd | lia].
Qed.

Lemma py_slice_to_incl {A} (k : Z) (l : list A) (x : A) :
  In x (py_slice_to k l) -> In x l.
Proof.
  unfold py_slice_to. intros Hin.
  rewrite <- (firstn_skipn (py_bound (length l) k) l).
  apply in_app_iff. left. exact Hin.
Qed.

Lemma py_slice_to_length {A} (k : Z) (l : list A) :
  length (py_slice_to k l) = py_bound (length l) k.
Proof.
  unfold py_slice_to. rewrite length_firstn. apply Nat.min_l.
  unfold py_bound. destruct (k <? 0)%Z eqn:E; [apply Z.ltb_lt in E|]; lia.
Qed.

Section SearchAnswers.
Context `{Backend}.

Lemma prepare_results_stored (s : RAGSystem) (doc_ids : list string)
    (hits : list (Z * Q)) (rs : list SearchResult) :
  prepare_results s doc_ids hits = Ret rs ->
  forall doc_id text score m,
    In (doc_id, text, score, m) rs ->
    dict_get doc_id (documents s) = Some text /\
    dict_get doc_id (metadata s) = Some m.
Proof.
  revert rs. induction hits as [|[idx sc] hits IH]; intros rs; cbn.
  - intros [= <-] ? ? ? ? [].
  - destruct ((0 <=? idx)%Z && (idx <? Z.of_nat (length doc_ids))%Z)%bool;
      [|exact (IH rs)].
    destruct (dict_get _ (documents s)) as [text0|] eqn:Ed; [|discriminate].
    destruct (dict_get _ (metadata s)) as [m0|] eqn:Em; [|discriminate].
    destruct (prepare_results s doc_ids hits) as [rs'|]; [|discriminate].
    intros [= <-] doc_id text score m [E|Hin].
    + injection E as <- <- _ <-. split; assumption.
    + exact (IH rs' eq_refl _ _ _ _ Hin).
Qed.

Lemma prepare_results_rows (s : RAGSystem) (q : Vec) (l : list nat) :
  consistent_db s ->
  Forall (fun i => (i < length (documents s))%nat) l ->
  prepare_results s (dict_keys (documents s))
    (map (fun i => (Z.of_nat i, corpus_score (documents s) q i)) l)
  = Ret (map (answer_row s q) l).
Proof.
  intros (Hnd & Hk & _) Hl.
  assert (Hlen : length (dict_keys (documents s)) = length (documents s)).
  { unfold dict_keys. apply length_map. }
  assert (Hlm : length (metadata s) = length (documents s)).
  { rewrite <- Hlen, <- Hk. unfold dict_keys. symmetry. apply length_map. }
  induction l as [|i l IH]; [reflexivity|].
  apply List.Forall_cons_iff in Hl as [Hi Hl].
  cbn [map prepare_results]. rewrite Hlen.
  replace ((0 <=? Z.of_nat i)%Z && (Z.of_nat i <? Z.of_nat (length (documents s)))%Z)%bool
    with true
    by (symmetry; apply andb_true_intro; split;
        [apply Z.leb_le | apply Z.ltb_lt]; lia).
  rewrite Nat2Z.id.
  rewrite (dict_get_nth_key (documents s) i "" Hnd Hi).
  rewrite <- Hk at 1.
  rewrite (dict_get_nth_key (metadata s) i []) by (rewrite ?Hk, ?Hlm; assumption).
  rewrite (IH Hl). reflexivity.
Qed.

Lemma ranking_in_range (docs : dict string) (q : Vec) (order : list nat) :
  is_ranking docs q order ->
  Forall (fun i => (i < length docs)%nat) order.
Proof.
  intros [Hp _]. apply List.Forall_forall. intros i Hi.
  apply (Permutation_in _ Hp), in_seq in Hi. lia.
Qed.

Lemma fallback_hits_slice (s : RAGSystem) (q : Vec) (top_k : Z) :
  argsort_contract ->
  exists order,
    is_ranking (documents s) q order /\
    fallback_hits s q top_k
    = map (fun i => (Z.of_nat i, corpus_score (documents s) q i))
          (py_slice_to top_k order).
Proof.
  intros Hargsort. unfold fallback_hits.
  set (xb := map encode (dict_values (documents s))).
  destruct (Hargsort (map (fun e => inner e q) xb)) as [Hperm Hsort].
  exists (rev (np_argsort (map (fun e => inner e q) xb))). split; [split|].
  - rewrite <- Permutation_rev. rewrite Hperm.
    unfold xb, dict_values. rewrite !length_map. reflexivity.
  - apply rev_ascending_is_descending.
    refine (StronglySorted_impl _ _ _ _ Hsort). intros i j Hij.
    unfold corpus_score. fold xb. rewrite <- !nth_similarities. exact Hij.
  - apply map_ext. intros i. unfold corpus_score. fold xb.
    rewrite nth_similarities. reflexivity.
Qed.

(** X18.  Every row of every search answer carries the text and the metadata
    stored under its identifier at the time of the search, and the search
    leaves the store and the disk as they were. *)
Theorem search_rows_carry_stored_text
    (w w' : World) (uid query : string) (top_k : Z) (rs : list SearchResult) :
  current_user_id (self w) = Some uid ->
  search uid query top_k w = (w', Ret rs) ->
  w' = w /\
  forall doc_id text score m,
    In (doc_id, text, score, m) rs ->
    dict_get doc_id (documents (self w)) = Some text /\
    dict_get doc_id (metadata (self w)) = Some m.
Proof.
  intros Hc. rewrite (search_loaded w uid query top_k Hc).
  intros [= <- Hr]. split; [reflexivity|].
  destruct (length (documents (self w)) =? 0)%nat.
  - injection Hr as <-. intros ? ? ? ? [].
  - destruct (if is_ivf_untrained (self w) then _ else _) as [hits|];
      [|discriminate].
    exact (prepare_results_stored _ _ _ _ Hr).
Qed.

(** X19.  The exhaustive scan of an untrained clustered store, for any [top_k]:
    the answer is the Python slice [[:top_k]] of a ranking of the whole
    corpus by descending score, one full row per position.  So [top_k = 0]
    answers nothing and a negative [top_k] answers all but the last
    [-top_k] of the ranking. *)
Theorem fallback_search_answers_slice_of_ranking
    (w : World) (uid query : string) (top_k : Z) :
  argsort_contract ->
  current_user_id (self w) = Some uid ->
  consistent_db (self w) ->
  is_ivf_untrained (self w) = true ->
  exists order,
    is_ranking (documents (self w)) (encode query) order /\
    search uid query top_k w
    = (w, Ret (map (answer_row (self w) (encode query))
                 (py_slice_to top_k order))) /\
    ((top_k < 0)%Z ->
     length (py_slice_to top_k order)
     = Z.to_nat (Z.max 0 (Z.of_nat (length (documents (self w))) + top_k))).
Proof.
  intros Hargsort Hc Hs Hu.
  destruct (fallback_hits_slice (self w) (encode query) top_k Hargsort)
    as (order & Hr & Hhits).
  exists order. split; [exact Hr|]. split.
  - rewrite (search_loaded w uid query top_k Hc), Hu, Hhits. f_equal.
    destruct (length (documents (self w)) =? 0)%nat eqn:E0.
    + apply Nat.eqb_eq in E0. destruct Hr as [Hp _]. rewrite E0 in Hp.
      apply Permutation_sym, Permutation_nil in Hp. rewrite Hp.
      unfold py_slice_to. rewrite firstn_nil. reflexivity.
    + apply prepare_results_rows; [exact Hs|].
      apply List.Forall_forall. intros i Hi.
      apply py_slice_to_incl in Hi.
      pose proof (ranking_in_range _ _ _ Hr) as Hall.
      rewrite List.Forall_forall in Hall. exact (Hall i Hi).
  - intros Hneg. rewrite py_slice_to_length.
    destruct Hr as [Hp _]. rewrite (Permutation_length Hp), length_seq.
    unfold py_bound. apply Z.ltb_lt in Hneg. rewrite Hneg. reflexivity.
Qed.

(** X20.  The exact index, aligned with the corpus, for [top_k >= 1]: the answer
    is the first [min top_k n] positions of a ranking of the whole corpus by
    descending score, one full row per position. *)
Theorem exact_search_answers_top_of_ranking
    (w : World) (uid query : string) (top_k : Z) :
  flat_search_contract ->
  current_user_id (self w) = Some uid ->
  consistent_db (self w) ->
  index (self w)
  = IndexFlatIP (map encode (dict_values (documents (self w)))) ->
  (1 <= top_k)%Z ->
  exists order,
    is_ranking (documents (self w)) (encode query) order /\
    search uid query top_k w
    = (w, Ret (map (answer_row (self w) (encode query))
                 (firstn (Z.to_nat top_k) order))) /\
    length (firstn (Z.to_nat top_k) order)
    = Nat.min (Z.to_nat top_k) (length (documents (self w))).
Proof.
  intros Hflat Hc Hs Hix Hk.
  rewrite (search_loaded w uid query top_k Hc).
  unfold is_ivf_untrained. rewrite Hix. cbn [is_trained negb index_search].
  rewrite Bool.andb_false_r.
  destruct (documents (self w)) as [|d0 dl] eqn:Ed.
  - exists []. split; [split; [reflexivity | constructor]|].
    rewrite firstn_nil. split; [reflexivity | cbn; lia].
  - rewrite <- Ed in *.
    assert (Hne : documents (self w) <> []) by (rewrite Ed; discriminate).
    destruct (flat_hits_ranking (documents (self w)) (encode query) top_k
                Hflat Hk Hne) as (order & Hr & Hhits).
    exists order. split; [exact Hr|]. split.
    + replace (length (documents (self w)) =? 0)%nat with false
        by (rewrite Ed; reflexivity).
      rewrite Hhits. f_equal. apply prepare_results_rows; [exact Hs|].
      apply List.Forall_forall. intros i Hi.
      pose proof (ranking_in_range _ _ _ Hr) as Hall.
      rewrite List.Forall_forall in Hall. apply Hall.
      rewrite <- (firstn_skipn (Z.to_nat top_k) order).
      apply in_app_iff. left. exact Hi.
    + rewrite length_firstn. destruct Hr as [Hp _].
      rewrite (Permutation_length Hp), length_seq. reflexivity.
Qed.

End SearchAnswers.

Lemma search_rows_carry_stored_text_witness :
  exists rs,
    snd (@search ref_backend "u" "a" 2 example_world) = Ret rs /\
    length rs = 2%nat /\
    forall doc_id text score m,
      In (doc_id, text, score, m) rs ->
      dict_get doc_id (documents (self example_world)) = Some text /\
      dict_get doc_id (metadata (self example_world)) = Some m.
Proof.
  assert (Hrun : exists rs,
             @search ref_backend "u" "a" 2 example_world
             = (example_world, Ret rs) /\ length rs = 2%nat).
  { eexists. split; vm_compute; reflexivity. }
  destruct Hrun as (rs & Hrun & Hlen). exists rs.
  split; [rewrite Hrun; reflexivity|]. split; [exact Hlen|].
  exact (proj2 (@search_rows_carry_stored_text ref_backend
                  example_world example_world "u" "a" 2 rs eq_refl Hrun)).
Defined.

Lemma fallback_search_answers_slice_of_ranking_witness :
  exists order,
    @is_ranking ref_backend (documents (self example_world_ivf))
      (ref_encode "a") order /\
    @search ref_backend "u" "a" (-1) example_world_ivf
    = (example_world_ivf,
       Ret (map (@answer_row ref_backend (self example_world_ivf) (ref_encode "a"))
              (py_slice_to (-1) order))) /\
    ((-1 < 0)%Z ->
     length (py_slice_to (-1) order)
     = Z.to_nat
         (Z.max 0 (Z.of_nat (length (documents (self example_world_ivf))) + -1))).
Proof.
  apply (@fallback_search_answers_slice_of_ranking ref_backend
           example_world_ivf "u" "a" (-1)).
  - exact ref_argsort_contract.
  - reflexivity.
  - exact example_world_consistent.
  - reflexivity.
Defined.

Lemma exact_search_answers_top_of_ranking_witness :
  exists order,
    @is_ranking ref_backend (documents (self example_world))
      (ref_encode "a") order /\
    @search ref_backend "u" "a" 2 example_world
    = (example_world,
       Ret (map (@answer_row ref_backend (self example_world) (ref_encode "a"))
              (firstn (Z.to_nat 2) order))) /\
    length (firstn (Z.to_nat 2) order)
    = Nat.min (Z.to_nat 2) (length (documents (self example_world))).
Proof.
  apply (@exact_search_answers_top_of_ranking ref_backend
           example_world "u" "a" 2).
  - exact ref_flat_search_contract.
  - reflexivity.
  - exact example_world_consistent.
  - reflexivity.
  - lia.
Defined.

(** ** The clustered index at the training threshold *)

Section Training.
Context `{Backend}.
#[local] Arguments Nat.leb : simpl never.

Lemma add_each_trained (t xb vs : list Vec) :
  add_each (IndexIVFFlat (Some t) xb) vs = Ret (IndexIVFFlat (Some t) (xb ++ vs)).
Proof.
  revert xb. induction vs as [|e vs IH]; intros xb; cbn.
  - rewrite app_nil_r. reflexivity.
  - rewrite IH, <- app_assoc. reflexivity.
Qed.

Lemma save_then_ret {A} (a : A) (w : World) (p : string) :
  db_path (self w) = Some p -> p <> "" -> read_only (disk w) = false ->
  exists d,
    (save_database ;; ret a) w = ({| self := self w; disk := d |}, Ret a) /\
    files d !! p = Some (snapshot_of (self w)).
Proof.
  intros Hp Hne Hro. unfold save_database, bind, ret, get, write_file.
  rewrite Hp. destruct p as [|c p]; [congruence|]. rewrite Hro.
  eexists. split; [reflexivity|]. cbn. apply lookup_insert_eq.
Qed.

(** X8.  The addition that brings an untrained clustered store to 100 documents
    (or finds it there already) trains the index on the embeddings of all
    documents, the new one included, fills it with them in document order,
    and writes the snapshot: from then on the index is trained and aligned
    with the documents. *)
Theorem hundredth_document_trains_clustered_index
    (w : World) (uid text : string) (meta : option Meta) :
  loaded w uid ->
  read_only (disk w) = false ->
  index_type (self w) = ivf ->
  index (self w) = IndexIVFFlat None [] ->
  dict_mem (doc_id_of (doc_counter (self w))) (documents (self w)) = false ->
  (99 <= length (documents (self w)))%nat ->
  exists w',
    add_document uid text meta w = (w', Ret (doc_id_of (doc_counter (self w)))) /\
    documents (self w')
    = documents (self w) ++ [(doc_id_of (doc_counter (self w)), text)] /\
    index (self w')
    = IndexIVFFlat (Some (map encode (dict_values (documents (self w')))))
        (map encode (dict_values (documents (self w')))) /\
    aligned (self w') /\
    is_ivf_untrained (self w') = false /\
    persisted w'.
Proof.
  intros [Hc (p & Hp & Hne)] Hro Ht Hix Hfresh Hlen.
  unfold add_document. rewrite bind_ensure_loaded by exact Hc.
  rewrite bind_get. cbv zeta. rewrite !bind_set_self, bind_get.
  cbn [self disk with_doc_counter with_documents with_metadata documents
       index index_type].
  unfold is_ivf_untrained at 1.
  cbn [self disk with_doc_counter with_documents with_metadata documents
       index index_type].
  rewrite Ht, Hix. cbn [IndexType_eqb is_trained negb andb].
  rewrite (dict_set_fresh _ text _ Hfresh).
  set (docs' := documents (self w) ++ [(doc_id_of (doc_counter (self w)), text)]).
  assert (Hlen' : (100 <= length docs')%nat).
  { unfold docs'. rewrite length_app. cbn. lia. }
  replace (100 <=? length docs')%nat with true
    by (symmetry; apply Nat.leb_le; exact Hlen').
  set (E := map encode (dict_values docs')).
  assert (HE : (nlist <=? length E)%nat = true).
  { apply Nat.leb_le. unfold E, dict_values, nlist. rewrite !length_map.
    exact Hlen'. }
  unfold bind at 1. unfold bind at 1. unfold lift at 1. cbn [index_train].
  rewrite HE. unfold bind at 1. unfold set_index at 1, set_self at 1, modify at 1.
  unfold bind at 1. unfold lift at 1. rewrite add_each_trained.
  unfold bind at 1. unfold set_index at 1, set_self at 1, modify at 1.
  unfold ret at 1. cbn [self disk app].
  match goal with
  | |- context [(save_database ;; ret ?a) ?w2] =>
      destruct (save_then_ret a w2 p) as (d & -> & Hfile);
        [exact Hp | exact Hne | exact Hro |]
  end.
  eexists. split; [reflexivity|].
  cbn [self disk documents index with_index with_metadata with_documents
       with_doc_counter].
  split; [reflexivity|]. split; [reflexivity|]. split; [reflexivity|].
  split; [unfold is_ivf_untrained; cbn; apply Bool.andb_false_r|].
  exists p. split; [exact Hp | exact Hfile].
Qed.

End Training.

Lemma bulk_world_loaded (n : nat) : loaded (bulk_world n) "u".
Proof.
  split; [reflexivity|]. eexists. split; [reflexivity | discriminate].
Defined.

Lemma hundredth_document_trains_clustered_index_witness :
  exists w',
    @add_document ref_backend "u" "bb" None (bulk_world 99)
    = (w', Ret (doc_id_of (doc_counter (self (bulk_world 99))))) /\
    documents (self w')
    = documents (self (bulk_world 99))
        ++ [(doc_id_of (doc_counter (self (bulk_world 99))), "bb")] /\
    index (self w')
    = IndexIVFFlat (Some (map ref_encode (dict_values (documents (self w')))))
        (map ref_encode (dict_values (documents (self w')))) /\
    @aligned ref_backend (self w') /\
    is_ivf_untrained (self w') = false /\
    persisted w'.
Proof.
  apply (@hundredth_document_trains_clustered_index ref_backend
           (bulk_world 99) "u" "bb" None).
  - exact (bulk_world_loaded 99).
  - reflexivity.
  - reflexivity.
  - reflexivity.
  - vm_compute. reflexivity.
  - vm_compute. lia.
Defined.

Lemma add_document_flat_keeps_aligned_witness :
  let r := @add_document ref_backend "u" "dddd" None example_world in
  snd r = Ret (doc_id_of (doc_counter (self example_world))) /\
  @aligned ref_backend (self (fst r)) /\
  exists p rest,
    write_log (disk (fst r)) = (p, snapshot_of (self (fst r))) :: rest.
Proof.
  apply (@add_document_flat_keeps_aligned ref_backend example_world
           "u" "dddd" None).
  - exact example_world_loaded.
  - reflexivity.
  - reflexivity.
  - eexists. reflexivity.
  - reflexivity.
  - reflexivity.
Defined.

Lemma deleted_doc_id_stays_hidden_witness :
  snd (@delete_document ref_backend "u" "doc_0" example_world) = Ret true /\
  forall (query : string) (top_k : Z) w'' rs,
    @search ref_backend "u" query top_k
      (@run_ops ref_backend "u"
         [op_add "dddd" None; op_update "doc_1" "a" None; op_add "a" None]
         (fst (@delete_document ref_backend "u" "doc_0" example_world)))
    = (w'', Ret rs) ->
    forall r, In r rs -> fst (fst (fst r)) <> doc_id_of 0.
Proof.
  split; [vm_compute; reflexivity|].
  apply (@deleted_doc_id_stays_hidden ref_backend "u" 0%nat example_world).
  - exact example_world_loaded.
  - reflexivity.
  - repeat constructor; simpl; intuition discriminate.
  - reflexivity.
  - reflexivity.
  - cbn. lia.
  - vm_compute. reflexivity.
Defined.

(** * Further properties of the working-memory window *)

Lemma length_flat_map_exchanges (l : list (string * string)) :
  length (flat_map exchange_turns l) = (2 * length l)%nat.
Proof. induction l as [|p l IH]; cbn; [reflexivity | rewrite IH; lia]. Qed.

Lemma skipn_flat_map_exchanges (j : nat) (l : list (string * string)) :
  skipn (2 * j) (flat_map exchange_turns l)
  = flat_map exchange_turns (skipn j l).
Proof.
  revert l. induction j as [|j IH]; intros l; [reflexivity|].
  destruct l as [|p l]; [reflexivity|].
  replace (2 * S j)%nat with (S (S (2 * j))) by lia. cbn [flat_map exchange_turns app skipn].
  apply IH.
Qed.

Lemma skipn_combine {A B} (j : nat) (l : list A) (l' : list B) :
  skipn j (combine l l') = combine (skipn j l) (skipn j l').
Proof.
  revert l l'. induction j as [|j IH]; intros l l'; [reflexivity|].
  destruct l as [|a l]; [reflexivity|].
  destruct l' as [|b l']; [cbn; destruct (skipn j l); reflexivity|].
  cbn. apply IH.
Qed.

Lemma combine_snoc {A B} (l : list A) (l' : list B) (a : A) (b : B) :
  length l = length l' ->
  combine (l ++ [a]) (l' ++ [b]) = combine l l' ++ [(a, b)].
Proof.
  revert l'. induction l as [|x l IH]; intros [|y l'] E; try discriminate E.
  - reflexivity.
  - cbn. f_equal. apply IH. injection E as E. exact E.
Qed.

Lemma message_pairs_of_mapping (b : SimpleQAChatBot) :
  history_of_mapping b ->
  message_pairs b = Z.of_nat (length (message_memory_mapping b)).
Proof.
  intros (replies & Hl & Hh). unfold message_pairs.
  rewrite Hh, length_flat_map_exchanges, length_combine, length_map, Hl.
  rewrite Nat.min_id, Nat2Z.inj_mul. cbn [Z.of_nat Pos.of_succ_nat Pos.succ].
  rewrite Z.mul_comm. apply Z.div_mul. discriminate.
Qed.

Lemma appended_history_of_mapping (b : SimpleQAChatBot) (m r : string)
    (docs : list RetrievedDoc) :
  history_of_mapping b -> history_of_mapping (appended b m r docs).
Proof.
  intros (replies & Hl & Hh). exists (replies ++ [r]). unfold appended. cbn.
  rewrite !length_app, Hl. split; [reflexivity|].
  rewrite Hh, map_app. cbn [map fst].
  rewrite combine_snoc by (rewrite length_map; symmetry; exact Hl).
  rewrite flat_map_app. reflexivity.
Qed.

(** The cut of [_manage_conversation_history] on a window whose history is
    that of its mapping: it restores a window in step, and the evicted
    messages are exactly the ones forwarded. *)
Lemma trimmed_in_step (b : SimpleQAChatBot) :
  (1 <= max_history_length b)%Z ->
  max_working_length b = (max_history_length b * 2)%Z ->
  history_of_mapping b ->
  window_in_step (trimmed b) /\
  concat (forwarded_by b) ++ map fst (message_memory_mapping (trimmed b))
  = map fst (message_memory_mapping b) /\
  (overflowing b = false -> trimmed b = b) /\
  (overflowing b = true ->
   Z.of_nat (length (message_memory_mapping (trimmed b))) = max_history_length b).
Proof.
  intros HN Hw Hh. pose proof (message_pairs_of_mapping b Hh) as Hp.
  unfold trimmed, forwarded_by, evicted_batch, overflowing.
  destruct (max_working_length b <=? message_pairs b)%Z eqn:Eo.
  - apply Z.leb_le in Eo.
    set (L := length (message_memory_mapping b)) in *.
    set (N := Z.to_nat (max_history_length b)).
    assert (HNL : (N <= L)%nat) by lia.
    assert (Ecut : py_slice_from (- max_history_length b) (message_memory_mapping b)
                   = skipn (L - N) (message_memory_mapping b)).
    { rewrite py_slice_from_last by (fold L; lia). reflexivity. }
    assert (Eev : py_slice_to (message_pairs b - max_history_length b)
                    (message_memory_mapping b)
                  = firstn (L - N) (message_memory_mapping b)).
    { rewrite py_slice_to_nonneg by lia. f_equal. lia. }
    rewrite Ecut, Eev.
    split; [|split; [|split; [discriminate|]]].
    + destruct Hh as (replies & Hl & Hh).
      assert (Hh' : history_of_mapping
                (with_mapping (skipn (L - N) (message_memory_mapping b))
                   (with_history
                      (py_slice_from (- (max_history_length b * 2))
                         (conversation_history b)) b))).
      { exists (skipn (L - N) replies). cbn.
        rewrite !length_skipn, Hl. split; [reflexivity|].
        rewrite py_slice_from_last
          by (rewrite Hh, length_flat_map_exchanges, length_combine,
                length_map, Hl, Nat.min_id; fold L; lia).
        rewrite Hh, length_flat_map_exchanges, length_combine, length_map, Hl,
          Nat.min_id. fold L.
        replace (2 * L - Z.to_nat (max_history_length b * 2))%nat
          with (2 * (L - N))%nat by lia.
        rewrite skipn_flat_map_exchanges, skipn_combine, skipn_map.
        reflexivity. }
      split; [exact HN|]. split; [exact Hw|]. split; [exact Hh'|].
      rewrite (message_pairs_of_mapping _ Hh'). cbn.
      rewrite length_skipn. fold L. lia.
    + cbn [message_memory_mapping with_mapping].
      destruct (firstn (L - N) (message_memory_mapping b)) as [|x batch] eqn:Ef.
      * cbn [concat app]. rewrite <- (firstn_skipn (L - N) (message_memory_mapping b)) at 2.
        rewrite Ef. reflexivity.
      * cbn [concat]. rewrite app_nil_r, <- map_app, <- Ef, firstn_skipn.
        reflexivity.
    + intros _. cbn [message_memory_mapping with_mapping].
      rewrite length_skipn. fold L. lia.
  - apply Z.leb_gt in Eo. split; [|split; [|split; [reflexivity|discriminate]]].
    + split; [exact HN|]. split; [exact Hw|]. split; [exact Hh | exact Eo].
    + reflexivity.
Qed.

(** The exchange that brings a window in step to its threshold evicts
    exactly [N] entries. *)
Lemma forwarded_by_size (b : SimpleQAChatBot) (m r : string)
    (docs : list RetrievedDoc) :
  window_in_step b ->
  Forall (fun batch => Z.of_nat (length batch) = max_history_length b)
    (forwarded_by (appended b m r docs)).
Proof.
  intros (HN & Hw & Hh & Hlt).
  pose proof (message_pairs_of_mapping b Hh) as Hp.
  pose proof (message_pairs_of_mapping _
                (appended_history_of_mapping b m r docs Hh)) as Hp1.
  assert (Hl1 : length (message_memory_mapping (appended b m r docs))
                = S (length (message_memory_mapping b))).
  { unfold appended. cbn. rewrite length_app. cbn. lia. }
  assert (HN1 : max_history_length (appended b m r docs) = max_history_length b)
    by reflexivity.
  assert (Hw1 : max_working_length (appended b m r docs) = max_working_length b)
    by reflexivity.
  unfold forwarded_by, evicted_batch, overflowing.
  rewrite Hp1, Hl1, HN1, Hw1.
  destruct (max_working_length b <=? _)%Z eqn:Eo; [|constructor].
  apply Z.leb_le in Eo.
  rewrite py_slice_to_nonneg by lia.
  destruct (firstn _ _) as [|x batch] eqn:Ef; constructor; [|constructor].
  rewrite length_map, <- Ef, length_firstn, Hl1. lia.
Qed.

Section WindowInStep.
Context {W : Type} `{Assistant W}.

Lemma accounted_after_exchange (s s' : Session W) (m r : string) :
  session_writable ->
  window_in_step (bot s) ->
  (exists w1,
      record_exchange m r {| bot := bot s; world := w1; events := events s |}
      = (s', Ret tt)) ->
  window_in_step (bot s') /\ accounted s' = accounted s ++ [m] /\
  max_history_length (bot s') = max_history_length (bot s) /\
  exists fbs,
    forwarded_batches (events s') = forwarded_batches (events s) ++ fbs /\
    Forall (fun batch => Z.of_nat (length batch) = max_history_length (bot s))
      fbs.
Proof.
  intros Hsave Hs (w1 & Hrec).
  pose proof Hs as (HN & Hw & Hh & _).
  destruct (record_exchange_outcome m r
              {| bot := bot s; world := w1; events := events s |} Hsave)
    as (w' & docs & evs & Hrec' & Hf & _).
  rewrite Hrec in Hrec'. injection Hrec' as ->.
  cbn [bot world events] in *.
  destruct (trimmed_in_step (appended (bot s) m r docs) HN Hw
              (appended_history_of_mapping _ m r docs Hh))
    as (Hstep & Hacc & _).
  split; [exact Hstep|]. split; [|split].
  - unfold accounted. cbn [bot events].
    rewrite forwarded_batches_app, concat_app, Hf, <- app_assoc, Hacc.
    unfold appended. cbn. rewrite map_app, app_assoc. reflexivity.
  - unfold trimmed. destruct (overflowing _); reflexivity.
  - exists (forwarded_by (appended (bot s) m r docs)). split.
    + rewrite forwarded_batches_app, Hf. reflexivity.
    + apply forwarded_by_size. exact Hs.
Qed.

(** X21.  One [chat] call, whatever it does, keeps the window in step with its
    mapping and below its threshold; when it returns, the message it was
    given is the one message more that the session accounts for. *)
Theorem chat_keeps_window_in_step (m : string) (s : Session W) :
  session_writable ->
  window_in_step (bot s) ->
  window_in_step (bot (fst (chat m s))) /\
  (pair_count (fst (chat m s)) < max_working_length (bot (fst (chat m s))))%Z /\
  (forall r, snd (chat m s) = Ret r ->
             accounted (fst (chat m s)) = accounted s ++ [m]).
Proof.
  intros Hsave Hs. destruct (chat m s) as [s' [r|e]] eqn:Ec; cbn [fst snd].
  - destruct (accounted_after_exchange s s' m r Hsave Hs
                (chat_returns m r s s' Hsave Ec)) as (Hs' & Hacc & _).
    split; [exact Hs'|]. split; [exact (proj2 (proj2 (proj2 Hs')))|].
    intros r' _. exact Hacc.
  - destruct (chat_raises_before_consolidation m s s' e Hsave Ec) as [Eb _].
    unfold pair_count. rewrite Eb.
    split; [exact Hs|]. split; [exact (proj2 (proj2 (proj2 Hs)))|].
    intros r' E. discriminate E.
Qed.

(** X22.  Over any run of [chat] calls that return, from a window in step: every
    user message is either in a batch forwarded to consolidation or still in
    the window, once, in the order sent; every batch forwarded on the way
    holds exactly [N] messages; the window ends in step. *)
Theorem every_message_is_forwarded_or_kept
    (ms rs : list string) (s s' : Session W) :
  session_writable ->
  window_in_step (bot s) ->
  chat_all ms s = (s', Ret rs) ->
  window_in_step (bot s') /\ accounted s' = accounted s ++ ms /\
  max_history_length (bot s') = max_history_length (bot s) /\
  exists fbs,
    forwarded_batches (events s') = forwarded_batches (events s) ++ fbs /\
    Forall (fun batch => Z.of_nat (length batch) = max_history_length (bot s))
      fbs.
Proof.
  intros Hsave. revert rs s. induction ms as [|m ms IH]; intros rs s Hs.
  - cbn. unfold ret. intros [= <- <-]. rewrite app_nil_r.
    split; [exact Hs|]. split; [reflexivity|]. split; [reflexivity|].
    exists []. rewrite app_nil_r. split; [reflexivity | constructor].
  - cbn [chat_all]. unfold bind at 1.
    destruct (chat m s) as [s1 [r|e]] eqn:Ec; [|discriminate].
    unfold bind at 1.
    destruct (chat_all ms s1) as [s2 [rs'|e]] eqn:Ea; [|discriminate].
    unfold ret. intros [= <- <-].
    destruct (accounted_after_exchange s s1 m r Hsave Hs
                (chat_returns m r s s1 Hsave Ec))
      as (Hs1 & Hacc1 & HN1 & fbs1 & Hf1 & Hall1).
    destruct (IH rs' s1 Hs1 Ea) as (Hs2 & Hacc2 & HN2 & fbs2 & Hf2 & Hall2).
    split; [exact Hs2|]. split; [|split].
    + rewrite Hacc2, Hacc1, <- app_assoc. reflexivity.
    + rewrite HN2. exact HN1.
    + exists (fbs1 ++ fbs2). split.
      * rewrite Hf2, Hf1, <- app_assoc. reflexivity.
      * apply List.Forall_app. split; [exact Hall1|].
        rewrite HN1 in Hall2. exact Hall2.
Qed.

(** X23.  [set_history_length n] with [n >= 1] on a window whose history is that
    of its mapping: it never raises and leaves a window in step for the new
    length, accounting for the same messages; below the new threshold
    nothing but the two lengths changes, and at or above it the newest [n]
    pairs are kept. *)
Theorem set_history_length_keeps_window_in_step (n : Z) (s : Session W) :
  (1 <= n)%Z ->
  history_of_mapping (bot s) ->
  exists s',
    set_history_length n s = (s', Ret tt) /\
    max_history_length (bot s') = n /\
    window_in_step (bot s') /\
    accounted s' = accounted s /\
    ((pair_count s < n * 2)%Z -> bot s' = with_lengths n (bot s)) /\
    ((n * 2 <= pair_count s)%Z -> pair_count s' = n).
Proof.
  intros Hn Hh. unfold set_history_length, bind at 1, set_bot, modify.
  destruct (manage_outcome
              {| bot := with_lengths n (bot s); world := world s;
                 events := events s |}) as (w' & evs & -> & Hf & _).
  cbn [bot world events] in *.
  assert (Hh' : history_of_mapping (with_lengths n (bot s))) by exact Hh.
  destruct (trimmed_in_step (with_lengths n (bot s)) Hn eq_refl Hh')
    as (Hstep & Hacc & Hsame & Hcut).
  eexists. split; [reflexivity|]. cbn [bot events].
  split; [|split; [exact Hstep|split; [|split]]].
  - unfold trimmed. destruct (overflowing _); reflexivity.
  - unfold accounted. cbn [bot events].
    rewrite forwarded_batches_app, concat_app, Hf, <- app_assoc, Hacc.
    reflexivity.
  - intros Hlt. apply Hsame. unfold overflowing. apply Z.leb_gt. exact Hlt.
  - intros Hge. unfold pair_count. cbn [bot].
    rewrite (message_pairs_of_mapping _ (proj1 (proj2 (proj2 Hstep)))).
    apply Hcut. unfold overflowing. apply Z.leb_le. exact Hge.
Qed.

End WindowInStep.

(** ** Clearing the conversation leaves the mapping behind *)

Lemma skipn_past {A} (n : nat) (l1 l2 : list A) :
  skipn (length l1 + n) (l1 ++ l2) = skipn n l2.
Proof.
  rewrite skipn_app, skipn_all2 by lia.
  replace (length l1 + n - length l1)%nat with n by lia. reflexivity.
Qed.

Lemma message_pairs_exchanges (b : SimpleQAChatBot)
    (l : list (string * string)) :
  conversation_history b = flat_map exchange_turns l ->
  message_pairs b = Z.of_nat (length l).
Proof.
  intros Hh. unfold message_pairs.
  rewrite Hh, length_flat_map_exchanges, Nat2Z.inj_mul.
  cbn [Z.of_nat Pos.of_succ_nat Pos.succ].
  rewrite Z.mul_comm. apply Z.div_mul. discriminate.
Qed.

Section ClearedConversation.
Context {W : Type} `{Assistant W}.
Variable old : list Mapping.

Lemma chat_all_behind (ms : list string) :
  session_writable ->
  forall (rs : list string) (s s' : Session W)
         (mp : list Mapping) (replies : list string),
    (1 <= max_history_length (bot s))%Z ->
    max_working_length (bot s) = (max_history_length (bot s) * 2)%Z ->
    message_memory_mapping (bot s) = old ++ mp ->
    length replies = length mp ->
    conversation_history (bot s)
    = flat_map exchange_turns (combine (map fst mp) replies) ->
    ms <> [] ->
    Z.of_nat (length mp + length ms) = max_working_length (bot s) ->
    chat_all ms s = (s', Ret rs) ->
    forwarded_batches (events s')
    = forwarded_batches (events s)
        ++ [firstn (Z.to_nat (max_history_length (bot s)))
              (map fst old ++ map fst mp ++ ms)] /\
    map fst (message_memory_mapping (bot s'))
    = skipn (Z.to_nat (max_history_length (bot s))) (map fst mp ++ ms) /\
    window_in_step (bot s').
Proof.
  intros Hsave. induction ms as [|m ms IH];
    intros rs s s' mp replies HN Hw Hmp Hl Hh Hne Hlen; [congruence|].
  cbn [chat_all]. unfold bind at 1.
  destruct (chat m s) as [s1 [r|e]] eqn:Ec; [|discriminate].
  unfold bind at 1.
  destruct (chat_all ms s1) as [s2 [rs'|e]] eqn:Ea; [|discriminate].
  unfold ret. intros [= <- <-].
  destruct (chat_returns m r s s1 Hsave Ec) as (w1 & Hrec).
  destruct (record_exchange_outcome m r
              {| bot := bot s; world := w1; events := events s |} Hsave)
    as (w' & docs & evs & Hrec' & Hf & _).
  rewrite Hrec in Hrec'. injection Hrec' as ->. cbn [bot world events] in *.
  set (b1 := appended (bot s) m r docs) in *.
  assert (Hmp1 : message_memory_mapping b1 = old ++ (mp ++ [(m, docs)])).
  { unfold b1, appended. cbn. rewrite Hmp, <- app_assoc. reflexivity. }
  assert (Hl1 : length (replies ++ [r]) = length (mp ++ [(m, docs)])).
  { rewrite !length_app, Hl. reflexivity. }
  assert (Hh1 : conversation_history b1
                = flat_map exchange_turns
                    (combine (map fst (mp ++ [(m, docs)])) (replies ++ [r]))).
  { unfold b1, appended. cbn. rewrite Hh, map_app. cbn [map fst].
    rewrite combine_snoc by (rewrite length_map; symmetry; exact Hl).
    rewrite flat_map_app. reflexivity. }
  assert (Hp1 : message_pairs b1 = Z.of_nat (S (length mp))).
  { rewrite (message_pairs_exchanges b1 _ Hh1), length_combine, length_map,
      Hl1, Nat.min_id, length_app. cbn [length]. f_equal. lia. }
  assert (HN1 : max_history_length b1 = max_history_length (bot s))
    by reflexivity.
  assert (Hw1 : max_working_length b1 = max_working_length (bot s))
    by reflexivity.
  destruct ms as [|m2 ms].
  - (* the exchange that reaches the threshold *)
    cbn in Ea. injection Ea as <- <-. cbn [bot events length] in *.
    set (N := Z.to_nat (max_history_length (bot s))) in *.
    assert (HlN : length (mp ++ [(m, docs)]) = (2 * N)%nat).
    { rewrite length_app. cbn [length]. lia. }
    assert (Eo : overflowing b1 = true).
    { unfold overflowing. apply Z.leb_le. rewrite Hp1, Hw1. lia. }
    assert (Eev : evicted_batch b1
                  = firstn N (old ++ (mp ++ [(m, docs)]))).
    { unfold evicted_batch. rewrite Hp1, HN1, Hmp1.
      rewrite py_slice_to_nonneg by lia. f_equal. lia. }
    split; [|split].
    + rewrite forwarded_batches_app, Hf. f_equal.
      unfold forwarded_by. rewrite Eo, Eev.
      destruct (firstn N (old ++ mp ++ [(m, docs)])) as [|x batch] eqn:Ef.
      * exfalso. apply (f_equal (@length _)) in Ef.
        rewrite length_firstn, length_app, HlN in Ef. cbn in Ef. lia.
      * rewrite <- Ef, <- firstn_map, !map_app. reflexivity.
    + unfold trimmed. rewrite Eo. cbn [message_memory_mapping with_mapping].
      change (message_memory_mapping (with_history _ b1))
        with (message_memory_mapping b1).
      rewrite HN1, Hmp1.
      rewrite py_slice_from_last by (rewrite length_app, HlN; lia).
      rewrite length_app, HlN.
      replace (length old + 2 * N - Z.to_nat (max_history_length (bot s)))%nat
        with (length old + N)%nat by lia.
      rewrite skipn_past, <- skipn_map, map_app. reflexivity.
    + assert (Hstep : window_in_step
                (with_mapping (skipn N (mp ++ [(m, docs)]))
                   (with_history
                      (flat_map exchange_turns
                         (combine (map fst (skipn N (mp ++ [(m, docs)])))
                            (skipn N (replies ++ [r])))) b1))).
      { split; [exact HN|]. split; [exact Hw|]. split.
        - exists (skipn N (replies ++ [r])). cbn.
          rewrite !length_skipn, Hl1. split; reflexivity.
        - change (max_working_length _) with (max_working_length (bot s)).
          unfold message_pairs. cbn [conversation_history with_mapping
            with_history].
          rewrite length_flat_map_exchanges, length_combine, length_map,
            !length_skipn, Hl1, HlN, Nat.min_id, Hw.
          replace (2 * N - N)%nat with N by lia.
          rewrite Nat2Z.inj_mul. cbn [Z.of_nat Pos.of_succ_nat Pos.succ].
          rewrite Z.mul_comm, Z.div_mul by discriminate. lia. }
      unfold trimmed. rewrite Eo, HN1, Hmp1, Hh1.
      rewrite (py_slice_from_last (max_history_length (bot s)))
        by (rewrite length_app, HlN; lia).
      rewrite (py_slice_from_last (max_history_length (bot s) * 2))
        by (rewrite length_flat_map_exchanges, length_combine, length_map,
              Hl1, Nat.min_id, HlN; lia).
      rewrite length_flat_map_exchanges, length_combine, length_map, Hl1,
        Nat.min_id, HlN, length_app, HlN.
      replace (length old + 2 * N - Z.to_nat (max_history_length (bot s)))%nat
        with (length old + N)%nat by lia.
      replace (2 * (2 * N) - Z.to_nat (max_history_length (bot s) * 2))%nat
        with (2 * N)%nat by lia.
      rewrite skipn_past, skipn_flat_map_exchanges, skipn_combine, skipn_map.
      exact Hstep.
  - (* an exchange below the threshold *)
    assert (Eo : overflowing b1 = false).
    { unfold overflowing. apply Z.leb_gt. rewrite Hp1, Hw1.
      cbn [length] in Hlen. lia. }
    assert (Et : trimmed b1 = b1) by (unfold trimmed; rewrite Eo; reflexivity).
    assert (Ef : forwarded_by b1 = [])
      by (unfold forwarded_by; rewrite Eo; reflexivity).
    rewrite Et in Ea.
    assert (Hlen1 : Z.of_nat (length (mp ++ [(m, docs)]) + length (m2 :: ms))
                    = max_working_length b1).
    { rewrite Hw1, <- Hlen, length_app. cbn [length]. f_equal. lia. }
    assert (Hne1 : m2 :: ms <> []) by discriminate.
    destruct (IH rs' {| bot := b1; world := w'; events := events s ++ evs |}
                s2 (mp ++ [(m, docs)]) (replies ++ [r])
                HN Hw Hmp1 Hl1 Hh1 Hne1 Hlen1 Ea)
      as (Hfb & Hkeep & Hstep).
    cbn [bot events] in Hfb, Hkeep. rewrite HN1 in Hfb, Hkeep.
    split; [|split; [|exact Hstep]].
    + rewrite Hfb, forwarded_batches_app, Hf, Ef, app_nil_r.
      rewrite map_app, <- !app_assoc. reflexivity.
    + rewrite Hkeep, map_app, <- app_assoc. reflexivity.
Qed.

End ClearedConversation.

Section ClearedConversationRuns.
Context {W : Type} `{Assistant W}.

(** X24.  After [clear_conversation] the mapping still holds the entries of the
    cleared turns.  The next [2N] exchanges bring the emptied window to its
    threshold, and the batch then forwarded to consolidation is the first
    [N] entries of the old mapping followed by the new messages: with [N] or
    more entries left behind, only messages of cleared turns are forwarded,
    and the first [N] of the new messages leave the window without being
    forwarded.  The window ends in step, holding the last [N] exchanges. *)
Theorem cleared_conversation_forwards_entries_left_behind
    (ms rs : list string) (s s' : Session W) :
  session_writable ->
  (1 <= max_history_length (bot s))%Z ->
  max_working_length (bot s) = (max_history_length (bot s) * 2)%Z ->
  Z.of_nat (length ms) = max_working_length (bot s) ->
  chat_all ms (fst (clear_conversation s)) = (s', Ret rs) ->
  message_memory_mapping (bot (fst (clear_conversation s)))
  = message_memory_mapping (bot s) /\
  forwarded_batches (events s')
  = forwarded_batches (events s)
      ++ [firstn (Z.to_nat (max_history_length (bot s)))
            (map fst (message_memory_mapping (bot s)) ++ ms)] /\
  map fst (message_memory_mapping (bot s'))
  = skipn (Z.to_nat (max_history_length (bot s))) ms /\
  window_in_step (bot s').
Proof.
  intros Hsave HN Hw Hlen Hrun. split; [reflexivity|].
  assert (Hne : ms <> []).
  { intros ->. cbn in Hlen. lia. }
  exact (chat_all_behind (message_memory_mapping (bot s)) ms Hsave rs
           (fst (clear_conversation s)) s' [] []
           HN Hw (eq_sym (app_nil_r _)) eq_refl eq_refl Hne Hlen Hrun).
Qed.

End ClearedConversationRuns.

Lemma new_chatbot_in_step (uid sid : string) (n : Z) (e : bool) :
  (1 <= n)%Z -> window_in_step (new_chatbot uid sid n e).
Proof.
  intros Hn. split; [exact Hn|]. split; [reflexivity|]. split.
  - exists []. split; reflexivity.
  - unfold message_pairs, new_chatbot.
    cbn [conversation_history max_working_length length Z.of_nat].
    rewrite Z.div_0_l by discriminate. lia.
Qed.

Lemma five_pair_session_history : history_of_mapping (bot five_pair_session).
Proof.
  exists ["re: bad1"; "re: m2"; "re: m3"; "re: m4"; "re: m5"].
  split; reflexivity.
Qed.

Lemma chat_keeps_window_in_step_witness :
  let s := new_session (new_chatbot "u" "s" 3 true) in
  window_in_step (bot (fst (@chat _ ref_assistant "m1" s))) /\
  (pair_count (fst (@chat _ ref_assistant "m1" s))
   < max_working_length (bot (fst (@chat _ ref_assistant "m1" s))))%Z /\
  (forall r, snd (@chat _ ref_assistant "m1" s) = Ret r ->
             accounted (fst (@chat _ ref_assistant "m1" s))
             = accounted s ++ ["m1"]).
Proof.
  apply (@chat_keeps_window_in_step _ ref_assistant "m1"
           (new_session (new_chatbot "u" "s" 3 true))).
  - exact ref_session_writable.
  - apply new_chatbot_in_step. lia.
Defined.

Lemma every_message_is_forwarded_or_kept_witness :
  let s := new_session (new_chatbot "u" "s" 3 true) in
  let s' := fst (@chat_all _ ref_assistant seven_messages s) in
  window_in_step (bot s') /\ accounted s' = accounted s ++ seven_messages /\
  max_history_length (bot s') = max_history_length (bot s) /\
  exists fbs,
    forwarded_batches (events s') = forwarded_batches (events s) ++ fbs /\
    Forall (fun batch => Z.of_nat (length batch) = max_history_length (bot s))
      fbs.
Proof.
  cbv zeta.
  assert (Hrun : exists rs,
             @chat_all _ ref_assistant seven_messages
               (new_session (new_chatbot "u" "s" 3 true))
             = (fst (@chat_all _ ref_assistant seven_messages
                       (new_session (new_chatbot "u" "s" 3 true))), Ret rs)).
  { eexists. vm_compute. reflexivity. }
  destruct Hrun as [rs Hrun].
  apply (@every_message_is_forwarded_or_kept _ ref_assistant seven_messages rs
           (new_session (new_chatbot "u" "s" 3 true))).
  - exact ref_session_writable.
  - apply new_chatbot_in_step. lia.
  - exact Hrun.
Defined.

Lemma set_history_length_keeps_window_in_step_witness :
  exists s',
    @set_history_length _ ref_assistant 2 five_pair_session = (s', Ret tt) /\
    max_history_length (bot s') = 2%Z /\
    window_in_step (bot s') /\
    accounted s' = accounted five_pair_session /\
    ((pair_count five_pair_session < 2 * 2)%Z ->
     bot s' = with_lengths 2 (bot five_pair_session)) /\
    ((2 * 2 <= pair_count five_pair_session)%Z -> pair_count s' = 2%Z).
Proof.
  apply (@set_history_length_keeps_window_in_step _ ref_assistant 2
           five_pair_session).
  - lia.
  - exact five_pair_session_history.
Defined.

Lemma cleared_conversation_forwards_entries_left_behind_witness :
  let ms := ["n1"; "n2"; "n3"; "n4"; "n5"; "n6"] in
  let s := five_pair_session in
  let s' := fst (@chat_all _ ref_assistant ms (fst (clear_conversation s))) in
  message_memory_mapping (bot (fst (clear_conversation s)))
  = message_memory_mapping (bot s) /\
  forwarded_batches (events s')
  = forwarded_batches (events s)
      ++ [firstn (Z.to_nat (max_history_length (bot s)))
            (map fst (message_memory_mapping (bot s)) ++ ms)] /\
  map fst (message_memory_mapping (bot s'))
  = skipn (Z.to_nat (max_history_length (bot s))) ms /\
  window_in_step (bot s').
Proof.
  cbv zeta.
  assert (Hrun : exists rs,
             @chat_all _ ref_assistant ["n1"; "n2"; "n3"; "n4"; "n5"; "n6"]
               (fst (clear_conversation five_pair_session))
             = (fst (@chat_all _ ref_assistant
                       ["n1"; "n2"; "n3"; "n4"; "n5"; "n6"]
                       (fst (clear_conversation five_pair_session))), Ret rs)).
  { eexists. vm_compute. reflexivity. }
  destruct Hrun as [rs Hrun].
  apply (@cleared_conversation_forwards_entries_left_behind _ ref_assistant
           ["n1"; "n2"; "n3"; "n4"; "n5"; "n6"] rs five_pair_session).
  - exact ref_session_writable.
  - cbn. lia.
  - reflexivity.
  - reflexivity.
  - exact Hrun.
Defined.

(** * Properties of the tool executor *)

Section ToolExecutorFacts.
Context `{Backend}.
#[local] Arguments Nat.leb : simpl never.

(** X26.  Through the tool executor, an update or a deletion of an identifier
    the user's database does not hold is a success: the envelope has no
    error, its data say [updated = False] (or [deleted = False]) with the
    not-found message, and the store and the disk are as before. *)
Theorem absent_id_is_reported_as_success
    (w : World) (uid doc_id text : string) (meta : option Meta) :
  current_user_id (self w) = Some uid ->
  dict_mem doc_id (documents (self w)) = false ->
  execute_tool (tool_update_document uid doc_id text meta) w
  = (w, Ret {| success := true; error := None;
               data := Some (update_document_data
                               ("Document " ++ doc_id ++ " not found for user "
                                  ++ uid)%string doc_id uid false) |}) /\
  execute_tool (tool_delete_document uid doc_id) w
  = (w, Ret {| success := true; error := None;
               data := Some (delete_document_data
                               ("Document " ++ doc_id ++ " not found for user "
                                  ++ uid)%string doc_id uid false) |}).
Proof.
  intros Hc Hm. split.
  - unfold execute_tool, _update_document, try_except, bind.
    rewrite (update_document_absent_state w uid doc_id text meta Hc Hm).
    reflexivity.
  - unfold execute_tool, _delete_document, try_except, bind.
    rewrite (delete_document_absent_state w uid doc_id Hc Hm).
    reflexivity.
Qed.

Lemma save_database_no_path (w : World) :
  db_path (self w) = None ->
  save_database w
  = (w, Raise (ValueError "Database path not set. No user database loaded.")).
Proof.
  intros Hp. unfold save_database. rewrite bind_get, Hp. reflexivity.
Qed.

Lemma save_database_refused (w : World) (p : string) :
  db_path (self w) = Some p -> p <> "" -> read_only (disk w) = true ->
  save_database w = (w, Raise OSError).
Proof.
  intros Hp Hne Hro. unfold save_database. rewrite bind_get, Hp.
  destruct p as [|c p]; [congruence|]. unfold write_file. rewrite Hro.
  reflexivity.
Qed.

(** X27.  The [save_database] tool: with no database path set it is a success
    whose data say [saved = False] with the message of the [ValueError];
    with a path on a disk that refuses writes it is a failure carrying the
    [OSError]; with a path on a writable disk it is a success with
    [saved = True] and the snapshot on disk is the store in memory.  The
    store is never changed. *)
Theorem save_tool_outcomes (w : World) :
  (db_path (self w) = None ->
   execute_tool tool_save_database w
   = (w, Ret {| success := true; error := None;
                data := Some (save_database_data
                  "Database path not set. No user database loaded." false) |})) /\
  (forall p, db_path (self w) = Some p -> p <> "" ->
             read_only (disk w) = true ->
   execute_tool tool_save_database w
   = (w, Ret {| success := false; error := Some OSError; data := None |})) /\
  (forall p, db_path (self w) = Some p -> p <> "" ->
             read_only (disk w) = false ->
   exists w',
     execute_tool tool_save_database w
     = (w', Ret {| success := true; error := None;
                   data := Some (save_database_data
                                   "Database saved successfully" true) |}) /\
     self w' = self w /\ persisted w').
Proof.
  split; [|split].
  - intros Hp. unfold execute_tool, _save_database, try_except, bind.
    rewrite (save_database_no_path w Hp). reflexivity.
  - intros p Hp Hne Hro. unfold execute_tool, _save_database, try_except, bind.
    rewrite (save_database_refused w p Hp Hne Hro). reflexivity.
  - intros p Hp Hne Hro.
    destruct (save_then_ret (save_database_data "Database saved successfully" true)
                w p Hp Hne Hro) as (d & Hrun & Hfile).
    unfold execute_tool, _save_database, try_except. unfold bind at 1.
    rewrite Hrun. eexists. split; [reflexivity|]. split; [reflexivity|].
    exists p. split; [exact Hp | exact Hfile].
Qed.

(** X28.  An addition that fails at the write is not rolled back: on a disk that
    refuses writes, the [add_document] tool answers a failure carrying the
    [OSError], yet the document is in the store under the next identifier,
    its vector is in the index, the counter has moved, and [get_stats]
    counts it; nothing on disk changed. *)
Theorem failed_add_is_not_rolled_back
    (w : World) (uid text : string) (meta : option Meta) :
  loaded w uid ->
  read_only (disk w) = true ->
  is_trained (index (self w)) = true ->
  dict_mem (doc_id_of (doc_counter (self w))) (documents (self w)) = false ->
  exists w',
    execute_tool (tool_add_document uid text meta) w
    = (w', Ret {| success := false; error := Some OSError; data := None |}) /\
    documents (self w')
    = documents (self w) ++ [(doc_id_of (doc_counter (self w)), text)] /\
    doc_counter (self w') = S (doc_counter (self w)) /\
    index_vectors (index (self w'))
    = index_vectors (index (self w)) ++ [encode text] /\
    disk w' = disk w /\
    exists stats,
      snd (get_stats uid w') = Ret stats /\
      num_documents stats = S (length (documents (self w))).
Proof.
  intros [Hc (p & Hp & Hne)] Hro Htr Hfresh.
  assert (Hadd : exists ix,
             index_add (index (self w)) [encode text] = Ret ix /\
             index_vectors ix = index_vectors (index (self w)) ++ [encode text]).
  { destruct (index (self w)) as [xb|[t|] xb|xb]; try discriminate Htr;
      eexists; split; reflexivity. }
  destruct Hadd as (ix & Hix & Hvec).
  unfold execute_tool, _add_document, try_except. unfold bind at 1 2.
  unfold add_document. rewrite bind_ensure_loaded by exact Hc.
  rewrite bind_get. cbv zeta. rewrite !bind_set_self, bind_get.
  cbn [self disk with_doc_counter with_documents with_metadata documents
       index index_type].
  unfold is_ivf_untrained at 1.
  cbn [self disk with_doc_counter with_documents with_metadata documents
       index index_type].
  rewrite Htr. cbn [negb]. rewrite Bool.andb_false_r.
  unfold bind at 1. unfold bind at 1. unfold lift at 1. rewrite Hix.
  unfold bind at 1. unfold set_index at 1, set_self at 1, modify at 1.
  unfold ret at 1. unfold bind at 1.
  match goal with
  | |- context [save_database ?w2] =>
      rewrite (save_database_refused w2 p Hp Hne Hro)
  end.
  eexists. split; [reflexivity|].
  cbn [self disk documents doc_counter index with_index with_metadata
       with_documents with_doc_counter].
  rewrite (dict_set_fresh _ text _ Hfresh).
  split; [reflexivity|]. split; [lia|]. split; [exact Hvec|].
  split; [reflexivity|].
  unfold get_stats. rewrite bind_ensure_loaded by exact Hc.
  rewrite bind_get. eexists. split; [reflexivity|].
  cbn [num_documents self disk documents with_index with_metadata
       with_documents with_doc_counter].
  rewrite length_app. cbn [length]. lia.
Qed.

(** X29.  [clear_background_memory] never raises and deletes nothing: the answer
    of the [get_database_stats] tool has no [document_ids], so the whole
    effect on the store is that of the one statistics call. *)
Theorem clear_background_memory_deletes_nothing
    (b : SimpleQAChatBot) (w : World) :
  clear_background_memory b w
  = ((if background_on b then fst (get_stats (user_id b) w) else w), Ret tt).
Proof.
  unfold clear_background_memory. destruct (background_on b); [|reflexivity].
  unfold try_except, bind at 1, execute_tool, try_except, bind at 1,
    _get_database_stats, bind at 1.
  destruct (get_stats (user_id b) w) as [w1 [stats|e]]; reflexivity.
Qed.

(** X30.  [create_rag_enabled_chat] for a user whose snapshot is on disk: the
    store of the new executor is the snapshot, with the index type and the
    index of the snapshot whatever index type was asked for; for a user
    without a snapshot it is the new empty store, no user loaded.  The disk
    is not changed. *)
Theorem created_executor_takes_index_type_from_snapshot
    (uid : string) (t : IndexType) (d : Disk) :
  uid <> "" ->
  match files d !! user_db_path uid with
  | Some snap =>
      create_rag_enabled_chat (Some uid) t d
      = {| self := {| index_type := db_index_type snap;
                      dimension := db_dimension snap;
                      current_user_id := Some uid;
                      documents := db_documents snap;
                      metadata := db_metadata snap;
                      doc_counter := db_doc_counter snap;
                      index := db_index_data snap;
                      db_path := Some (user_db_path uid) |};
           disk := d |}
  | None =>
      create_rag_enabled_chat (Some uid) t d
      = {| self := new_rag_system t; disk := d |}
  end.
Proof.
  intros Hne.
  assert (Erun : create_rag_enabled_chat (Some uid) t d
                 = fst (execute_tool (tool_load_database uid)
                          {| self := new_rag_system t; disk := d |})).
  { destruct uid as [|c uid]; [congruence | reflexivity]. }
  rewrite Erun. clear Erun.
  unfold execute_tool, try_except, _load_database, bind.
  destruct (files d !! user_db_path uid) as [snap|] eqn:Ef.
  - rewrite (load_database_found {| self := new_rag_system t; disk := d |}
               uid snap Ef).
    match goal with
    | |- context [get_stats uid ?w1] =>
        pose proof (get_stats_state w1 uid eq_refl) as Hst;
          destruct (get_stats uid w1) as [w2 [stats|e]]
    end; cbn [fst] in Hst; subst w2; reflexivity.
  - rewrite (load_database_missing {| self := new_rag_system t; disk := d |}
               uid Ef).
    reflexivity.
Qed.

End ToolExecutorFacts.

Lemma absent_id_is_reported_as_success_witness :
  @execute_tool ref_backend (tool_update_document "u" "doc_7" "zz" None)
    example_world
  = (example_world,
     Ret {| success := true; error := None;
            data := Some (update_document_data
                            ("Document " ++ "doc_7" ++ " not found for user "
                               ++ "u")%string "doc_7" "u" false) |}) /\
  @execute_tool ref_backend (tool_delete_document "u" "doc_7") example_world
  = (example_world,
     Ret {| success := true; error := None;
            data := Some (delete_document_data
                            ("Document " ++ "doc_7" ++ " not found for user "
                               ++ "u")%string "doc_7" "u" false) |}).
Proof.
  apply (@absent_id_is_reported_as_success ref_backend example_world
           "u" "doc_7" "zz" None).
  - reflexivity.
  - reflexivity.
Defined.

Lemma save_tool_outcomes_witness :
  @execute_tool ref_backend tool_save_database (fresh_world flat)
  = (fresh_world flat,
     Ret {| success := true; error := None;
            data := Some (save_database_data
                            "Database path not set. No user database loaded."
                            false) |}) /\
  @execute_tool ref_backend tool_save_database locked_example_world
  = (locked_example_world,
     Ret {| success := false; error := Some OSError; data := None |}).
Proof.
  split.
  - exact (proj1 (@save_tool_outcomes ref_backend (fresh_world flat)) eq_refl).
  - apply (proj1 (proj2 (@save_tool_outcomes ref_backend locked_example_world))
             "user_memory/u/rag_db_u.pkl").
    + reflexivity.
    + discriminate.
    + reflexivity.
Defined.

Lemma locked_example_world_loaded : loaded locked_example_world "u".
Proof.
  split; [reflexivity|]. eexists. split; [reflexivity | discriminate].
Defined.

Lemma failed_add_is_not_rolled_back_witness :
  exists w',
    @execute_tool ref_backend (tool_add_document "u" "dddd" None)
      locked_example_world
    = (w', Ret {| success := false; error := Some OSError; data := None |}) /\
    documents (self w')
    = documents (self locked_example_world)
        ++ [(doc_id_of (doc_counter (self locked_example_world)), "dddd")] /\
    doc_counter (self w') = S (doc_counter (self locked_example_world)) /\
    index_vectors (index (self w'))
    = index_vectors (index (self locked_example_world)) ++ [ref_encode "dddd"] /\
    disk w' = disk locked_example_world /\
    exists stats,
      snd (get_stats "u" w') = Ret stats /\
      num_documents stats = S (length (documents (self locked_example_world))).
Proof.
  apply (@failed_add_is_not_rolled_back ref_backend locked_example_world
           "u" "dddd" None).
  - exact locked_example_world_loaded.
  - reflexivity.
  - reflexivity.
  - reflexivity.
Defined.

Lemma clear_background_memory_deletes_nothing_witness :
  @clear_background_memory ref_backend (new_chatbot "u" "s" 3 true)
    example_world
  = (example_world, Ret tt).
Proof.
  rewrite (@clear_background_memory_deletes_nothing ref_backend
             (new_chatbot "u" "s" 3 true) example_world).
  reflexivity.
Defined.

Lemma created_executor_takes_index_type_from_snapshot_witness :
  self (@create_rag_enabled_chat ref_backend (Some "u") hnsw
          (disk saved_example_world))
  = self example_world /\
  index_type (self (@create_rag_enabled_chat ref_backend (Some "u") hnsw
                      (disk saved_example_world))) = flat.
Proof.
  pose proof (@created_executor_takes_index_type_from_snapshot ref_backend
                "u" hnsw (disk saved_example_world)) as Hx.
  unfold saved_example_world in Hx. cbn [disk files] in Hx.
  rewrite lookup_insert_eq in Hx.
  unfold saved_example_world. cbn [disk].
  rewrite Hx by discriminate. split; reflexivity.
Defined.

(** * A session file that cannot be written *)

Section UnwritableSession.
Context {W : Type} `{Assistant W}.

(** Up to [save_exchange]: the mapping has its new entry, nothing else of
    the chatbot object has changed, and no event was recorded. *)
Lemma record_exchange_unwritable (m r : string) (s : Session W) :
  (forall sid q a w, exists w' e, save_exchange sid q a w = (w', Raise e)) ->
  exists w' docs e,
    record_exchange m r s
    = ({| bot := with_mapping (message_memory_mapping (bot s) ++ [(m, docs)])
                   (bot s);
          world := w'; events := events s |}, Raise e) /\
    (background_on (bot s) = false -> docs = []).
Proof.
  intros Hsave. unfold record_exchange. unfold bind at 1.
  pose proof (get_retrieved_documents_outcome m s) as (w1 & docs & Hg).
  assert (Hoff : background_on (bot s) = false -> docs = []).
  { intros Eb. revert Hg. unfold get_retrieved_documents, bind, get.
    rewrite Eb. cbn [negb]. unfold ret. intros [= _ <-]. reflexivity. }
  rewrite Hg. unfold bind, set_bot, modify, get, ext. cbn [bot world events].
  change (session_id
            (with_mapping (message_memory_mapping (bot s) ++ [(m, docs)]) (bot s)))
    with (session_id (bot s)).
  destruct (Hsave (session_id (bot s)) m r w1) as (w2 & e & ->).
  exists w2, docs, e. split; [reflexivity | exact Hoff].
Qed.

(** X25.  When the session file cannot be written while both language-model
    calls answer, [chat] raises with the history as it was, but the mapping
    has gained an entry for the message at each attempt: two with the
    background chatbot on (its round trip was made, then the simple mode
    ran as the fallback), one with it off.  The mapping is then out of step
    with the window. *)
Theorem unwritable_session_leaves_mapping_entries
    (m : string) (s : Session W) :
  (forall sid q a w, exists w' e, save_exchange sid q a w = (w', Raise e)) ->
  (forall w, exists w' r, rag_chat m w = (w', Ret r)) ->
  (forall msgs w, exists w' r, call_openai msgs w = (w', Ret r)) ->
  exists s' e extra,
    chat m s = (s', Raise e) /\
    conversation_history (bot s') = conversation_history (bot s) /\
    message_memory_mapping (bot s') = message_memory_mapping (bot s) ++ extra /\
    map fst extra = (if background_on (bot s) then [m; m] else [m]) /\
    events s' = events s.
Proof.
  intros Hsave Hrag Hllm.
  assert (Hsimple : forall s0 : Session W,
             exists s' e docs,
               chat_simple_mode m s0 = (s', Raise e) /\
               bot s'
               = with_mapping (message_memory_mapping (bot s0) ++ [(m, docs)])
                   (bot s0) /\
               events s' = events s0).
  { intros s0. unfold chat_simple_mode, bind at 1, get.
    unfold bind at 1, ext.
    match goal with
    | |- context [call_openai ?msgs (world s0)] =>
        destruct (Hllm msgs (world s0)) as (w1 & r & ->)
    end.
    unfold bind at 1.
    destruct (record_exchange_unwritable m r
                {| bot := bot s0; world := w1; events := events s0 |} Hsave)
      as (w2 & docs & e & -> & _).
    eexists. exists e, docs. split; [reflexivity|]. split; reflexivity. }
  unfold chat, bind at 1, get.
  destruct (background_on (bot s)) eqn:Eb.
  - unfold try_except, chat_rag_mode, bind at 1, ext.
    destruct (Hrag (world s)) as (w1 & r & ->). unfold bind at 1.
    destruct (record_exchange_unwritable m r
                {| bot := bot s; world := w1; events := events s |} Hsave)
      as (w2 & docs1 & e1 & -> & _).
    match goal with
    | |- context [chat_simple_mode m ?s0] =>
        destruct (Hsimple s0) as (s' & e & docs2 & -> & Hb & He)
    end.
    cbn [bot events] in Hb, He.
    exists s', e, [(m, docs1); (m, docs2)]. split; [reflexivity|].
    rewrite Hb, He. cbn. rewrite <- app_assoc. repeat split.
  - destruct (Hsimple s) as (s' & e & docs & -> & Hb & He).
    exists s', e, [(m, docs)]. split; [reflexivity|].
    rewrite Hb, He. repeat split.
Qed.

End UnwritableSession.

Lemma unwritable_session_leaves_mapping_entries_witness :
  exists s' e extra,
    @chat _ unwritable_assistant "m1" (new_session (new_chatbot "u" "s" 3 true))
    = (s', Raise e) /\
    conversation_history (bot s')
    = conversation_history (bot (new_session (new_chatbot "u" "s" 3 true))) /\
    message_memory_mapping (bot s')
    = message_memory_mapping (bot (new_session (new_chatbot "u" "s" 3 true)))
        ++ extra /\
    map fst extra
    = (if background_on (bot (new_session (new_chatbot "u" "s" 3 true)))
       then ["m1"; "m1"] else ["m1"]) /\
    events s' = events (new_session (new_chatbot "u" "s" 3 true)).
Proof.
  apply (@unwritable_session_leaves_mapping_entries _ unwritable_assistant
           "m1" (new_session (new_chatbot "u" "s" 3 true))).
  - intros sid q a w. exists w, OSError. reflexivity.
  - intros w. eexists. eexists. cbn. unfold ref_rag_chat. cbn. reflexivity.
  - intros msgs w. exists w, "ok". reflexivity.
Defined.

(** * The operations of a user write that user's snapshot only *)

Section OtherFiles.
Context `{Backend}.
Variables uid p q : string.
Variable x : option db_data.
Hypothesis Hpq : q <> p.

Lemma kept_set_self (f : RAGSystem -> RAGSystem) :
  (forall s, current_user_id (f s) = current_user_id s /\
             db_path (f s) = db_path s) ->
  preserves (other_file_kept uid p q x) (set_self f).
Proof.
  intros Hf. apply preserves_set_self. intros w (Hc & Hp & Hx).
  destruct (Hf (self w)) as [Ec Ep].
  repeat split; cbn [self disk]; [rewrite Ec | rewrite Ep |]; assumption.
Qed.

Lemma kept_set_index (ix : Index) :
  preserves (other_file_kept uid p q x) (set_index ix).
Proof. apply kept_set_self. intros s. split; reflexivity. Qed.

Lemma kept_save_database : preserves (other_file_kept uid p q x) save_database.
Proof.
  intros w (Hc & Hp & Hx). unfold save_database. rewrite bind_get, Hp.
  destruct p as [|c p']; [repeat split; assumption|].
  unfold write_file. destruct (read_only (disk w)); cbn [fst];
    repeat split; cbn [self disk files]; try assumption.
  rewrite lookup_insert_ne by (intros E; apply Hpq; symmetry; exact E).
  exact Hx.
Qed.

Lemma kept_rebuild (pos : nat) :
  preserves (other_file_kept uid p q x) (_rebuild_index_without_document pos).
Proof.
  intros w Hw. destruct (rebuild_frame w pos) as [ix ->]. cbn [fst].
  exact (kept_set_index ix w Hw).
Qed.

Lemma kept_retrain : preserves (other_file_kept uid p q x) _retrain_ivf_index.
Proof.
  unfold _retrain_ivf_index. apply preserves_get_bind. intros w0 Hw0.
  destruct (documents (self w0)); [exact Hw0|].
  refine ((_ : preserves (other_file_kept uid p q x) _) w0 Hw0).
  apply preserves_bind.
  { apply kept_set_self. intros s. split; reflexivity. }
  intros _. apply preserves_get_bind. intros w1 Hw1.
  refine ((_ : preserves (other_file_kept uid p q x) _) w1 Hw1).
  apply preserves_bind; [apply preserves_lift|].
  intros ix. apply preserves_bind; [apply kept_set_index|].
  intros _. apply preserves_bind; [apply preserves_lift|].
  intros ix'. apply kept_set_index.
Qed.

Lemma kept_ensure :
  preserves (other_file_kept uid p q x) (_ensure_user_database uid).
Proof.
  intros w Hw. rewrite ensure_loaded by exact (proj1 Hw). exact Hw.
Qed.

Lemma kept_add_document (text : string) (meta : option Meta) :
  preserves (other_file_kept uid p q x) (add_document uid text meta).
Proof.
  unfold add_document. apply preserves_bind; [apply kept_ensure|].
  intros _. apply preserves_get_bind. intros w0 Hw0.
  refine ((_ : preserves (other_file_kept uid p q x) _) w0 Hw0). cbv zeta.
  do 3 (apply preserves_bind;
        [apply kept_set_self; intros s; split; reflexivity | intros _]).
  apply preserves_get_bind. intros w1 Hw1.
  refine ((_ : preserves (other_file_kept uid p q x) _) w1 Hw1).
  apply preserves_bind.
  - destruct (is_ivf_untrained (self w1)).
    + destruct (100 <=? length (documents (self w1)))%nat; [|apply preserves_ret].
      apply preserves_bind; [apply preserves_lift|]. intros ix.
      apply preserves_bind; [apply kept_set_index|]. intros _.
      apply preserves_bind; [apply preserves_lift|]. intros ix'.
      apply preserves_bind; [apply kept_set_index|]. intros _.
      apply preserves_ret.
    + apply preserves_bind; [apply preserves_lift|]. intros ix.
      apply preserves_bind; [apply kept_set_index|]. intros _.
      apply preserves_ret.
  - intros [|]; [apply preserves_ret|].
    apply preserves_bind; [apply kept_save_database|]. intros _.
    apply preserves_ret.
Qed.

Lemma kept_update_document (doc_id text : string) (meta : option Meta) :
  preserves (other_file_kept uid p q x) (update_document uid doc_id text meta).
Proof.
  unfold update_document. apply preserves_bind; [apply kept_ensure|].
  intros _. apply preserves_get_bind. intros w0 Hw0.
  destruct (dict_mem doc_id (documents (self w0))); cbn [negb]; [|exact Hw0].
  refine ((_ : preserves (other_file_kept uid p q x) _) w0 Hw0). cbv zeta.
  destruct (list_index doc_id (dict_keys (documents (self w0))));
    [|apply preserves_raise].
  apply preserves_bind; [apply kept_rebuild|]. intros _.
  apply preserves_bind;
    [apply kept_set_self; intros s; split; reflexivity|]. intros _.
  apply preserves_bind.
  { destruct meta; [|apply preserves_ret].
    apply kept_set_self. intros s. split; reflexivity. }
  intros _. apply preserves_get_bind. intros w1 Hw1.
  refine ((_ : preserves (other_file_kept uid p q x) _) w1 Hw1).
  apply preserves_bind.
  - destruct (is_ivf_untrained (self w1)).
    + destruct (100 <=? length (documents (self w1)))%nat;
        [apply kept_retrain | apply preserves_ret].
    + apply preserves_bind; [apply preserves_lift|]. intros ix.
      apply kept_set_index.
  - intros _. apply preserves_bind; [apply kept_save_database|]. intros _.
    apply preserves_ret.
Qed.

Lemma kept_delete_document (doc_id : string) :
  preserves (other_file_kept uid p q x) (delete_document uid doc_id).
Proof.
  unfold delete_document. apply preserves_bind; [apply kept_ensure|].
  intros _. apply preserves_get_bind. intros w0 Hw0.
  destruct (dict_mem doc_id (documents (self w0))); cbn [negb]; [|exact Hw0].
  refine ((_ : preserves (other_file_kept uid p q x) _) w0 Hw0). cbv zeta.
  destruct (list_index doc_id (dict_keys (documents (self w0))));
    [|apply preserves_raise].
  apply preserves_bind;
    [apply kept_set_self; intros s; split; reflexivity|].
  intros _. apply preserves_get_bind. intros w1 Hw1.
  refine ((_ : preserves (other_file_kept uid p q x) _) w1 Hw1).
  apply preserves_bind.
  { destruct (dict_mem doc_id (metadata (self w1))); [|apply preserves_raise].
    apply kept_set_self. intros s. split; reflexivity. }
  intros _. apply preserves_bind; [apply kept_rebuild|]. intros _.
  apply preserves_bind; [apply kept_save_database|]. intros _.
  apply preserves_ret.
Qed.

Lemma kept_run_op (o : StoreOp) (w : World) :
  other_file_kept uid p q x w -> other_file_kept uid p q x (run_op uid o w).
Proof.
  intros Hw. destruct o as [text meta|doc_id text meta|doc_id|query top_k|]; cbn.
  - exact (kept_add_document text meta w Hw).
  - exact (kept_update_document doc_id text meta w Hw).
  - exact (kept_delete_document doc_id w Hw).
  - rewrite search_loaded by exact (proj1 Hw). exact Hw.
  - rewrite get_stats_state by exact (proj1 Hw). exact Hw.
Qed.

End OtherFiles.

Section OtherFilesTheorem.
Context `{Backend}.

(** X17.  Whatever additions, updates, deletions, searches and statistics calls
    a user makes, and whichever of them raise, no file other than that
    user's own snapshot is created, changed or removed; in particular the
    snapshot of any other user is as it was. *)
Theorem operations_write_own_snapshot_only
    (uid : string) (ops : list StoreOp) (w : World) (p q : string) :
  current_user_id (self w) = Some uid ->
  db_path (self w) = Some p ->
  q <> p ->
  files (disk (run_ops uid ops w)) !! q = files (disk w) !! q /\
  db_path (self (run_ops uid ops w)) = Some p.
Proof.
  intros Hc Hp Hpq.
  assert (Hall : forall ops w,
             other_file_kept uid p q (files (disk w) !! q) w ->
             forall x, x = files (disk w) !! q ->
             other_file_kept uid p q x (run_ops uid ops w)).
  { clear w Hc Hp. intros ops0. unfold run_ops.
    induction ops0 as [|o ops0 IH]; intros w Hw x0 ->; cbn [fold_left].
    - exact Hw.
    - pose proof (kept_run_op uid p q _ Hpq o w Hw) as Hw1.
      destruct Hw1 as (Hc1 & Hp1 & Hx1).
      rewrite <- Hx1. apply IH; [|reflexivity].
      repeat split; assumption. }
  destruct (Hall ops w (conj Hc (conj Hp eq_refl)) _ eq_refl) as (_ & Hp' & Hx).
  split; [exact Hx | exact Hp'].
Qed.

End OtherFilesTheorem.

Lemma operations_write_own_snapshot_only_witness :
  files (disk (@run_ops ref_backend "u"
                 [op_add "dddd" None; op_delete "doc_1";
                  op_update "doc_0" "e" None; op_search "a" 2; op_stats]
                 example_world)) !! user_db_path "v"
  = files (disk example_world) !! user_db_path "v" /\
  db_path (self (@run_ops ref_backend "u"
                   [op_add "dddd" None; op_delete "doc_1";
                    op_update "doc_0" "e" None; op_search "a" 2; op_stats]
                   example_world))
  = Some (user_db_path "u").
Proof.
  apply (@operations_write_own_snapshot_only ref_backend "u" _ example_world
           (user_db_path "u") (user_db_path "v")).
  - reflexivity.
  - reflexivity.
  - discriminate.
Defined.

(** * The first addition of a new user *)

Section FirstAddition.
Context `{Backend}.
#[local] Arguments Nat.leb : simpl never.

Lemma ensure_new_user_run (w : World) (uid : string) :
  current_user_id (self w) <> Some uid ->
  files (disk w) !! user_db_path uid = None ->
  read_only (disk w) = false ->
  exists w1,
    _ensure_user_database uid w = (w1, Ret tt) /\
    self w1
    = {| index_type := index_type (self w); dimension := dimension (self w);
         current_user_id := Some uid; documents := []; metadata := [];
         doc_counter := 0; index := _create_index (index_type (self w));
         db_path := Some (user_db_path uid) |} /\
    read_only (disk w1) = false /\
    files (disk w1) = files (disk w) /\
    write_log (disk w1) = write_log (disk w).
Proof.
  intros Hcur Hfile Hro. unfold _ensure_user_database.
  rewrite bind_get, (same_user_false _ _ Hcur).
  unfold bind at 1. rewrite (load_database_missing w uid Hfile).
  rewrite !bind_set_self. unfold bind at 1, makedirs. cbn [self disk].
  rewrite Hro. rewrite bind_set_self. unfold set_self, modify.
  eexists. split; [reflexivity|]. cbn [self disk read_only files write_log].
  repeat split.
Qed.

(** X5.  The first [add_document] of a user with no snapshot, on an exact or a
    graph store and a writable disk: the database is created and the call
    returns [doc_0]; the store then holds that one document with its
    metadata, its vector alone in a new index, the counter at 1, and the
    snapshot written at the user's path is that store.  No other file is
    touched. *)
Theorem first_addition_creates_database
    (w : World) (uid text : string) (meta : option Meta) :
  current_user_id (self w) <> Some uid ->
  files (disk w) !! user_db_path uid = None ->
  read_only (disk w) = false ->
  index_type (self w) <> ivf ->
  exists w',
    add_document uid text meta w = (w', Ret "doc_0") /\
    current_user_id (self w') = Some uid /\
    documents (self w') = [("doc_0", text)] /\
    metadata (self w') = [("doc_0", meta_or_empty meta)] /\
    doc_counter (self w') = 1%nat /\
    index (self w') = plain_index (index_type (self w)) [encode text] /\
    persisted w' /\
    db_path (self w') = Some (user_db_path uid) /\
    (forall q, q <> user_db_path uid ->
               files (disk w') !! q = files (disk w) !! q).
Proof.
  intros Hcur Hfile Hro Ht.
  destruct (ensure_new_user_run w uid Hcur Hfile Hro)
    as (w1 & Hens & Hself & Hro1 & Hfiles & _).
  unfold add_document. unfold bind at 1. rewrite Hens.
  rewrite bind_get. cbv zeta. rewrite !bind_set_self, bind_get.
  cbn [self disk]. rewrite Hself.
  cbn [with_doc_counter with_documents with_metadata documents metadata
       doc_counter index index_type dict_set Nat.add].
  unfold is_ivf_untrained at 1.
  cbn [with_doc_counter with_documents with_metadata index_type index].
  assert (Eadd : IndexType_eqb (index_type (self w)) ivf = false /\
                 index_add (_create_index (index_type (self w))) [encode text]
                 = Ret (plain_index (index_type (self w)) [encode text])).
  { destruct (index_type (self w)); try congruence; split; reflexivity. }
  destruct Eadd as [-> Eadd]. cbn [andb].
  unfold bind at 1. unfold bind at 1. unfold lift at 1. rewrite Eadd.
  unfold bind at 1. unfold set_index at 1, set_self at 1, modify at 1.
  unfold ret at 1. cbn [self disk with_index].
  match goal with
  | |- context [(save_database ;; ret ?a) ?w2] =>
      destruct (save_then_ret a w2 (user_db_path uid))
        as (d & Hrun & Hfile');
        [reflexivity | apply user_db_path_nonempty | exact Hro1 |];
        pose proof (kept_save_database uid (user_db_path uid)) as Hkept;
        rewrite Hrun
  end.
  eexists. split; [reflexivity|]. cbn [self disk current_user_id documents
    metadata doc_counter index db_path].
  repeat (split; [reflexivity|]).
  split; [exists (user_db_path uid); split; [reflexivity | exact Hfile']|].
  split; [reflexivity|].
  intros q Hq. rewrite <- Hfiles.
  match type of Hrun with
  | (save_database ;; ret _) ?w2 = _ =>
      pose proof (Hkept q (files (disk w1) !! q) Hq w2
                    (conj eq_refl (conj eq_refl eq_refl))) as (_ & _ & Hx);
        revert Hx; unfold bind in Hrun;
        destruct (save_database w2) as [w3 [[]|e]]; [|discriminate Hrun];
        injection Hrun as ->; cbn [fst disk]; exact (fun Hx => Hx)
  end.
Qed.

End FirstAddition.

Lemma first_addition_creates_database_witness :
  exists w',
    @add_document ref_backend "v" "hello" None saved_example_world
    = (w', Ret "doc_0") /\
    current_user_id (self w') = Some "v" /\
    documents (self w') = [("doc_0", "hello")] /\
    metadata (self w') = [("doc_0", meta_or_empty None)] /\
    doc_counter (self w') = 1%nat /\
    index (self w')
    = plain_index (index_type (self saved_example_world)) [ref_encode "hello"] /\
    persisted w' /\
    db_path (self w') = Some (user_db_path "v") /\
    (forall q, q <> user_db_path "v" ->
               files (disk w') !! q = files (disk saved_example_world) !! q).
Proof.
  apply (@first_addition_creates_database ref_backend saved_example_world
           "v" "hello" None).
  - discriminate.
  - apply lookup_insert_None. split; [apply lookup_empty | discriminate].
  - reflexivity.
  - discriminate.
Defined.

(** * A clustered store falling back below the training threshold *)

Lemma remaining_le {A} (pos : nat) (l : list A) :
  (length (remaining pos l) <= length l)%nat.
Proof.
  unfold remaining, list_pop. destruct (pos <? length l)%nat; [|lia].
  rewrite length_app, length_firstn, length_skipn. lia.
Qed.

Section BelowThreshold.
Context `{Backend}.
#[local] Arguments Nat.leb : simpl never.

(** X13.  A deletion on a clustered store of at most 100 documents, trained or
    not, leaves a new index that is empty and untrained, and saves the store
    that way: from then on searches take the exhaustive scan over the
    documents, until an addition reaches the threshold again. *)
Theorem deletion_untrains_clustered_store
    (w : World) (uid doc_id : string) :
  loaded w uid ->
  read_only (disk w) = false ->
  index_type (self w) = ivf ->
  dict_mem doc_id (documents (self w)) = true ->
  dict_mem doc_id (metadata (self w)) = true ->
  (length (documents (self w)) <= 100)%nat ->
  exists w',
    delete_document uid doc_id w = (w', Ret true) /\
    documents (self w') = dict_del doc_id (documents (self w)) /\
    index (self w') = IndexIVFFlat None [] /\
    is_ivf_untrained (self w') = true /\
    persisted w'.
Proof.
  intros [Hc (p & Hp & Hne)] Hro Ht Hm Hmm Hlen.
  destruct (delete_document_run w uid doc_id Hc Hm Hmm) as (pos & Hpos & ->).
  match goal with
  | |- context [(save_database ;; ret true) ?w2] =>
      destruct (save_then_true w2 p Hp Hne Hro) as (d & -> & Hfile)
  end.
  assert (Hix : rebuilt_index (index_type (self w))
                  (map encode
                     (remaining pos
                        (dict_values (dict_del doc_id (documents (self w))))))
                = IndexIVFFlat None []).
  { rewrite Ht. unfold rebuilt_index.
    destruct (map encode _) as [|e embs] eqn:Ee; [reflexivity|].
    assert (Hl : (length (e :: embs) < 100)%nat).
    { rewrite <- Ee, length_map.
      pose proof (remaining_le pos
                    (dict_values (dict_del doc_id (documents (self w))))) as Hr.
      unfold dict_values in Hr at 2. rewrite length_map in Hr.
      pose proof (dict_del_length doc_id (documents (self w)) Hm). lia. }
    destruct (100 <=? length (e :: embs))%nat eqn:E100;
      [apply Nat.leb_le in E100; lia | reflexivity]. }
  eexists. split; [reflexivity|].
  cbn [self disk documents index with_index after_delete with_metadata
       with_documents].
  split; [reflexivity|]. split; [exact Hix|]. split.
  - unfold is_ivf_untrained. cbn [index_type index with_index after_delete
      with_metadata with_documents]. rewrite Hix, Ht. reflexivity.
  - exists p. split; [exact Hp | exact Hfile].
Qed.

End BelowThreshold.

Lemma deletion_untrains_clustered_store_witness :
  is_trained (index (self trained_hundred_world)) = true /\
  exists w',
    @delete_document ref_backend "u" "doc_5" trained_hundred_world
    = (w', Ret true) /\
    documents (self w')
    = dict_del "doc_5" (documents (self trained_hundred_world)) /\
    index (self w') = IndexIVFFlat None [] /\
    is_ivf_untrained (self w') = true /\
    persisted w'.
Proof.
  split; [vm_compute; reflexivity|].
  apply (@deletion_untrains_clustered_store ref_backend trained_hundred_world
           "u" "doc_5").
  - split; [vm_compute; reflexivity|].
    eexists. split; [vm_compute; reflexivity | discriminate].
  - vm_compute. reflexivity.
  - vm_compute. reflexivity.
  - vm_compute. reflexivity.
  - vm_compute. reflexivity.
  - vm_compute. lia.
Defined.
